(** * vsc.utils.rest: a shallow embedding of the REST client

    The development follows [lib/vsc/utils/rest.py]: the [Client] class
    (credential handling, header assembly, censoring for the debug log,
    body serialisation, response decoding), the [RequestBuilder] path
    accumulator and the [RestClient] facade.

    Conventions.
    - A Python [str] is a [string]; [str.upper] and [str.islower] are
      modelled on ASCII text, and the statements that depend on them say so.
      [str.encode()] and [bytes.decode('utf-8')] move between a text and its
      UTF-8 bytes; bytes are a [string] too.
    - Python objects that are passed by reference and mutated (the headers
      dictionary, a request body, the copies made by [copy.deepcopy]) live
      in a heap of cells; a Python [None] argument is Rocq's [None].
    - A dictionary is an association list in insertion order, as Python's
      [dict] keeps it.
    - [json.dumps], [json.loads], UTF-8 decoding, and of [urllib.request]
      the opener and the constructor of requests are parameters of the
      sections that use them.

    The second part follows [lib/vsc/utils/missing.py]: [any], [all],
    [nub], [nub_by], [find_sublist_index], [Monoid], [MonoidDict],
    [ConstantDict] and [TryOrFail]. *)

From Stdlib Require Import ZArith String Ascii List Bool Lia DecimalString.
From stdpp Require Import base list strings gmap.
Import ListNotations.
Local Open Scope string_scope.
Local Open Scope list_scope.

(** ** Python strings *)

Module PyStr.

(** [c.islower()] for one ASCII character. *)
Definition islower (c : ascii) : bool :=
  (97 <=? nat_of_ascii c)%nat && (nat_of_ascii c <=? 122)%nat.

Definition upper_char (c : ascii) : ascii :=
  if islower c then ascii_of_nat (nat_of_ascii c - 32) else c.

(** [s.upper()] *)
Fixpoint upper (s : string) : string :=
  match s with
  | EmptyString => EmptyString
  | String c s' => String (upper_char c) (upper s')
  end.

(** [[x for x in s if x.islower()]] *)
Fixpoint lower_chars (s : string) : list ascii :=
  match s with
  | EmptyString => []
  | String c s' => if islower c then c :: lower_chars s' else lower_chars s'
  end.

(** Truth value of a Python list: non-empty. *)
Definition truthy {A} (l : list A) : bool :=
  match l with [] => false | _ :: _ => true end.

Definition is_ascii_char (c : ascii) : bool := (nat_of_ascii c <? 128)%nat.

Fixpoint is_ascii (s : string) : bool :=
  match s with
  | EmptyString => true
  | String c s' => is_ascii_char c && is_ascii s'
  end.

(** [s.startswith('/')] and [s.endswith('/')], for a one-character
    argument. *)
Definition startswith (s : string) (c : ascii) : bool :=
  match s with
  | EmptyString => false
  | String c' _ => Ascii.eqb c' c
  end.

Fixpoint endswith (s : string) (c : ascii) : bool :=
  match s with
  | EmptyString => false
  | String c' EmptyString => Ascii.eqb c' c
  | String _ s' => endswith s' c
  end.

(** [sep.join(l)] *)
Fixpoint join (sep : string) (l : list string) : string :=
  match l with
  | [] => ""
  | [x] => x
  | x :: l' => x +:+ sep +:+ join sep l'
  end.

(** [x in t] for a tuple or list of strings. *)
Definition mem (x : string) (t : list string) : bool :=
  existsb (String.eqb x) t.

(** [str(None)] and [str(s)] as an f-string renders an optional text. *)
Definition str_opt (o : option string) : string :=
  match o with
  | None => "None"
  | Some s => s
  end.

End PyStr.

(** ** Exceptions and results *)

Inductive PyExc :=
| TypeError (msg : string)
| AttributeError (name : string)
| TransportError (status : option Z)   (* URLError / HTTPError of urllib *)
| ValueError                           (* of [Request(...)]; the message is left out *)
| UnicodeDecodeError
| Unmodelled (why : string).           (* the run leaves what this development
                                          models; not a Python exception *)

Inductive Outcome (A : Type) :=
| Ok (a : A)
| Raise (e : PyExc).
Arguments Ok {A} a.
Arguments Raise {A} e.

(** ** Library functions the client calls *)

(** [base64.b64encode] (RFC 4648, with padding). *)
Module Base64.

Definition alphabet : string :=
  "ABCDEFGHIJKLMNOPQRSTUVWXYZabcdefghijklmnopqrstuvwxyz0123456789+/".

Definition digit (n : N) : ascii :=
  match String.get (N.to_nat n) alphabet with
  | Some c => c
  | None => "="%char
  end.

Definition sextet (n : N) (k : N) : ascii :=
  digit (N.land (N.shiftr n (6 * k)) 63).

Fixpoint encode (bytes : list N) : string :=
  match bytes with
  | [] => ""
  | [a] =>
      let n := N.shiftl a 16 in
      String (sextet n 3) (String (sextet n 2) "==")
  | [a; b] =>
      let n := N.lor (N.shiftl a 16) (N.shiftl b 8) in
      String (sextet n 3) (String (sextet n 2) (String (sextet n 1) "="))
  | a :: b :: c :: rest =>
      let n := N.lor (N.lor (N.shiftl a 16) (N.shiftl b 8)) c in
      String (sextet n 3) (String (sextet n 2)
        (String (sextet n 1) (String (sextet n 0) (encode rest))))
  end.

Definition b64encode (s : string) : string :=
  encode (map N_of_ascii (list_ascii_of_string s)).

End Base64.

(** [bytes.strip()]: ASCII whitespace removed at both ends. *)
Module Strip.

Definition is_space (c : ascii) : bool :=
  let n := nat_of_ascii c in
  (n =? 32)%nat || ((9 <=? n)%nat && (n <=? 13)%nat).

Fixpoint lstrip (s : string) : string :=
  match s with
  | EmptyString => EmptyString
  | String c s' => if is_space c then lstrip s' else s
  end.

Fixpoint rstrip (s : string) : string :=
  match s with
  | EmptyString => EmptyString
  | String c s' =>
      match rstrip s' with
      | EmptyString => if is_space c then EmptyString else String c EmptyString
      | r => String c r
      end
  end.

Definition strip (s : string) : string := rstrip (lstrip s).

Fixpoint no_space (s : string) : bool :=
  match s with
  | EmptyString => true
  | String c s' => negb (is_space c) && no_space s'
  end.

End Strip.

(** [urllib.parse.urlencode] of a mapping from texts to texts, with its
    default [quote_plus]: letters, digits and [_.-~] are kept, a space
    becomes [+], every other byte becomes [%XX]. *)
Module Urllib.

Definition always_safe (c : ascii) : bool :=
  let n := nat_of_ascii c in
  ((65 <=? n)%nat && (n <=? 90)%nat)
  || ((97 <=? n)%nat && (n <=? 122)%nat)
  || ((48 <=? n)%nat && (n <=? 57)%nat)
  || PyStr.mem (String c "") ["_"; "."; "-"; "~"].

Definition hex_digit (n : nat) : ascii :=
  match String.get n "0123456789ABCDEF" with
  | Some c => c
  | None => "0"%char
  end.

Definition quote_char (c : ascii) : string :=
  if always_safe c then String c ""
  else if Ascii.eqb c " " then "+"
  else
    let n := nat_of_ascii c in
    String "%" (String (hex_digit (n / 16)) (String (hex_digit (n mod 16)) "")).

Fixpoint quote_plus (s : string) : string :=
  match s with
  | EmptyString => EmptyString
  | String c s' => quote_char c +:+ quote_plus s'
  end.

Definition urlencode (query : list (string * string)) : string :=
  PyStr.join "&" (map (fun kv => quote_plus (fst kv) +:+ "=" +:+ quote_plus (snd kv)) query).

End Urllib.

(** ** Python values, dictionaries and the heap *)

(** The values a header dictionary, a request body or a decoded JSON
    document is made of. *)
#[local] Set Warnings "-register-all".

Inductive PyVal :=
| PNone
| PBool (b : bool)
| PInt (z : Z)
| PStr (s : string)
| PList (l : list PyVal)
| PDict (d : list (string * PyVal)).

Module Dict.

Definition t := list (string * PyVal).

(** [d[k]], when present. *)
Fixpoint get (k : string) (d : t) : option PyVal :=
  match d with
  | [] => None
  | (k', v) :: d' => if String.eqb k k' then Some v else get k d'
  end.

(** [d[k] = v]: the entry is replaced where it stands, a new key goes
    last. *)
Fixpoint set (k : string) (v : PyVal) (d : t) : t :=
  match d with
  | [] => [(k, v)]
  | (k', v') :: d' =>
      if String.eqb k k' then (k', v) :: d' else (k', v') :: set k v d'
  end.

Definition keys (d : t) : list string := map fst d.

Definition items (d : t) : list (string * PyVal) := d.

End Dict.

(** [len(v)]; for a text, the number of its bytes, which is the number of
    characters of an ASCII text. *)
Definition py_len (v : PyVal) : Outcome Z :=
  match v with
  | PStr s => Ok (Z.of_nat (String.length s))
  | PList l => Ok (Z.of_nat (length l))
  | PDict d => Ok (Z.of_nat (length d))
  | PNone => Raise (TypeError "object of type 'NoneType' has no len()")
  | PBool _ => Raise (TypeError "object of type 'bool' has no len()")
  | PInt _ => Raise (TypeError "object of type 'int' has no len()")
  end.

Definition hashable (v : PyVal) : bool :=
  match v with
  | PList _ | PDict _ => false
  | _ => true
  end.

(** [set(v)]: the elements [v] iterates over, as a list. *)
Definition py_set (v : PyVal) : Outcome (list PyVal) :=
  match v with
  | PDict d => Ok (map PStr (Dict.keys d))
  | PList l =>
      if forallb hashable l then Ok l
      else Raise (TypeError "unhashable type")
  | PStr s => Ok (map (fun c => PStr (String c "")) (list_ascii_of_string s))
  | PNone | PBool _ | PInt _ => Raise (TypeError "object is not iterable")
  end.

Definition is_text (s : string) (v : PyVal) : bool :=
  match v with
  | PStr s' => String.eqb s s'
  | _ => false
  end.

(** [set(...).intersection(secrets)] for a list of texts [secrets]: the
    texts of [secrets] that are elements, each once. *)
Fixpoint intersection (elems : list PyVal) (secrets : list string) : list string :=
  match secrets with
  | [] => []
  | s :: rest =>
      let r := intersection elems rest in
      if existsb (is_text s) elems && negb (PyStr.mem s r) then s :: r else r
  end.

(** The state a call runs in: the heap of objects passed by reference, the
    records handed to [logging.debug], and the requests handed to the
    opener. *)

Definition loc := nat.

Inductive LogRecord :=
| LogPreSerialized
| LogCliRequest (method url : string)
    (body_censored : option PyVal) (headers_censored : option PyVal)
| LogOpening (base sep url : string)
| LogResponseLen (n : Z).

Record HttpRequest := mkRequest {
  full_url : string;
  data : option string;
  req_headers : list (string * PyVal);     (* the [add_header] calls, in order *)
  get_method : string
}.

(** The connection [opener.open] returns. *)
Module Conn.
Record t := mk {
  code : Z;
  headers : list (string * string);
  read : string                           (* the bytes [read()] returns *)
}.
End Conn.

Record World := mkWorld {
  heap : list PyVal;
  debug_log : list LogRecord;
  wire : list HttpRequest
}.

Definition M (A : Type) : Type := World -> Outcome A * World.

Definition ret {A} (a : A) : M A := fun w => (Ok a, w).

Definition raise {A} (e : PyExc) : M A := fun w => (Raise e, w).

Definition bind {A B} (m : M A) (k : A -> M B) : M B :=
  fun w =>
    match m w with
    | (Ok a, w') => k a w'
    | (Raise e, w') => (Raise e, w')
    end.

Notation "x <~ m ;; k" := (bind m (fun x => k))
  (at level 100, m at next level, right associativity).
Notation "m ;;; k" := (bind m (fun _ => k))
  (at level 100, right associativity).

Definition lift {A} (o : Outcome A) : M A := fun w => (o, w).

(** [try: m  except TypeError: pass] *)
Definition except_TypeError_pass (m : M unit) : M unit :=
  fun w =>
    match m w with
    | (Raise (TypeError _), w') => (Ok tt, w')
    | r => r
    end.

Definition alloc (v : PyVal) : M loc :=
  fun w => (Ok (length (heap w)),
            {| heap := heap w ++ [v]; debug_log := debug_log w; wire := wire w |}).

Definition deref (l : loc) : M PyVal :=
  fun w =>
    match heap w !! l with
    | Some v => (Ok v, w)
    | None => (Raise (Unmodelled "dangling reference"), w)
    end.

Definition store (l : loc) (v : PyVal) : M unit :=
  fun w => (Ok tt,
            {| heap := <[l := v]> (heap w); debug_log := debug_log w; wire := wire w |}).

Definition logging_debug (r : LogRecord) : M unit :=
  fun w => (Ok tt,
            {| heap := heap w; debug_log := debug_log w ++ [r]; wire := wire w |}).

Definition transmit (r : HttpRequest) : M unit :=
  fun w => (Ok tt,
            {| heap := heap w; debug_log := debug_log w; wire := wire w ++ [r] |}).

(** [obj[k] = v] for a text [k]: only a dictionary accepts it. *)
Definition setitem (l : loc) (k : string) (v : PyVal) : M unit :=
  o <~ deref l ;;
  match o with
  | PDict d => store l (PDict (Dict.set k v d))
  | PList _ => raise (TypeError "list indices must be integers or slices, not str")
  | _ => raise (TypeError "object does not support item assignment")
  end.

(** [copy.deepcopy(payload)]: a new object with the same content. *)
Definition deepcopy (payload : option loc) : M (option loc) :=
  match payload with
  | None => ret None
  | Some l => v <~ deref l ;; l' <~ alloc v ;; ret (Some l')
  end.

(** The value a reference shows when it is formatted. *)
Definition snapshot (o : option loc) : M (option PyVal) :=
  match o with
  | None => ret None
  | Some l => v <~ deref l ;; ret (Some v)
  end.

Fixpoint for_each {A} (l : list A) (body : A -> M unit) : M unit :=
  match l with
  | [] => ret tt
  | x :: l' => body x ;;; for_each l' body
  end.

(** ** The [Client] class *)

Definition CENSORED_MESSAGE : string := "<actual secret censored>".

Module Client.

Definition DELETE := "DELETE".
Definition GET := "GET".
Definition HEAD := "HEAD".
Definition PATCH := "PATCH".
Definition POST := "POST".
Definition PUT := "PUT".

Definition HTTP_METHODS : list string :=
  [DELETE; GET; HEAD; PATCH; POST; PUT].

Definition USER_AGENT := "vsc-rest-client".

(** The attributes [__init__] sets on the instance (the opener apart). *)
Record t := mk {
  auth_header : option string;
  username : option string;
  url : string;
  append_slash : bool;
  user_agent : string
}.

(** [hash_pass(password, username)] *)
Definition hash_pass (self_username : option string)
    (password : string) (username : option string) : string :=
  let username :=
    match username with
    | None | Some EmptyString => self_username      (* [if not username] *)
    | Some _ => username
    end in
  let credentials := PyStr.str_opt username +:+ ":" +:+ password in
  let encoded_credentials := Strip.strip (Base64.b64encode credentials) in
  "Basic " +:+ encoded_credentials.

(** The default of the parameter [token_type]. *)
Definition default_token_type := "Token".

(** [Client(url, username, password, token, token_type, user_agent,
    append_slash)] *)
Definition __init__ (url : string) (username password token : option string)
    (token_type : string) (user_agent : option string) (append_slash : bool)
    : Outcome t :=
  let user_agent :=
    match user_agent with
    | None | Some EmptyString => USER_AGENT         (* [if not user_agent] *)
    | Some ua => ua
    end in
  let self auth :=
    {| auth_header := auth; username := username; url := url;
       append_slash := append_slash; user_agent := user_agent |} in
  let checked : Outcome unit :=
    match username with
    | Some name =>
        match password, token with
        | None, None =>
            Raise (TypeError
              ("You need a password or an OAuth token to authenticate as " +:+ name))
        | Some _, Some _ =>
            Raise (TypeError
              "You cannot use both password and OAuth token authenication")
        | _, _ => Ok tt
        end
    | None => Ok tt
    end in
  match checked with
  | Raise e => Raise e
  | Ok _ =>
      match password, token with
      | Some pw, _ => Ok (self (Some (hash_pass username pw username)))
      | None, Some tok => Ok (self (Some (token_type +:+ " " +:+ tok)))
      | None, None => Ok (self None)
      end
  end.

(** The six verb methods of the class. *)
Inductive verb := mDelete | mGet | mHead | mPatch | mPost | mPut.

(** What [getattr(client, name)] finds. *)
Inductive attr :=
| Method (v : verb)      (* one of the six bound verb methods *)
| Callable               (* another method of the class *)
| Value.                 (* a constant of the class or an instance attribute *)

(** The attribute table of a [Client] instance, from the class body and
    [__init__]. [RequestBuilder.__getattr__] consults it only with names
    that pass its verb test, which consist of letters; the names every
    object inherits from [object] are spelled with underscores and are
    not listed. *)
Definition getattr (name : string) : option attr :=
  if String.eqb name "delete" then Some (Method mDelete)
  else if String.eqb name "get" then Some (Method mGet)
  else if String.eqb name "head" then Some (Method mHead)
  else if String.eqb name "patch" then Some (Method mPatch)
  else if String.eqb name "post" then Some (Method mPost)
  else if String.eqb name "put" then Some (Method mPut)
  else if PyStr.mem name ["__init__"; "_append_slash_to"; "request";
                          "censor_request"; "urlencode"; "hash_pass";
                          "get_connection"]
  then Some Callable
  else if PyStr.mem name ["DELETE"; "GET"; "HEAD"; "PATCH"; "POST"; "PUT";
                          "HTTP_METHODS"; "USER_AGENT"; "auth_header";
                          "username"; "url"; "append_slash"; "user_agent";
                          "opener"]
  then Some Value
  else None.

Definition verb_name (v : verb) : string :=
  match v with
  | mDelete => "delete" | mGet => "get" | mHead => "head"
  | mPatch => "patch" | mPost => "post" | mPut => "put"
  end.

(** The constant each verb method passes to [request]. *)
Definition verb_method (v : verb) : string :=
  match v with
  | mDelete => DELETE | mGet => GET | mHead => HEAD
  | mPatch => PATCH | mPost => POST | mPut => PUT
  end.

(** [_append_slash_to(url)] *)
Definition _append_slash_to (self : t) (url : string) : string :=
  if append_slash self && negb (PyStr.endswith url "/") then url +:+ "/" else url.

(** [urlencode(params)] *)
Definition urlencode (params : list (string * string)) : string :=
  match params with
  | [] => ""
  | _ :: _ => "?" +:+ Urllib.urlencode params
  end.

(** [censor_request(secrets, payload)] *)
Definition censor_request (secrets : list string) (payload : option loc)
    : M (option loc) :=
  payload_censored <~ deepcopy payload ;;
  except_TypeError_pass
    (match payload_censored with
     | None => raise (TypeError "'NoneType' object is not iterable")
     | Some l =>
         v <~ deref l ;;
         elems <~ lift (py_set v) ;;
         for_each (intersection elems secrets)
           (fun secret => setitem l secret (PStr CENSORED_MESSAGE))
     end) ;;;
  ret payload_censored.

(** The separator [get_connection] puts between the base URL and the
    relative URL. *)
Definition separator (self : t) (url : string) : string :=
  if negb (PyStr.endswith (Client.url self) "/") && negb (PyStr.startswith url "/")
  then "/" else "".

(** What a verb call returns as second component. *)
Inductive pybody :=
| Headers (h : list (string * string))    (* [conn.headers], for HEAD *)
| Decoded (v : PyVal).

Definition len_pybody (b : pybody) : Outcome Z :=
  match b with
  | Headers h => Ok (Z.of_nat (length h))
  | Decoded v => py_len v
  end.

Section Transport.

(** [json.dumps], [json.loads] ([None] for a [ValueError]),
    [bytes.decode('utf-8')] ([None] for a [UnicodeDecodeError]) and
    [self.opener.open], which answers or raises. *)
Variable json_dumps : PyVal -> string.
Variable json_loads : string -> option PyVal.
Variable decode_utf8 : string -> option string.
Variable opener_open : HttpRequest -> Outcome Conn.t.

(** The constructor [Request(url, data=body)] of [urllib.request]: whether
    it takes the URL. For a URL it cannot read, one without a scheme for
    instance, it raises [ValueError]. *)
Variable Request_accepts : string -> bool.

(** [get_connection(method, url, body, headers)]. The request is built
    first: a [ValueError] of the constructor comes before the headers are
    read, before the debug record and before the opener is called. *)
Definition get_connection (self : t) (method url : string)
    (body : option string) (headers : loc) : M Conn.t :=
  let sep := separator self url in
  let body := body in                            (* [body.encode()] *)
  if Request_accepts (Client.url self +:+ sep +:+ url) then
    h <~ deref headers ;;
    match h with
    | PDict d =>
        let request :=
          {| full_url := Client.url self +:+ sep +:+ url;
             data := body;
             req_headers := Dict.items d;
             get_method := method |} in
        logging_debug (LogOpening (Client.url self) sep url) ;;;
        transmit request ;;;
        lift (opener_open request)
    | _ => raise (AttributeError "items")
    end
  else raise ValueError.

(** [request(method, url, body, headers, content_type)] *)
Definition request (self : t) (method url : string)
    (body headers : option loc) (content_type : option string)
    : M (Z * pybody) :=
  headers <~ match headers with
             | None => alloc (PDict [])
             | Some l => ret l
             end ;;
  match content_type with
  | Some ct => setitem headers "Content-Type" (PStr ct)
  | None => ret tt
  end ;;;
  match auth_header self with
  | Some a => setitem headers "Authorization" (PStr a)
  | None => ret tt
  end ;;;
  setitem headers "User-Agent" (PStr (user_agent self)) ;;;
  headers_censored <~
    censor_request ["Authorization"; "X-Auth-Token"] (Some headers) ;;
  sent_logged <~
    match body with
    | None => ret (None, None)
    | Some lb =>
        v <~ deref lb ;;
        match v with
        | PStr s => logging_debug LogPreSerialized ;;; ret (Some s, Some lb)
        | _ =>
            body_censored <~ censor_request ["password"] (Some lb) ;;
            v' <~ deref lb ;;
            ret (Some (json_dumps v'), body_censored)
        end
    end ;;
  let body := fst sent_logged in
  let body_censored := snd sent_logged in
  bc <~ snapshot body_censored ;;
  hc <~ snapshot headers_censored ;;
  logging_debug (LogCliRequest method url bc hc) ;;;
  conn <~ get_connection self method url body headers ;;
  let status := Conn.code conn in
  pybody <~
    (if String.eqb method HEAD then ret (Headers (Conn.headers conn))
     else
       match decode_utf8 (Conn.read conn) with
       | None => raise UnicodeDecodeError
       | Some text =>
           match json_loads text with
           | Some v => ret (Decoded v)
           | None => ret (Decoded (PStr text))
           end
       end) ;;
  n <~ lift (len_pybody pybody) ;;
  logging_debug (LogResponseLen n) ;;;
  ret (status, pybody).

(** The verb methods. [params] stands for the keyword arguments
    collected by [**params]. *)
Definition get (self : t) (url : string) (headers : option loc)
    (params : list (string * string)) : M (Z * pybody) :=
  let url := _append_slash_to self url +:+ urlencode params in
  request self GET url None headers None.

Definition head (self : t) (url : string) (headers : option loc)
    (params : list (string * string)) : M (Z * pybody) :=
  let url := _append_slash_to self url +:+ urlencode params in
  request self HEAD url None headers None.

Definition delete (self : t) (url : string) (headers body : option loc)
    (params : list (string * string)) : M (Z * pybody) :=
  let url := _append_slash_to self url +:+ urlencode params in
  request self DELETE url body headers (Some "application/json").

Definition post (self : t) (url : string) (body headers : option loc)
    (params : list (string * string)) : M (Z * pybody) :=
  let url := _append_slash_to self url +:+ urlencode params in
  request self POST url body headers (Some "application/json").

Definition put (self : t) (url : string) (body headers : option loc)
    (params : list (string * string)) : M (Z * pybody) :=
  let url := _append_slash_to self url +:+ urlencode params in
  request self PUT url body headers (Some "application/json").

Definition patch (self : t) (url : string) (body headers : option loc)
    (params : list (string * string)) : M (Z * pybody) :=
  let url := _append_slash_to self url +:+ urlencode params in
  request self PATCH url body headers (Some "application/json").

(** [partial(mfun, url=url)(headers=..., body=..., **params)]: the call
    of a bound verb method with keyword arguments. [get] and [head]
    have no parameter [body]; a keyword of that name would be one more
    entry of [**params], which is not modelled. *)
Definition call (mfun : verb) (self : t) (url : string)
    (headers body : option loc) (params : list (string * string))
    : M (Z * pybody) :=
  match mfun, body with
  | mGet, None => get self url headers params
  | mHead, None => head self url headers params
  | mGet, Some _ | mHead, Some _ =>
      raise (Unmodelled "body as a query parameter")
  | mDelete, _ => delete self url headers body params
  | mPost, _ => post self url body headers params
  | mPut, _ => put self url body headers params
  | mPatch, _ => patch self url body headers params
  end.

End Transport.

End Client.

(** ** The path accumulator *)

(** A key of an access: attribute names are texts, an index may be a
    number ([issues[1]]). *)
Inductive PyKey :=
| KStr (s : string)
| KInt (z : Z).

(** [str(key)] *)
Definition str (key : PyKey) : string :=
  match key with
  | KStr s => s
  | KInt z => NilZero.string_of_int (Z.to_int z)
  end.

Module RequestBuilder.

Record t := mk {
  client : Client.t;
  url : string
}.

(** [RequestBuilder(client)] *)
Definition __init__ (client : Client.t) : t :=
  {| client := client; url := "" |}.

(** What one access on a builder evaluates to. *)
Inductive result :=
| Self (b : t)                          (* [return self], with the longer path *)
| Partial (mfun : Client.verb) (url : string)
                                        (* [partial(mfun, url=self.url)] *)
| PartialOther (name : string) (url : string)
                                        (* the same around another method *)
| Stored (name : string).               (* an attribute the object already has *)

(** The test of the [if] in [__getattr__]. *)
Definition is_verb_key (key : string) : bool :=
  PyStr.mem (PyStr.upper key) Client.HTTP_METHODS
  && PyStr.truthy (PyStr.lower_chars key).

Definition __getattr__ (self : t) (key : PyKey) : Outcome result :=
  let key := str key in
  if is_verb_key key then
    match Client.getattr key with
    | Some (Client.Method mfun) => Ok (Partial mfun (url self))
    | Some Client.Callable => Ok (PartialOther key (url self))
    | Some Client.Value =>
        Raise (TypeError "the first argument must be callable")
    | None => Raise (AttributeError key)
    end
  else
    Ok (Self {| client := client self; url := url self +:+ "/" +:+ key |}).

(** [__getitem__ = __getattr__] *)
Definition __getitem__ := __getattr__.

(** *** Attribute access and indexed access

    [b[key]] calls [__getitem__]. [b.name] calls [__getattr__] only when
    the ordinary lookup finds nothing: the instance attributes set by
    [__init__] and the names of the class body are found first. Other
    names of the form [__x__] may be resolved by [object]; which ones
    depends on the interpreter, and they are left unmodelled. *)

Definition instance_attrs : list string := ["client"; "url"].

Definition class_attrs : list string :=
  ["__init__"; "__getattr__"; "__getitem__"; "__str__"; "__repr__"].

Definition is_dunder (name : string) : bool :=
  String.prefix "__" name && (2 <? String.length name)%nat
  && String.eqb (substring (String.length name - 2) 2 name) "__".

Inductive access :=
| Attr (name : string)
| Item (key : PyKey).

Definition key_of (a : access) : PyKey :=
  match a with
  | Attr name => KStr name
  | Item key => key
  end.

(** The text an access contributes. *)
Definition name_of (a : access) : string := str (key_of a).

Definition get (self : t) (a : access) : Outcome result :=
  match a with
  | Attr name =>
      if PyStr.mem name instance_attrs || PyStr.mem name class_attrs
      then Ok (Stored name)
      else if is_dunder name
      then Raise (Unmodelled "special attribute")
      else __getattr__ self (KStr name)
  | Item key => __getitem__ self key
  end.

(** A chain of accesses [b.a1[a2].a3...]: each one is applied to what the
    previous one returned. Once an access returns something that is not
    the builder, a further access is an access on that other object. *)
Fixpoint chain (self : t) (accs : list access) : Outcome result :=
  match accs with
  | [] => Ok (Self self)
  | a :: rest =>
      match get self a with
      | Ok (Self b) => chain b rest
      | Ok r =>
          match rest with
          | [] => Ok r
          | _ :: _ => Raise (Unmodelled "access on a non-builder object")
          end
      | Raise e => Raise e
      end
  end.

(** An access that adds a segment: its text fails the verb test, and in
    attribute style it is not a name the ordinary lookup may resolve. *)
Definition segment_access (a : access) : bool :=
  PyStr.is_ascii (name_of a)
  && negb (is_verb_key (name_of a))
  && match a with
     | Attr name =>
         negb (PyStr.mem name instance_attrs || PyStr.mem name class_attrs
               || is_dunder name)
     | Item _ => true
     end.

(** The path after the segments [names], from the empty path. *)
Fixpoint path_of (names : list string) : string :=
  match names with
  | [] => ""
  | s :: rest => "/" +:+ s +:+ path_of rest
  end.

(** The same chain with every access written as an indexed access. *)
Definition as_items (accs : list access) : list access :=
  map (fun a => Item (key_of a)) accs.

End RequestBuilder.

(** ** The facade *)

Module RestClient.

Record t := mk { client : Client.t }.

(** The constructor: its arguments are those of [Client]. *)
Definition __init__ (url : string) (username password token : option string)
    (token_type : string) (user_agent : option string) (append_slash : bool)
    : Outcome t :=
  match Client.__init__ url username password token token_type
          user_agent append_slash with
  | Ok c => Ok {| client := c |}
  | Raise e => Raise e
  end.

(** [RestClient.__getattr__]: a fresh builder for every chain. *)
Definition __getattr__ (self : t) (key : string) : Outcome RequestBuilder.result :=
  RequestBuilder.__getattr__ (RequestBuilder.__init__ (client self)) (KStr key).

(** [g.name]: the attribute [client] and the two methods of the class
    are found by the ordinary lookup. *)
Definition get (self : t) (name : string) : Outcome RequestBuilder.result :=
  if PyStr.mem name ["client"; "__init__"; "__getattr__"]
  then Ok (RequestBuilder.Stored name)
  else if RequestBuilder.is_dunder name
  then Raise (Unmodelled "special attribute")
  else __getattr__ self name.

Section Expression.

Variable json_dumps : PyVal -> string.
Variable json_loads : string -> option PyVal.
Variable decode_utf8 : string -> option string.
Variable opener_open : HttpRequest -> Outcome Conn.t.
Variable Request_accepts : string -> bool.

(** The expression [g.first<accs>(headers=..., body=..., **params)]:
    an attribute of the facade, a chain of accesses on the builder it
    returns, and a call of the result with keyword arguments. *)
Definition call_chain (self : t) (first : string)
    (accs : list RequestBuilder.access)
    (headers body : option loc) (params : list (string * string))
    : M (Z * Client.pybody) :=
  let callee :=
    match get self first with
    | Ok (RequestBuilder.Self b) => RequestBuilder.chain b accs
    | Ok r =>
        match accs with
        | [] => Ok r
        | _ :: _ => Raise (Unmodelled "access on a non-builder object")
        end
    | Raise e => Raise e
    end in
  match callee with
  | Ok (RequestBuilder.Partial mfun url) =>
      Client.call json_dumps json_loads decode_utf8 opener_open Request_accepts
        mfun (client self) url headers body params
  | Ok (RequestBuilder.Self _) =>
      raise (TypeError "'RequestBuilder' object is not callable")
  | Ok _ => raise (Unmodelled "call of another attribute")
  | Raise e => raise e
  end.

End Expression.

End RestClient.

(** ** Closed forms used in the statements *)

(** The dictionary the loop of [censor_request] leaves: the placeholder is
    stored under every secret that is a key. *)
Definition censor_dict (secrets : list string) (d : Dict.t) : Dict.t :=
  fold_left (fun d' secret => Dict.set secret (PStr CENSORED_MESSAGE) d')
    (intersection (map PStr (Dict.keys d)) secrets) d.

Definition censor_value (secrets : list string) (v : PyVal) : PyVal :=
  match v with
  | PDict d => PDict (censor_dict secrets d)
  | _ => v
  end.

(** The headers dictionary after the three assignments of [request]. *)
Definition merged_headers (self : Client.t) (content_type : option string)
    (d : Dict.t) : Dict.t :=
  let d1 := match content_type with
            | Some ct => Dict.set "Content-Type" (PStr ct) d
            | None => d
            end in
  let d2 := match Client.auth_header self with
            | Some a => Dict.set "Authorization" (PStr a) d1
            | None => d1
            end in
  Dict.set "User-Agent" (PStr (Client.user_agent self)) d2.

Definition is_dict (v : PyVal) : bool :=
  match v with PDict _ => true | _ => false end.

Definition with_heap (w : World) (h : list PyVal) : World :=
  {| heap := h; debug_log := debug_log w; wire := wire w |}.

Definition is_str (v : PyVal) : bool :=
  match v with PStr _ => true | _ => false end.

(** The reference [request] works on: the caller's dictionary, or the
    fresh one made for [headers=None]. *)
Definition headers_loc (h : list PyVal) (headers : option loc) : loc :=
  match headers with
  | Some l => l
  | None => length h
  end.

Definition heap_with_headers (h : list PyVal) (headers : option loc) : list PyVal :=
  match headers with
  | Some _ => h
  | None => h ++ [PDict []]
  end.

(** The URL [get_connection] hands to [Request(...)]. *)
Definition joined_url (self : Client.t) (url : string) : string :=
  Client.url self +:+ Client.separator self url +:+ url.

Section ClosedForms.

Variable json_dumps : PyVal -> string.
Variable json_loads : string -> option PyVal.
Variable decode_utf8 : string -> option string.
Variable opener_open : HttpRequest -> Outcome Conn.t.

(** The body handed to the opener and the body handed to the log, from
    the body object [bv] the caller passed. *)
Definition body_sent (bv : option PyVal) : option string :=
  match bv with
  | None => None
  | Some (PStr s) => Some s
  | Some v => Some (json_dumps v)
  end.

Definition body_logged (bv : option PyVal) : option PyVal :=
  match bv with
  | None => None
  | Some (PStr s) => Some (PStr s)
  | Some v => Some (censor_value ["password"] v)
  end.

(** The request [get_connection] builds. *)
Definition request_sent (self : Client.t) (method url : string)
    (body : option string) (headers : Dict.t) : HttpRequest :=
  {| full_url := joined_url self url;
     data := body;
     req_headers := Dict.items headers;
     get_method := method |}.

(** The body [request] returns for an answer of the opener. *)
Definition decode_response (method : string) (conn : Conn.t)
    : Outcome Client.pybody :=
  if String.eqb method Client.HEAD then Ok (Client.Headers (Conn.headers conn))
  else
    match decode_utf8 (Conn.read conn) with
    | None => Raise UnicodeDecodeError
    | Some text =>
        match json_loads text with
        | Some v => Ok (Client.Decoded v)
        | None => Ok (Client.Decoded (PStr text))
        end
    end.

(** The end of [request], from the call of the opener on. *)
Definition answer (method : string) (req : HttpRequest) (w : World)
    : Outcome (Z * Client.pybody) * World :=
  match opener_open req with
  | Raise e => (Raise e, w)
  | Ok conn =>
      match decode_response method conn with
      | Raise e => (Raise e, w)
      | Ok pb =>
          match Client.len_pybody pb with
          | Raise e => (Raise e, w)
          | Ok n =>
              (Ok (Conn.code conn, pb),
               {| heap := heap w;
                  debug_log := debug_log w ++ [LogResponseLen n];
                  wire := wire w |})
          end
      end
  end.

End ClosedForms.

(** The headers argument is [None] or refers to a dictionary. *)
Definition headers_ok (h : list PyVal) (headers : option loc) : Prop :=
  match headers with
  | None => True
  | Some l => exists d, h !! l = Some (PDict d)
  end.

(** The caller's dictionary as it is before the call. *)
Definition headers_before (h : list PyVal) (headers : option loc) : Dict.t :=
  match headers with
  | Some l => match h !! l with Some (PDict d) => d | _ => [] end
  | None => []
  end.

(** The body argument is [None] or refers to an object. *)
Definition body_ok (h : list PyVal) (body : option loc) : Prop :=
  forall lb, body = Some lb -> (lb < length h)%nat.

(** The content type each verb method passes to [request]. *)
Definition content_type_of (v : Client.verb) : option string :=
  match v with
  | Client.mGet | Client.mHead => None
  | _ => Some "application/json"
  end.

Definition takes_body (v : Client.verb) : bool :=
  match v with
  | Client.mGet | Client.mHead => false
  | _ => true
  end.

(** What the three assignments of [request] leave in the dictionary [d']
    that held [d]: the user agent, the authorization header and the content
    type where there is one, every other entry as it was. *)
Definition headers_updated (self : Client.t) (content_type : option string)
    (d d' : Dict.t) : Prop :=
  Dict.get "User-Agent" d' = Some (PStr (Client.user_agent self))
  /\ (forall a, Client.auth_header self = Some a ->
        Dict.get "Authorization" d' = Some (PStr a))
  /\ (forall ct, content_type = Some ct ->
        Dict.get "Content-Type" d' = Some (PStr ct))
  /\ (forall k, k <> "User-Agent" ->
        (k = "Authorization" -> Client.auth_header self = None) ->
        (k = "Content-Type" -> content_type = None) ->
        Dict.get k d' = Dict.get k d).

(** The number of times the character [c] occurs in [s], and whether every
    character of [s] passes [p]. *)
Fixpoint occurrences (c : ascii) (s : string) : nat :=
  match s with
  | EmptyString => 0
  | String c' s' => (if Ascii.eqb c' c then 1 else 0) + occurrences c s'
  end.

Fixpoint all_chars (p : ascii -> bool) (s : string) : bool :=
  match s with
  | EmptyString => true
  | String c s' => p c && all_chars p s'
  end.

(** The characters [quote_plus] lets through or produces. *)
Definition quoted_char (c : ascii) : bool :=
  Urllib.always_safe c || Ascii.eqb c "+" || Ascii.eqb c "%".

(** The characters of a query string. *)
Definition query_char (c : ascii) : bool :=
  quoted_char c || Ascii.eqb c "=" || Ascii.eqb c "&".

(** ** [vsc.utils.missing]: the list functions

    [lib/vsc/utils/missing.py]. The elements of a list are values of a type
    with a decidable equality (Python's [==]) that can be put in a set
    (Python's hashable values). *)

Module Missing.

(** [sum(l)]: the sum from the left, starting at 0. *)
Definition sum (l : list Z) : Z := fold_left Z.add l 0%Z.

(** The integer a [bool] counts for in a sum. *)
Definition int_of_bool (b : bool) : Z := if b then 1%Z else 0%Z.

Section Truth.

Context {A : Type}.

(** [bool(x)] *)
Variable bool_ : A -> bool.

(** [any(ls)] *)
Definition any (ls : list A) : bool :=
  negb (sum (map (fun x => int_of_bool (bool_ x)) ls) =? 0)%Z.

(** [all(ls)] *)
Definition all (ls : list A) : bool :=
  (sum (map (fun x => int_of_bool (bool_ x)) ls) =? Z.of_nat (length ls))%Z.

End Truth.

Section Lists.

Context {A : Type} {eq_dec : EqDecision A} {countable : Countable A}.

(** The comprehension of [nub], with the set [seen] it updates on the
    way. *)
Fixpoint nub_from (seen : gset A) (list_ : list A) : list A :=
  match list_ with
  | [] => []
  | x :: rest =>
      if decide (x ∈ seen) then nub_from seen rest
      else x :: nub_from ({[x]} ∪ seen) rest
  end.

(** [nub(list_)] *)
Definition nub (list_ : list A) : list A := nub_from ∅ list_.



(** [ls[i:j]] for [0 <= i <= j]. *)
Definition slice (ls : list A) (i j : nat) : list A := take (j - i) (drop i ls).

(** [find_sublist_index(ls, sub_ls)]: the loop over [xrange(len(ls))]
    returns at the first index whose slice equals [sub_ls]. *)
Definition find_sublist_index (ls sub_ls : list A) : option nat :=
  let sub_length := length sub_ls in
  List.find (fun i => bool_decide (slice ls i (i + sub_length) = sub_ls))
    (seq 0 (length ls)).

End Lists.

End Missing.

(** ** [vsc.utils.missing]: monoids and the dictionary that combines *)

Module Monoid.

Record t (A : Type) := mk {
  null : A;
  mappend : A -> A -> A
}.
Arguments mk {A} null mappend.
Arguments null {A} self : rename.
Arguments mappend {A} self : rename.

(** [fold(xs)] for a list or a tuple, which has no [__fold__]:
    [reduce(self.mappend, xs, self.null)]. *)
Definition fold {A} (self : t A) (xs : list A) : A :=
  fold_left (mappend self) xs (null self).

(** [__call__]: the arguments are folded. *)
Definition __call__ {A} (self : t A) (args : list A) : A := fold self args.

(** [star()] *)
Definition star {A} (self : t A) : t A := mk (null self) (mappend self).

End Monoid.

Module MonoidDict.

Section Dict.

Context {K : Type} {eq_dec : EqDecision K} {countable : Countable K} {A : Type}.

(** The dictionary and the attribute [monoid]. *)
Record t := mk {
  items : gmap K A;
  monoid : Monoid.t A
}.

(** [d[key] = value] *)
Definition __setitem__ (self : t) (key : K) (value : A) : t :=
  match items self !! key with
  | Some current =>
      {| items := <[key := Monoid.__call__ (monoid self) [current; value]]>
                    (items self);
         monoid := monoid self |}
  | None =>
      {| items := <[key := value]> (items self); monoid := monoid self |}
  end.

(** [d[key]] *)
Definition __getitem__ (self : t) (key : K) : A :=
  match items self !! key with
  | None => Monoid.null (monoid self)
  | Some v => v
  end.

(** A run of assignments [d[k] = v], in order. *)
Definition set_each (self : t) (pairs : list (K * A)) : t :=
  fold_left (fun d kv => __setitem__ d (fst kv) (snd kv)) pairs self.

End Dict.

Arguments t K {eq_dec countable} A.

End MonoidDict.

(** ** [vsc.utils.missing]: the retry decorator *)

Module TryOrFail.

Section Retry.

Context {R E : Type}.

(** Whether an exception is one of [self.exceptions]. *)
Variable is_caught : E -> bool.

(** What the decorated function does when it is called for the [i]-th
    time in one run of [new_function], counting from 0: it returns or
    raises. *)
Variable function : nat -> R + E.

Record t := mk {
  n : Z;
  sleep : Z
}.

(** What [new_function] does besides returning. *)
Inductive event :=
| Called (i : nat)
| LogException (i : nat) (err : E)
| LogWarning (seconds : Z)
| Sleep (seconds : Z).

Inductive outcome :=
| Returned (r : option R)      (* [None]: the loop ended without a [return] *)
| Raised (err : E).

(** The loop of [new_function] from index [i] on, with [todo] indices
    left in [xrange(0, self.n)]. *)
Fixpoint attempts (self : t) (todo : nat) (i : nat) : list event * outcome :=
  match todo with
  | O => ([], Returned None)
  | S todo' =>
      match function i with
      | inl r => ([Called i], Returned (Some r))
      | inr err =>
          if is_caught err then
            if (Z.of_nat i =? n self - 1)%Z then ([Called i], Raised err)
            else
              let rest := attempts self todo' (S i) in
              (Called i :: LogException i err
                 :: (if (0 <? sleep self)%Z
                     then [LogWarning (sleep self); Sleep (sleep self)]
                     else [])
                 ++ fst rest,
               snd rest)
          else ([Called i], Raised err)
      end
  end.

(** [new_function], the function the decorator returns. *)
Definition new_function (self : t) : list event * outcome :=
  attempts self (Z.to_nat (n self)) 0.

Definition is_call (ev : event) : bool :=
  match ev with Called _ => true | _ => false end.

Definition is_sleep (ev : event) : bool :=
  match ev with Sleep _ => true | _ => false end.

(** The number of calls of the function and of [time.sleep] in a run. *)
Definition calls (evs : list event) : nat := length (filter is_call evs).

Definition sleeps (evs : list event) : nat := length (filter is_sleep evs).

(** Whether the call of attempt [i] raises an exception that the [except]
    clause catches. *)
Definition caught_at (i : nat) : bool :=
  match function i with
  | inl _ => false
  | inr err => is_caught err
  end.

(** How a run ends at an attempt [i] that is not retried: with the value
    the call returns or with the exception it raises. *)
Definition ends_at (i : nat) : outcome :=
  match function i with
  | inl r => Returned (Some r)
  | inr err => Raised err
  end.

End Retry.

Arguments t : clear implicits.
Arguments event : clear implicits.

End TryOrFail.

(** ** [vsc.utils.missing]: the dictionary of known keys *)

Module ConstantDict.

Section Dict.

Context {V Exc : Type}.

(** The class attribute a subclass sets. *)
Variable KNOWN_KEYS : list string.

(** [self.log.raiseException(msg)]: the logger comes from [fancylogger],
    which is not part of the source; whether the call raises ([Some]) or
    returns is left to it. *)
Variable raiseException : string -> option Exc.

(** The texts of a value and of [KNOWN_KEYS] in a message. *)
Variable str_value : V -> string.
Variable str_known_keys : string.

Record t := mk {
  items : gmap string V;
  is_defined : bool;
  skip_unknown : bool
}.

Inductive result :=
| Done
| Raised (e : Exc).

Definition raised (o : option Exc) : result :=
  match o with
  | Some e => Raised e
  | None => Done
  end.

(** [set_defined()] *)
Definition set_defined (self : t) : t :=
  {| items := items self; is_defined := true; skip_unknown := skip_unknown self |}.

(** [unknown_key(msg)] *)
Definition unknown_key (self : t) (msg : string) : result :=
  if skip_unknown self then Done               (* [self.log.debug(msg)] *)
  else raised (raiseException msg).

(** [d[key] = value] *)
Definition __setitem__ (self : t) (key : string) (value : V) : t * result :=
  if is_defined self then
    (self,
     raised (raiseException
               ("Modifying key '" +:+ key +:+ "' is prohibited after set_defined().")))
  else if PyStr.mem key KNOWN_KEYS then
    ({| items := <[key := value]> (items self);
        is_defined := is_defined self;
        skip_unknown := skip_unknown self |},
     Done)
  else
    (self,
     unknown_key self
       ("Key '" +:+ key +:+ "' (value: '" +:+ str_value value
        +:+ "') is not valid (valid keys: " +:+ str_known_keys +:+ ")")).

(** A loop of assignments [self[k] = v]; an exception ends it. *)
Fixpoint set_each (self : t) (pairs : list (string * V)) : t * result :=
  match pairs with
  | [] => (self, Done)
  | (k, v) :: rest =>
      match __setitem__ self k v with
      | (self', Done) => set_each self' rest
      | r => r
      end
  end.

(** [update] with the positional arguments [args], each a dictionary or an
    iterable of pairs given by its pairs in the order of iteration, and the
    keyword arguments [kwargs]. *)
Definition update (self : t) (args : list (list (string * V)))
    (kwargs : list (string * V)) : t * result :=
  let after_args :=
    match args with
    | [] => (self, Done)
    | arg :: more =>
        match
          match more with
          | [] => Done
          | _ :: _ => raised (raiseException "Only one argument supported")
          end
        with
        | Raised e => (self, Raised e)
        | Done => set_each self arg
        end
    end in
  match after_args with
  | (self', Done) => set_each self' kwargs
  | r => r
  end.

(** [update_skip_unknown] *)
Definition update_skip_unknown (self : t) (args : list (list (string * V)))
    (kwargs : list (string * V)) : t * result :=
  let self1 := {| items := items self; is_defined := is_defined self;
                  skip_unknown := true |} in
  match update self1 args kwargs with
  | (self2, Done) =>
      ({| items := items self2; is_defined := is_defined self2;
          skip_unknown := false |}, Done)
  | r => r
  end.

(** The pairs whose key is one of [KNOWN_KEYS], and the dictionary after
    storing a list of pairs in order. *)
Definition known_pairs (pairs : list (string * V)) : list (string * V) :=
  List.filter (fun kv => PyStr.mem (fst kv) KNOWN_KEYS) pairs.

Definition store_each (m : gmap string V) (pairs : list (string * V)) :
    gmap string V :=
  fold_left (fun m' kv => <[fst kv := snd kv]> m') pairs m.

(** What [__getitem__] raises. *)
Inductive key_error :=
| KeyErrorOf (key : string)          (* [KeyError(err)] around the dictionary's own *)
| KeyErrorUnknown (msg : string).

(** [d[key]] *)
Definition __getitem__ (self : t) (key : string) : V + key_error :=
  match items self !! key with
  | Some v => inl v
  | None =>
      if PyStr.mem key KNOWN_KEYS then inr (KeyErrorOf key)
      else inr (KeyErrorUnknown
                  ("unknown key '" +:+ key +:+ "', known keys: "
                   +:+ str_known_keys))
  end.

End Dict.

End ConstantDict.

(** ** Sample objects *)

Definition sample_client : Client.t :=
  {| Client.auth_header := Some "Token abc";
     Client.username := None;
     Client.url := "https://api.example.com";
     Client.append_slash := false;
     Client.user_agent := Client.USER_AGENT |}.

(** A small stand-in for the library and the server, to run the code on:
    the opener answers 200 with a given body, and [json.loads] knows three
    documents. *)
Module Fixture.

Definition json_dumps (v : PyVal) : string :=
  match v with
  | PDict [] => "{}"
  | _ => "<json>"
  end.

Definition json_loads (s : string) : option PyVal :=
  if String.eqb s "[]" then Some (PList [])
  else if String.eqb s "{}" then Some (PDict [])
  else if String.eqb s "0" then Some (PInt 0)
  else None.

Definition decode_utf8 (s : string) : option string :=
  if PyStr.is_ascii s then Some s else None.

Definition conn (body : string) : Conn.t :=
  {| Conn.code := 200;
     Conn.headers := [("Content-Type", "application/json")];
     Conn.read := body |}.

Definition answering (body : string) (_ : HttpRequest) : Outcome Conn.t :=
  Ok (conn body).

(** A stand-in for the constructor of requests: it takes the URLs of the
    schemes [http] and [https]. *)
Definition Request_accepts (url : string) : bool :=
  String.prefix "http://" url || String.prefix "https://" url.

Definition empty_world : World :=
  {| heap := []; debug_log := []; wire := [] |}.

(** The monoid of lists under concatenation, and the one of integers under
    addition. *)
Definition list_monoid : Monoid.t (list Z) := Monoid.mk [] (@app Z).

Definition sum_monoid : Monoid.t Z := Monoid.mk 0%Z Z.add.

(** A function that raises on its first two calls and returns 7 on the
    third, and one that raises on every call. *)
Definition flaky (i : nat) : Z + string :=
  if (i <? 2)%nat then inr "timeout" else inl 7%Z.

Definition failing (i : nat) : Z + string := inr "timeout".

(** [exceptions=(Exception,)], and two decorators: five tries a second
    apart, and three tries without a pause. *)
Definition catch_all (err : string) : bool := true.

Definition five_tries : TryOrFail.t := {| TryOrFail.n := 5; TryOrFail.sleep := 1 |}.

Definition three_tries : TryOrFail.t := {| TryOrFail.n := 3; TryOrFail.sleep := 0 |}.

(** An empty [MonoidDict] that adds up integers. *)
Definition tally : MonoidDict.t string Z :=
  {| MonoidDict.items := ∅; MonoidDict.monoid := sum_monoid |}.

(** A subclass of [ConstantDict] with two known keys, whose logger raises
    on [raiseException]. *)
Definition known_keys : list string := ["name"; "version"].

Definition raise_always (msg : string) : option string := Some msg.

Definition str_text (v : string) : string := v.

Definition str_known_keys : string := "['name', 'version']".

Definition open_dict : ConstantDict.t (V:=string) :=
  {| ConstantDict.items := {["name" := "vsc-base"]};
     ConstantDict.is_defined := false;
     ConstantDict.skip_unknown := false |}.

End Fixture.

(** * Properties *)

(** ** Texts *)

Lemma append_cons (x : ascii) (a b : string) :
  String x a +:+ b = String x (a +:+ b).
Proof. reflexivity. Qed.

Lemma append_nil_l (a : string) : "" +:+ a = a.
Proof. reflexivity. Qed.

Lemma append_assoc (a b c : string) : (a +:+ b) +:+ c = a +:+ (b +:+ c).
Proof.
  induction a as [|x a IH]; [reflexivity|].
  now rewrite !append_cons, IH.
Qed.

Lemma append_nil_r (a : string) : a +:+ "" = a.
Proof.
  induction a as [|x a IH]; [reflexivity|].
  now rewrite append_cons, IH.
Qed.

Lemma mem_In (x : string) (t : list string) : PyStr.mem x t = true <-> In x t.
Proof.
  unfold PyStr.mem. rewrite existsb_exists. split.
  - intros (y & Hy & E). apply String.eqb_eq in E. now subst.
  - intros H. exists x. split; [assumption|apply String.eqb_refl].
Qed.

Lemma truthy_lower_chars (s : string) :
  PyStr.truthy (PyStr.lower_chars s) = true <->
  exists c, In c (list_ascii_of_string s) /\ PyStr.islower c = true.
Proof.
  induction s as [|c s IH]; simpl.
  - split; [discriminate|]. intros (c & [] & _).
  - destruct (PyStr.islower c) eqn:E; simpl.
    + split; [|reflexivity]. intros _. exists c. auto.
    + rewrite IH. split.
      * intros (c' & Hin & Hc'). exists c'. auto.
      * intros (c' & [->|Hin] & Hc'); [congruence|]. exists c'. auto.
Qed.

(** The library functions on the inputs of the specification. *)

Example b64encode_user_pass : Base64.b64encode "user:pass" = "dXNlcjpwYXNz".
Proof. reflexivity. Qed.

Example b64encode_padding :
  Base64.b64encode "a" = "YQ==" /\ Base64.b64encode "ab" = "YWI="
  /\ Base64.b64encode "" = "".
Proof. repeat split. Qed.

Example urlencode_state_open :
  Client.urlencode [("state", "open")] = "?state=open"
  /\ Client.urlencode [] = ""
  /\ Client.urlencode [("q", "a b/c"); ("x", "y&z")] = "?q=a+b%2Fc&x=y%26z".
Proof. repeat split. Qed.

Example upper_and_lower_chars :
  PyStr.upper "Get-1" = "GET-1" /\ PyStr.lower_chars "Get-1" = ["e"%char; "t"%char].
Proof. split; reflexivity. Qed.

Example str_of_index : str (KInt 12) = "12" /\ str (KInt (-3)) = "-3".
Proof. split; reflexivity. Qed.

(** ** Dictionaries *)

Module DictFacts.
Import Dict.

Lemma get_set_eq (k : string) (v : PyVal) (d : t) : get k (set k v d) = Some v.
Proof.
  induction d as [|[k' v'] d IH]; cbn [set get].
  - now rewrite String.eqb_refl.
  - destruct (String.eqb k k') eqn:E; cbn [get]; rewrite E; [reflexivity|exact IH].
Qed.

Lemma get_set_ne (k k' : string) (v : PyVal) (d : t) :
  k <> k' -> get k' (set k v d) = get k' d.
Proof.
  intros Hne. induction d as [|[k0 v0] d IH]; cbn [set get].
  - destruct (String.eqb_spec k' k) as [->|_]; [now destruct Hne|reflexivity].
  - destruct (String.eqb_spec k k0) as [->|_]; cbn [get].
    + destruct (String.eqb_spec k' k0) as [->|_]; [now destruct Hne|reflexivity].
    + now rewrite IH.
Qed.

Lemma get_set (k k' : string) (v : PyVal) (d : t) :
  get k' (set k v d) = if String.eqb k' k then Some v else get k' d.
Proof.
  destruct (String.eqb_spec k' k) as [->|Hne].
  - apply get_set_eq.
  - apply get_set_ne. congruence.
Qed.

Lemma keys_set_In (k : string) (v : PyVal) (d : t) :
  In k (keys d) -> keys (set k v d) = keys d.
Proof.
  unfold keys. induction d as [|[k' v'] d IH]; cbn [set map fst]; [intros []|].
  intros [->|Hin].
  - now rewrite String.eqb_refl.
  - destruct (String.eqb k k'); cbn [map fst]; [reflexivity|now rewrite IH].
Qed.


Lemma fold_set_get (x : PyVal) (ks : list string) (d : t) (k : string) :
  get k (fold_left (fun d' s => set s x d') ks d)
  = if PyStr.mem k ks then Some x else get k d.
Proof.
  revert d. induction ks as [|k0 ks IH]; intros d; [reflexivity|].
  cbn [fold_left]. rewrite IH. unfold PyStr.mem. cbn [existsb].
  fold (PyStr.mem k ks). destruct (PyStr.mem k ks).
  - now rewrite orb_true_r.
  - rewrite orb_false_r. apply get_set.
Qed.

Lemma fold_set_keys (x : PyVal) (ks : list string) (d : t) :
  (forall k, In k ks -> In k (keys d)) ->
  keys (fold_left (fun d' s => set s x d') ks d) = keys d.
Proof.
  revert d. induction ks as [|k0 ks IH]; intros d Hin; [reflexivity|].
  cbn [fold_left]. rewrite IH.
  - apply keys_set_In, Hin. now left.
  - intros k Hk. rewrite keys_set_In; apply Hin; [now right|now left].
Qed.

Lemma set_set_comm (k1 k2 : string) (x : PyVal) (d : t) :
  In k1 (keys d) -> In k2 (keys d) ->
  set k1 x (set k2 x d) = set k2 x (set k1 x d).
Proof.
  unfold keys. induction d as [|[k v] d IH]; [intros []|].
  cbn [map fst In]. intros H1 H2.
  destruct (String.eqb k1 k) eqn:E1, (String.eqb k2 k) eqn:E2;
    cbn [set]; rewrite ?E1, ?E2; cbn [set]; rewrite ?E1, ?E2;
    try reflexivity.
  f_equal. apply IH.
  - destruct H1 as [<-|H1]; [now rewrite String.eqb_refl in E1|exact H1].
  - destruct H2 as [<-|H2]; [now rewrite String.eqb_refl in E2|exact H2].
Qed.

(** Python iterates over a set in no fixed order; the dictionary the
    assignments leave does not depend on it. *)
Lemma fold_set_any_order (x : PyVal) (ks ks' : list string) (d : t) :
  Permutation ks ks' ->
  (forall k, In k ks -> In k (keys d)) ->
  fold_left (fun d' s => set s x d') ks d
  = fold_left (fun d' s => set s x d') ks' d.
Proof.
  intros HP. revert d. induction HP as [|k l l' HP IH|k1 k2 l|l l' l'' HP1 IH1 HP2 IH2];
    intros d Hin.
  - reflexivity.
  - cbn [fold_left]. apply IH. intros k' Hk'.
    rewrite keys_set_In; apply Hin; [now right|now left].
  - cbn [fold_left]. rewrite set_set_comm; [reflexivity| |].
    + apply Hin. right. now left.
    + apply Hin. now left.
  - rewrite IH1 by exact Hin. apply IH2. intros k Hk. apply Hin.
    apply (Permutation_in k (Permutation_sym HP1) Hk).
Qed.

End DictFacts.

Lemma existsb_is_text (s : string) (ks : list string) :
  existsb (is_text s) (map PStr ks) = PyStr.mem s ks.
Proof.
  unfold PyStr.mem. induction ks as [|k ks IH]; [reflexivity|].
  cbn [map existsb is_text]. now rewrite IH.
Qed.

Lemma mem_intersection (elems : list PyVal) (secrets : list string) (s : string) :
  PyStr.mem s (intersection elems secrets)
  = PyStr.mem s secrets && existsb (is_text s) elems.
Proof.
  induction secrets as [|k secrets IH]; [reflexivity|].
  cbn [intersection].
  assert (Hcons : forall l, PyStr.mem s (k :: l) = String.eqb s k || PyStr.mem s l)
    by reflexivity.
  rewrite (Hcons secrets).
  destruct (existsb (is_text k) elems
            && negb (PyStr.mem k (intersection elems secrets))) eqn:E.
  - rewrite Hcons, IH. apply andb_true_iff in E as [E1 _].
    destruct (String.eqb_spec s k) as [->|_]; [|reflexivity].
    rewrite E1. cbn. reflexivity.
  - rewrite IH. destruct (String.eqb_spec s k) as [->|_]; [|reflexivity].
    cbn [orb]. apply andb_false_iff in E as [E|E].
    + rewrite E. now rewrite !andb_false_r.
    + apply negb_false_iff in E. rewrite IH in E. rewrite E.
      apply andb_true_iff in E as [_ ->]. reflexivity.
  Qed.

(** The censored dictionary has the keys of the original; under a key that
    is a secret it holds the placeholder, under any other key the original
    value. *)
Lemma censor_dict_keys (secrets : list string) (d : Dict.t) :
  Dict.keys (censor_dict secrets d) = Dict.keys d.
Proof.
  unfold censor_dict. apply DictFacts.fold_set_keys. intros k Hk.
  apply mem_In in Hk. rewrite mem_intersection, existsb_is_text in Hk.
  apply andb_true_iff in Hk as [_ Hk]. now apply mem_In.
Qed.

Lemma censor_dict_get (secrets : list string) (d : Dict.t) (k : string) :
  Dict.get k (censor_dict secrets d)
  = if PyStr.mem k secrets && PyStr.mem k (Dict.keys d)
    then Some (PStr CENSORED_MESSAGE)
    else Dict.get k d.
Proof.
  unfold censor_dict. rewrite DictFacts.fold_set_get.
  now rewrite mem_intersection, existsb_is_text.
Qed.

(** ** The heap and the monad *)

Lemma lookup_snoc_length {A} (h : list A) (x : A) : (h ++ [x]) !! length h = Some x.
Proof. now apply list_lookup_middle. Qed.

Lemma insert_snoc_length {A} (h : list A) (x y : A) :
  <[length h := y]> (h ++ [x]) = h ++ [y].
Proof.
  replace (length h) with (length h + 0)%nat by lia.
  now rewrite insert_app_r.
Qed.

Lemma bind_ok {A B} (m : M A) (k : A -> M B) (w w' : World) (a : A) :
  m w = (Ok a, w') -> bind m k w = k a w'.
Proof. intros H. unfold bind. now rewrite H. Qed.

Lemma bind_raise {A B} (m : M A) (k : A -> M B) (w w' : World) (e : PyExc) :
  m w = (Raise e, w') -> bind m k w = (Raise e, w').
Proof. intros H. unfold bind. now rewrite H. Qed.

Lemma deref_run (l : loc) (v : PyVal) (w : World) :
  heap w !! l = Some v -> deref l w = (Ok v, w).
Proof. intros H. unfold deref. now rewrite H. Qed.

Lemma deref_cell (l : loc) (v : PyVal) (h : list PyVal) (lg : list LogRecord)
    (wr : list HttpRequest) :
  h !! l = Some v ->
  deref l {| heap := h; debug_log := lg; wire := wr |}
  = (Ok v, {| heap := h; debug_log := lg; wire := wr |}).
Proof. intros H. now apply deref_run. Qed.

Lemma alloc_run (v : PyVal) (w : World) :
  alloc v w = (Ok (length (heap w)), with_heap w (heap w ++ [v])).
Proof. reflexivity. Qed.

Lemma logging_debug_run (r : LogRecord) (w : World) :
  logging_debug r w
  = (Ok tt, {| heap := heap w; debug_log := debug_log w ++ [r]; wire := wire w |}).
Proof. reflexivity. Qed.

Lemma setitem_dict (l : loc) (k : string) (v : PyVal) (d : Dict.t) (w : World) :
  heap w !! l = Some (PDict d) ->
  setitem l k v w = (Ok tt, with_heap w (<[l := PDict (Dict.set k v d)]> (heap w))).
Proof. intros H. unfold setitem, bind, deref. now rewrite H. Qed.

Lemma setitem_not_dict (l : loc) (k : string) (v o : PyVal) (w : World) :
  heap w !! l = Some o -> is_dict o = false ->
  exists msg, setitem l k v w = (Raise (TypeError msg), w).
Proof.
  intros H Ho. unfold setitem, bind, deref. rewrite H.
  destruct o; try discriminate; eexists; reflexivity.
Qed.

(** An assignment to the dictionary that sits in cell [l]. *)
Lemma setitem_cell (h : list PyVal) (lg : list LogRecord) (wr : list HttpRequest)
    (l : loc) (k : string) (v : PyVal) (d : Dict.t) :
  (l < length h)%nat ->
  setitem l k v {| heap := <[l := PDict d]> h; debug_log := lg; wire := wr |}
  = (Ok tt, {| heap := <[l := PDict (Dict.set k v d)]> h;
               debug_log := lg; wire := wr |}).
Proof.
  intros Hl. rewrite (setitem_dict l k v d).
  - unfold with_heap. cbn [heap debug_log wire].
    now rewrite list_insert_insert_eq.
  - cbn [heap]. now apply list_lookup_insert_eq.
Qed.

Lemma opt_setitem_cell (h : list PyVal) (lg : list LogRecord) (wr : list HttpRequest)
    (l : loc) (k : string) (o : option string) (d : Dict.t) :
  (l < length h)%nat ->
  match o with
  | Some x => setitem l k (PStr x)
  | None => ret tt
  end {| heap := <[l := PDict d]> h; debug_log := lg; wire := wr |}
  = (Ok tt, {| heap := <[l := PDict match o with
                                   | Some x => Dict.set k (PStr x) d
                                   | None => d
                                   end]> h;
               debug_log := lg; wire := wr |}).
Proof. intros Hl. destruct o; [now apply setitem_cell|reflexivity]. Qed.

(** The loop of [censor_request] on the fresh copy of a dictionary. *)
Lemma for_each_setitem_dict (ks : list string) (x : PyVal) (h : list PyVal)
    (d : Dict.t) (lg : list LogRecord) (wr : list HttpRequest) :
  for_each ks (fun secret => setitem (length h) secret x)
    {| heap := h ++ [PDict d]; debug_log := lg; wire := wr |}
  = (Ok tt,
     {| heap := h ++ [PDict (fold_left (fun d' secret => Dict.set secret x d') ks d)];
        debug_log := lg; wire := wr |}).
Proof.
  revert d. induction ks as [|k ks IH]; intros d; [reflexivity|].
  cbn [for_each fold_left]. unfold bind at 1.
  rewrite (setitem_dict _ _ _ d) by apply lookup_snoc_length.
  unfold with_heap. cbn [heap debug_log wire].
  rewrite insert_snoc_length. apply IH.
Qed.

(** On anything but a dictionary the loop changes nothing: it is empty, or
    its first assignment raises [TypeError]. *)
Lemma for_each_setitem_not_dict (ks : list string) (x o : PyVal) (l : loc) (w : World) :
  heap w !! l = Some o -> is_dict o = false ->
  except_TypeError_pass (for_each ks (fun secret => setitem l secret x)) w
  = (Ok tt, w).
Proof.
  intros H Ho. unfold except_TypeError_pass.
  destruct ks as [|k ks]; [reflexivity|].
  cbn [for_each]. unfold bind.
  destruct (setitem_not_dict l k x o w H Ho) as [msg ->]. reflexivity.
Qed.

Module CensorFacts.
Import Client.

(** [censor_request] allocates one new object, the censored copy, and
    touches nothing else. *)
Lemma censor_request_run (secrets : list string) (l : loc) (v : PyVal) (w : World) :
  heap w !! l = Some v ->
  censor_request secrets (Some l) w
  = (Ok (Some (length (heap w))),
     with_heap w (heap w ++ [censor_value secrets v])).
Proof.
  intros H. unfold censor_request, deepcopy.
  set (w1 := with_heap w (heap w ++ [v])).
  assert (H1 : heap w1 !! length (heap w) = Some v) by apply lookup_snoc_length.
  rewrite (bind_ok _ _ w w1 (Some (length (heap w)))).
  2:{ rewrite (bind_ok _ _ w w v (deref_run _ _ _ H)).
      now rewrite (bind_ok _ _ w w1 _ (alloc_run v w)). }
  destruct (is_dict v) eqn:Ed.
  - destruct v as [| | | | |d]; try discriminate.
    rewrite (bind_ok _ _ w1 (with_heap w (heap w ++ [PDict (censor_dict secrets d)])) tt);
      [reflexivity|].
    unfold except_TypeError_pass.
    rewrite (bind_ok _ _ w1 w1 _ (deref_run _ _ _ H1)).
    rewrite (bind_ok _ _ w1 w1 (map PStr (Dict.keys d))) by reflexivity.
    unfold w1, with_heap. rewrite for_each_setitem_dict. reflexivity.
  - rewrite (bind_ok _ _ w1 w1 tt); [now destruct v|].
    unfold except_TypeError_pass at 1.
    rewrite (bind_ok _ _ w1 w1 _ (deref_run _ _ _ H1)).
    destruct (py_set v) as [elems|e] eqn:Es.
    + rewrite (bind_ok _ _ w1 w1 elems) by reflexivity.
      exact (for_each_setitem_not_dict _ _ v _ w1 H1 Ed).
    + rewrite (bind_raise _ _ w1 w1 e) by reflexivity.
      destruct v; simpl in Es; try discriminate;
        try (injection Es as <-; reflexivity).
      destruct (forallb hashable l0); [discriminate|].
      injection Es as <-. reflexivity.
Qed.

Lemma censor_request_cell (secrets : list string) (l : loc) (v : PyVal)
    (h : list PyVal) (lg : list LogRecord) (wr : list HttpRequest) :
  h !! l = Some v ->
  censor_request secrets (Some l) {| heap := h; debug_log := lg; wire := wr |}
  = (Ok (Some (length h)),
     {| heap := h ++ [censor_value secrets v]; debug_log := lg; wire := wr |}).
Proof. intros H. now rewrite (censor_request_run secrets l v). Qed.

Lemma censor_request_None (secrets : list string) (w : World) :
  censor_request secrets None w = (Ok None, w).
Proof. reflexivity. Qed.

End CensorFacts.

(** ** The run of [request] *)

Section RequestRun.

Variable json_dumps : PyVal -> string.
Variable json_loads : string -> option PyVal.
Variable decode_utf8 : string -> option string.
Variable opener_open : HttpRequest -> Outcome Conn.t.
Variable Request_accepts : string -> bool.

Let request :=
  Client.request json_dumps json_loads decode_utf8 opener_open Request_accepts.
Let get_connection := Client.get_connection opener_open Request_accepts.

(** [get_connection] on a headers dictionary: the constructor refuses the
    URL and nothing else happens, or the request is recorded and handed to
    the opener. *)
Lemma get_connection_cases (self : Client.t) (method url : string)
    (body : option string) (lh : loc) (hm : Dict.t)
    (h : list PyVal) (lg : list LogRecord) (wr : list HttpRequest) :
  h !! lh = Some (PDict hm) ->
  get_connection self method url body lh
    {| heap := h; debug_log := lg; wire := wr |}
  = if Request_accepts (joined_url self url)
    then (opener_open (request_sent self method url body hm),
          {| heap := h;
             debug_log := lg ++ [LogOpening (Client.url self)
                                   (Client.separator self url) url];
             wire := wr ++ [request_sent self method url body hm] |})
    else (Raise ValueError, {| heap := h; debug_log := lg; wire := wr |}).
Proof.
  intros H. unfold get_connection, Client.get_connection.
  fold (joined_url self url).
  destruct (Request_accepts (joined_url self url)); [|reflexivity].
  rewrite (bind_ok _ _ _ _ _ (deref_cell _ _ _ _ _ H)).
  reflexivity.
Qed.

Lemma get_connection_run (self : Client.t) (method url : string)
    (body : option string) (lh : loc) (hm : Dict.t)
    (h : list PyVal) (lg : list LogRecord) (wr : list HttpRequest) :
  h !! lh = Some (PDict hm) ->
  Request_accepts (joined_url self url) = true ->
  get_connection self method url body lh
    {| heap := h; debug_log := lg; wire := wr |}
  = (opener_open (request_sent self method url body hm),
     {| heap := h;
        debug_log := lg ++ [LogOpening (Client.url self)
                              (Client.separator self url) url];
        wire := wr ++ [request_sent self method url body hm] |}).
Proof.
  intros H Hacc.
  now rewrite (get_connection_cases self method url body lh hm h lg wr H), Hacc.
Qed.

(** A URL the constructor refuses: [ValueError], whatever the headers
    are; no record, nothing for the opener. *)
Lemma get_connection_refused (self : Client.t) (method url : string)
    (body : option string) (lh : loc) (w : World) :
  Request_accepts (joined_url self url) = false ->
  get_connection self method url body lh w = (Raise ValueError, w).
Proof.
  intros Hacc. unfold get_connection, Client.get_connection.
  fold (joined_url self url). now rewrite Hacc.
Qed.

Lemma request_cases (self : Client.t) (method url : string)
    (body headers : option loc) (content_type : option string)
    (hp : list PyVal) (lgw : list LogRecord) (wr : list HttpRequest)
    (hd : Dict.t) :
  let lh := headers_loc hp headers in
  let h0 := heap_with_headers hp headers in
  h0 !! lh = Some (PDict hd) ->
  (forall lb, body = Some lb -> (lb < length hp)%nat) ->
  let hm := merged_headers self content_type hd in
  let h1 := <[lh := PDict hm]> h0 in
  let hc := PDict (censor_dict ["Authorization"; "X-Auth-Token"] hm) in
  let bv := match body with Some lb => h1 !! lb | None => None end in
  let h3 := match bv with
            | Some v => if is_str v then h1 ++ [hc]
                        else (h1 ++ [hc]) ++ [censor_value ["password"] v]
            | None => h1 ++ [hc]
            end in
  let lg := lgw
            ++ match bv with
               | Some v => if is_str v then [LogPreSerialized] else []
               | None => []
               end
            ++ [LogCliRequest method url (body_logged bv) (Some hc)] in
  let req := request_sent self method url (body_sent json_dumps bv) hm in
  request self method url body headers content_type
    {| heap := hp; debug_log := lgw; wire := wr |}
  = if Request_accepts (joined_url self url)
    then answer json_loads decode_utf8 opener_open method req
           {| heap := h3;
              debug_log := lg ++ [LogOpening (Client.url self)
                                    (Client.separator self url) url];
              wire := wr ++ [req] |}
    else (Raise ValueError, {| heap := h3; debug_log := lg; wire := wr |}).
Proof.
  intros lh h0 Hh Hb hm h1 hc bv h3 lg req.
  assert (Hlh : (lh < length h0)%nat) by (eapply lookup_lt_Some; exact Hh).
  assert (Hlen : (length hp <= length h1)%nat).
  { unfold h1. rewrite length_insert. unfold h0, heap_with_headers.
    destruct headers; [lia|]. rewrite length_app. lia. }
  assert (Hh1 : h1 !! lh = Some (PDict hm))
    by (unfold h1; now apply list_lookup_insert_eq).
  unfold request, Client.request.
  (* the headers object *)
  rewrite (bind_ok _ _ _ {| heap := h0; debug_log := lgw; wire := wr |} lh)
    by (unfold lh, h0; destruct headers; reflexivity).
  rewrite <- (list_insert_id h0 lh (PDict hd) Hh).
  (* the three assignments *)
  rewrite (bind_ok _ _ _ _ _ (opt_setitem_cell h0 lgw wr lh _ content_type hd Hlh)).
  rewrite (bind_ok _ _ _ _ _
             (opt_setitem_cell h0 lgw wr lh _ (Client.auth_header self) _ Hlh)).
  rewrite (bind_ok _ _ _ _ _ (setitem_cell h0 lgw wr lh _ _ _ Hlh)).
  fold (merged_headers self content_type hd). fold hm. fold h1.
  (* the censored copy of the headers *)
  rewrite (bind_ok _ _ _ _ _
             (CensorFacts.censor_request_cell _ lh (PDict hm) _ lgw wr Hh1)).
  cbn [censor_value]. fold hc.
  assert (Hhc : ((h1 ++ [hc]) !! length h1 = Some hc))
    by apply lookup_snoc_length.
  assert (Hlh2 : (h1 ++ [hc]) !! lh = Some (PDict hm)).
  { rewrite lookup_app_l; [exact Hh1|]. eapply lookup_lt_Some; exact Hh1. }
  destruct body as [lb|].
  - (* a body *)
    assert (Hlb : (lb < length h1)%nat) by (specialize (Hb lb eq_refl); lia).
    destruct (lookup_lt_is_Some_2 _ _ Hlb) as [v Hv].
    assert (Hv2 : (h1 ++ [hc]) !! lb = Some v) by (now rewrite lookup_app_l).
    assert (Ebv : bv = Some v) by exact Hv.
    unfold h3, lg, req. rewrite Ebv. clear h3 lg req.
    destruct (is_str v) eqn:Es.
    + (* already serialised *)
      destruct v as [| | |s| |]; try discriminate.
      rewrite (bind_ok _ _ _
                 {| heap := h1 ++ [hc];
                    debug_log := lgw ++ [LogPreSerialized]; wire := wr |}
                 (Some s, Some lb)).
      2:{ rewrite (bind_ok _ _ _ _ _ (deref_cell lb _ _ _ _ Hv2)). reflexivity. }
      cbn [fst snd snapshot].
      rewrite (bind_ok _ _ _ _ (Some (PStr s))
                 (bind_ok _ _ _ _ _ (deref_cell lb _ _ _ _ Hv2))).
      rewrite (bind_ok _ _ _ _ (Some hc)
                 (bind_ok _ _ _ _ _ (deref_cell (length h1) _ _ _ _ Hhc))).
      rewrite (bind_ok _ _ _ _ _ (logging_debug_run _ _)).
      cbn [heap debug_log wire].
      unfold bind at 1. fold get_connection.
      rewrite (get_connection_cases self method url (Some s) lh hm _ _ _ Hlh2).
      cbn [heap debug_log wire body_sent body_logged].
      rewrite <- !app_assoc. cbn [app].
      destruct (Request_accepts (joined_url self url)); [|reflexivity].
      unfold answer, decode_response.
      destruct (opener_open _) as [conn|e]; [|reflexivity].
      destruct (String.eqb method Client.HEAD); [reflexivity|].
      destruct (decode_utf8 (Conn.read conn)) as [text|]; [|reflexivity].
      destruct (json_loads text) as [j|]; [|reflexivity].
      unfold bind, ret, lift.
      destruct (Client.len_pybody (Client.Decoded j)); reflexivity.
    + (* a structured body *)
      assert (Hv3 : ((h1 ++ [hc]) ++ [censor_value ["password"] v]) !! lb = Some v).
      { rewrite lookup_app_l; [exact Hv2|]. rewrite length_app. simpl. lia. }
      rewrite (bind_ok _ _ _
                 {| heap := (h1 ++ [hc]) ++ [censor_value ["password"] v];
                    debug_log := lgw; wire := wr |}
                 (Some (json_dumps v), Some (length (h1 ++ [hc])))).
      2:{ rewrite (bind_ok _ _ _ _ _ (deref_cell lb _ _ _ _ Hv2)).
          assert (E : forall k : M (option string * option loc),
                     match v with
                     | PStr s =>
                         logging_debug LogPreSerialized ;;; ret (Some s, Some lb)
                     | _ => k
                     end = k) by (intros k; destruct v; try reflexivity; discriminate).
          rewrite E.
          rewrite (bind_ok _ _ _ _ _
                     (CensorFacts.censor_request_cell _ lb v _ lgw wr Hv2)).
          rewrite (bind_ok _ _ _ _ _ (deref_cell lb _ _ _ _ Hv3)). reflexivity. }
      cbn [fst snd snapshot].
      rewrite (bind_ok _ _ _ _ (Some (censor_value ["password"] v))
                 (bind_ok _ _ _ _ _
                    (deref_cell (length (h1 ++ [hc])) _ _ _ _
                       (lookup_snoc_length _ _)))).
      assert (Hhc3 : ((h1 ++ [hc]) ++ [censor_value ["password"] v])
                       !! length h1 = Some hc).
      { rewrite lookup_app_l; [exact Hhc|]. rewrite length_app. simpl. lia. }
      rewrite (bind_ok _ _ _ _ (Some hc)
                 (bind_ok _ _ _ _ _ (deref_cell (length h1) _ _ _ _ Hhc3))).
      rewrite (bind_ok _ _ _ _ _ (logging_debug_run _ _)).
      cbn [heap debug_log wire].
      unfold bind at 1. fold get_connection.
      assert (Hlh3 : ((h1 ++ [hc]) ++ [censor_value ["password"] v])
                       !! lh = Some (PDict hm)).
      { rewrite lookup_app_l; [exact Hlh2|]. eapply lookup_lt_Some; exact Hlh2. }
      rewrite (get_connection_cases self method url (Some (json_dumps v)) lh hm _ _ _ Hlh3).
      cbn [heap debug_log wire].
      replace (body_sent json_dumps (Some v)) with (Some (json_dumps v))
        by (destruct v; try reflexivity; discriminate).
      replace (body_logged (Some v)) with (Some (censor_value ["password"] v))
        by (destruct v; try reflexivity; discriminate).
      rewrite <- !app_assoc. cbn [app].
      destruct (Request_accepts (joined_url self url)); [|reflexivity].
      unfold answer, decode_response.
      destruct (opener_open _) as [conn|e]; [|reflexivity].
      destruct (String.eqb method Client.HEAD); [reflexivity|].
      destruct (decode_utf8 (Conn.read conn)) as [text|]; [|reflexivity].
      destruct (json_loads text) as [j|]; [|reflexivity].
      unfold bind, ret, lift.
      destruct (Client.len_pybody (Client.Decoded j)); reflexivity.
  - (* no body *)
    unfold h3, lg, req, bv. clear h3 lg req.
    rewrite (bind_ok (ret (@None string, @None loc)) _ _ _ _ eq_refl).
    cbn [fst snd snapshot].
    rewrite (bind_ok (ret (@None PyVal)) _ _ _ _ eq_refl).
    rewrite (bind_ok _ _ _ _ (Some hc)
               (bind_ok _ _ _ _ _ (deref_cell (length h1) _ _ _ _ Hhc))).
    rewrite (bind_ok _ _ _ _ _ (logging_debug_run _ _)).
    cbn [heap debug_log wire].
    unfold bind at 1. fold get_connection.
    rewrite (get_connection_cases self method url None lh hm _ _ _ Hlh2).
    cbn [heap debug_log wire body_sent body_logged].
    rewrite <- !app_assoc. cbn [app].
    destruct (Request_accepts (joined_url self url)); [|reflexivity].
    unfold answer, decode_response.
    destruct (opener_open _) as [conn|e]; [|reflexivity].
    destruct (String.eqb method Client.HEAD); [reflexivity|].
    destruct (decode_utf8 (Conn.read conn)) as [text|]; [|reflexivity].
    destruct (json_loads text) as [j|]; [|reflexivity].
    unfold bind, ret, lift.
    destruct (Client.len_pybody (Client.Decoded j)); reflexivity.
Qed.

Lemma request_run (self : Client.t) (method url : string)
    (body headers : option loc) (content_type : option string)
    (hp : list PyVal) (lgw : list LogRecord) (wr : list HttpRequest)
    (hd : Dict.t) :
  let lh := headers_loc hp headers in
  let h0 := heap_with_headers hp headers in
  h0 !! lh = Some (PDict hd) ->
  (forall lb, body = Some lb -> (lb < length hp)%nat) ->
  Request_accepts (joined_url self url) = true ->
  let hm := merged_headers self content_type hd in
  let h1 := <[lh := PDict hm]> h0 in
  let hc := PDict (censor_dict ["Authorization"; "X-Auth-Token"] hm) in
  let bv := match body with Some lb => h1 !! lb | None => None end in
  let h3 := match bv with
            | Some v => if is_str v then h1 ++ [hc]
                        else (h1 ++ [hc]) ++ [censor_value ["password"] v]
            | None => h1 ++ [hc]
            end in
  let lg := lgw
            ++ match bv with
               | Some v => if is_str v then [LogPreSerialized] else []
               | None => []
               end
            ++ [LogCliRequest method url (body_logged bv) (Some hc);
                LogOpening (Client.url self) (Client.separator self url) url] in
  let req := request_sent self method url (body_sent json_dumps bv) hm in
  request self method url body headers content_type
    {| heap := hp; debug_log := lgw; wire := wr |}
  = answer json_loads decode_utf8 opener_open method req
      {| heap := h3; debug_log := lg; wire := wr ++ [req] |}.
Proof.
  intros lh h0 Hh Hb Hacc hm h1 hc bv h3 lg req.
  rewrite (request_cases self method url body headers content_type hp lgw wr hd
             Hh Hb), Hacc.
  fold lh h0 hm h1 hc bv h3 req. unfold lg.
  f_equal. f_equal. now rewrite <- !app_assoc.
Qed.

(** The run with a URL the constructor refuses: [ValueError] comes out
    after the headers are updated and the request is recorded; nothing
    is handed to the opener. *)
Lemma request_refused (self : Client.t) (method url : string)
    (body headers : option loc) (content_type : option string)
    (hp : list PyVal) (lgw : list LogRecord) (wr : list HttpRequest)
    (hd : Dict.t) :
  let lh := headers_loc hp headers in
  let h0 := heap_with_headers hp headers in
  h0 !! lh = Some (PDict hd) ->
  (forall lb, body = Some lb -> (lb < length hp)%nat) ->
  Request_accepts (joined_url self url) = false ->
  let hm := merged_headers self content_type hd in
  let h1 := <[lh := PDict hm]> h0 in
  let hc := PDict (censor_dict ["Authorization"; "X-Auth-Token"] hm) in
  let bv := match body with Some lb => h1 !! lb | None => None end in
  let h3 := match bv with
            | Some v => if is_str v then h1 ++ [hc]
                        else (h1 ++ [hc]) ++ [censor_value ["password"] v]
            | None => h1 ++ [hc]
            end in
  let lg := lgw
            ++ match bv with
               | Some v => if is_str v then [LogPreSerialized] else []
               | None => []
               end
            ++ [LogCliRequest method url (body_logged bv) (Some hc)] in
  request self method url body headers content_type
    {| heap := hp; debug_log := lgw; wire := wr |}
  = (Raise ValueError, {| heap := h3; debug_log := lg; wire := wr |}).
Proof.
  intros lh h0 Hh Hb Hacc hm h1 hc bv h3 lg.
  now rewrite (request_cases self method url body headers content_type hp lgw wr hd
                 Hh Hb), Hacc.
Qed.

Lemma heap_with_headers_ok (hp : list PyVal) (headers : option loc) :
  headers_ok hp headers ->
  heap_with_headers hp headers !! headers_loc hp headers
  = Some (PDict (headers_before hp headers)).
Proof.
  destruct headers as [l|]; cbn [headers_ok heap_with_headers headers_loc headers_before].
  - intros [d Hd]. now rewrite Hd.
  - intros _. apply lookup_snoc_length.
Qed.

Lemma answer_world (method : string) (req : HttpRequest) (w : World) :
  exists tail,
    snd (answer json_loads decode_utf8 opener_open method req w)
    = {| heap := heap w; debug_log := debug_log w ++ tail; wire := wire w |}
    /\ (tail = [] \/ exists n, tail = [LogResponseLen n]).
Proof.
  unfold answer.
  destruct (opener_open req) as [conn|e];
    [destruct (decode_response _ _ _ _) as [pb|e];
     [destruct (Client.len_pybody pb) as [n|e]|]|];
    cbn [snd];
    first [ exists [LogResponseLen n]; split; [reflexivity|right; now exists n]
          | exists []; rewrite app_nil_r; split; [now destruct w|now left] ].
Qed.

(** The world [request] leaves once the request is built, whatever the
    opener answers: after the record of the request come the record of the
    opening and, when the call returns, the record of the length. *)
Lemma request_world_log (self : Client.t) (method url : string)
    (body headers : option loc) (content_type : option string)
    (hp : list PyVal) (lgw : list LogRecord) (wr : list HttpRequest) :
  headers_ok hp headers -> body_ok hp body ->
  Request_accepts (joined_url self url) = true ->
  let lh := headers_loc hp headers in
  let hm := merged_headers self content_type (headers_before hp headers) in
  let h1 := <[lh := PDict hm]> (heap_with_headers hp headers) in
  let hc := PDict (censor_dict ["Authorization"; "X-Auth-Token"] hm) in
  let bv := match body with Some lb => h1 !! lb | None => None end in
  exists copies tail,
    snd (request self method url body headers content_type
           {| heap := hp; debug_log := lgw; wire := wr |})
    = {| heap := h1 ++ hc :: copies;
         debug_log := lgw
           ++ match bv with
              | Some v => if is_str v then [LogPreSerialized] else []
              | None => []
              end
           ++ LogCliRequest method url (body_logged bv) (Some hc)
              :: LogOpening (Client.url self) (Client.separator self url) url
              :: tail;
         wire := wr ++ [request_sent self method url (body_sent json_dumps bv) hm] |}
    /\ (tail = [] \/ exists n, tail = [LogResponseLen n]).
Proof.
  intros Hh Hb Hacc lh hm h1 hc bv.
  rewrite (request_run self method url body headers content_type hp lgw wr _
             (heap_with_headers_ok hp headers Hh) Hb Hacc).
  fold lh hm h1 hc bv.
  match goal with
  | |- context [answer _ _ _ ?m ?r ?w] =>
      destruct (answer_world m r w) as (tail & -> & Htail)
  end.
  cbn [heap debug_log wire].
  exists (match bv with
          | Some v => if is_str v then [] else [censor_value ["password"] v]
          | None => []
          end), tail.
  split; [|exact Htail]. f_equal.
  - destruct bv as [v|]; [destruct (is_str v)|]; now rewrite <- ?app_assoc.
  - rewrite <- !app_assoc. cbn [app]. reflexivity.
Qed.

Lemma request_world (self : Client.t) (method url : string)
    (body headers : option loc) (content_type : option string)
    (hp : list PyVal) (lgw : list LogRecord) (wr : list HttpRequest) :
  headers_ok hp headers -> body_ok hp body ->
  Request_accepts (joined_url self url) = true ->
  let lh := headers_loc hp headers in
  let hm := merged_headers self content_type (headers_before hp headers) in
  let h1 := <[lh := PDict hm]> (heap_with_headers hp headers) in
  let hc := PDict (censor_dict ["Authorization"; "X-Auth-Token"] hm) in
  let bv := match body with Some lb => h1 !! lb | None => None end in
  exists copies tail,
    snd (request self method url body headers content_type
           {| heap := hp; debug_log := lgw; wire := wr |})
    = {| heap := h1 ++ hc :: copies;
         debug_log := lgw
           ++ match bv with
              | Some v => if is_str v then [LogPreSerialized] else []
              | None => []
              end
           ++ LogCliRequest method url (body_logged bv) (Some hc) :: tail;
         wire := wr ++ [request_sent self method url (body_sent json_dumps bv) hm] |}.
Proof.
  intros Hh Hb Hacc lh hm h1 hc bv.
  destruct (request_world_log self method url body headers content_type
              hp lgw wr Hh Hb Hacc) as (copies & tail & E & _).
  exists copies. eexists. exact E.
Qed.

(** The heap [request] leaves, however the call ends: the headers
    dictionary updated, and the copies made for the log behind the
    caller's objects. *)
Lemma request_heap (self : Client.t) (method url : string)
    (body headers : option loc) (content_type : option string)
    (hp : list PyVal) (lgw : list LogRecord) (wr : list HttpRequest) :
  headers_ok hp headers -> body_ok hp body ->
  let lh := headers_loc hp headers in
  let hm := merged_headers self content_type (headers_before hp headers) in
  let h1 := <[lh := PDict hm]> (heap_with_headers hp headers) in
  exists copies,
    heap (snd (request self method url body headers content_type
                 {| heap := hp; debug_log := lgw; wire := wr |}))
    = h1 ++ copies.
Proof.
  intros Hh Hb lh hm h1.
  destruct (Request_accepts (joined_url self url)) eqn:Hacc.
  - destruct (request_world self method url body headers content_type
                hp lgw wr Hh Hb Hacc) as (copies & tail & E).
    rewrite E. cbn [heap]. now eexists.
  - rewrite (request_refused self method url body headers content_type hp lgw wr _
               (heap_with_headers_ok hp headers Hh) Hb Hacc).
    cbn [snd heap]. fold lh hm h1.
    match goal with
    | |- context [match ?bv with Some _ => _ | None => _ end] =>
        destruct bv as [v|]; [destruct (is_str v)|];
        rewrite <- ?app_assoc; now eexists
    end.
Qed.

Lemma request_outcome (self : Client.t) (method url : string)
    (body headers : option loc) (content_type : option string)
    (hp : list PyVal) (lgw : list LogRecord) (wr : list HttpRequest)
    (conn : Conn.t) :
  headers_ok hp headers -> body_ok hp body ->
  Request_accepts (joined_url self url) = true ->
  (forall req, opener_open req = Ok conn) ->
  fst (request self method url body headers content_type
         {| heap := hp; debug_log := lgw; wire := wr |})
  = match decode_response json_loads decode_utf8 method conn with
    | Raise e => Raise e
    | Ok pb =>
        match Client.len_pybody pb with
        | Raise e => Raise e
        | Ok _ => Ok (Conn.code conn, pb)
        end
    end.
Proof.
  intros Hh Hb Hacc Hopen.
  rewrite (request_run self method url body headers content_type hp lgw wr _
             (heap_with_headers_ok hp headers Hh) Hb Hacc).
  unfold answer. rewrite Hopen.
  destruct (decode_response _ _ _ _) as [pb|e]; [|reflexivity].
  destruct (Client.len_pybody pb); reflexivity.
Qed.

End RequestRun.

(** ** Credentials *)

Module Base64Facts.
Import Base64 Strip.

Lemma get_In (s : string) (i : nat) (c : ascii) :
  String.get i s = Some c -> In c (list_ascii_of_string s).
Proof.
  revert i. induction s as [|x s IH]; intros i; [discriminate|].
  destruct i as [|i]; simpl.
  - intros [= ->]. now left.
  - intros H. right. exact (IH _ H).
Qed.

Lemma digit_no_space (n : N) : is_space (digit n) = false.
Proof.
  unfold digit. destruct (String.get (N.to_nat n) alphabet) as [c|] eqn:E;
    [|reflexivity].
  apply get_In in E.
  assert (H : forallb (fun c => negb (is_space c)) (list_ascii_of_string alphabet)
              = true) by reflexivity.
  rewrite forallb_forall in H. apply negb_true_iff. exact (H c E).
Qed.

Lemma encode_no_space (bytes : list N) : no_space (encode bytes) = true.
Proof.
  assert (H : forall n l, (length l <= n)%nat -> no_space (encode l) = true).
  { induction n as [|n IH]; intros l Hl.
    - destruct l; [reflexivity|simpl in Hl; lia].
    - destruct l as [|a [|b [|c rest]]]; [reflexivity| | |];
        cbn [encode no_space]; unfold sextet; rewrite ?digit_no_space;
        try reflexivity.
      cbn [negb andb]. apply IH. simpl in Hl. lia. }
  exact (H (length bytes) bytes (le_n _)).
Qed.

Lemma lstrip_no_space (s : string) : no_space s = true -> lstrip s = s.
Proof.
  destruct s as [|c s]; [reflexivity|]. cbn [no_space lstrip].
  rewrite andb_true_iff, negb_true_iff. now intros [-> _].
Qed.

Lemma rstrip_no_space (s : string) : no_space s = true -> rstrip s = s.
Proof.
  induction s as [|c s IH]; [reflexivity|]. cbn [no_space rstrip].
  rewrite andb_true_iff, negb_true_iff. intros [Hc Hs].
  rewrite (IH Hs), Hc. now destruct s.
Qed.

(** [.strip()] leaves the output of [b64encode] as it is. *)
Lemma strip_b64encode (s : string) : strip (b64encode s) = b64encode s.
Proof.
  unfold strip, b64encode.
  rewrite (lstrip_no_space _ (encode_no_space _)).
  apply rstrip_no_space, encode_no_space.
Qed.

End Base64Facts.

Module ClientInitFacts.
Import Client.

Lemma hash_pass_basic (name password : string) :
  hash_pass (Some name) password (Some name)
  = "Basic " +:+ Base64.b64encode (name +:+ ":" +:+ password).
Proof.
  unfold hash_pass. rewrite Base64Facts.strip_b64encode. now destruct name.
Qed.

(** A user name with neither password nor token is refused. *)
Lemma init_needs_credentials (url name token_type : string)
    (user_agent : option string) (append_slash : bool) :
  __init__ url (Some name) None None token_type user_agent append_slash
  = Raise (TypeError
      ("You need a password or an OAuth token to authenticate as " +:+ name)).
Proof. reflexivity. Qed.

(** A user name with both a password and a token is refused. *)
Lemma init_refuses_both_with_username (url name password token token_type : string)
    (user_agent : option string) (append_slash : bool) :
  __init__ url (Some name) (Some password) (Some token) token_type
    user_agent append_slash
  = Raise (TypeError "You cannot use both password and OAuth token authenication").
Proof. reflexivity. Qed.

(** A user name and a password give the Basic header. *)
Lemma init_basic_header (url name password token_type : string)
    (user_agent : option string) (append_slash : bool) :
  exists c,
    __init__ url (Some name) (Some password) None token_type
      user_agent append_slash = Ok c
    /\ auth_header c
       = Some ("Basic " +:+ Base64.b64encode (name +:+ ":" +:+ password)).
Proof.
  eexists. split; [reflexivity|]. cbn [auth_header].
  now rewrite hash_pass_basic.
Qed.

Example init_basic_header_user_pass :
  exists c,
    __init__ "https://api.example.com" (Some "user") (Some "pass") None
      default_token_type None false = Ok c
    /\ auth_header c = Some "Basic dXNlcjpwYXNz".
Proof. eexists. split; reflexivity. Qed.

(** A token without a password gives [<token_type> <token>], with or
    without a user name. *)
Lemma init_token_header (url token token_type : string)
    (name user_agent : option string) (append_slash : bool) :
  exists c,
    __init__ url name None (Some token) token_type user_agent append_slash
    = Ok c
    /\ auth_header c = Some (token_type +:+ " " +:+ token).
Proof. destruct name; eexists; split; reflexivity. Qed.

Example init_token_header_default :
  __init__ "https://api.example.com" None None (Some "abc")
    default_token_type None false = Ok sample_client.
Proof. reflexivity. Qed.

(** [C3]: where the code departs from it. Without a user name, a password
    together with a token is accepted: the token is dropped and the header
    is the Basic header of the user [None]. *)
Theorem init_accepts_password_and_token_without_username :
  __init__ "https://api.example.com" None (Some "secret") (Some "abc")
    default_token_type None false
  = Ok {| auth_header := Some "Basic Tm9uZTpzZWNyZXQ=";
          username := None;
          url := "https://api.example.com";
          append_slash := false;
          user_agent := USER_AGENT |}
  /\ Base64.b64encode "None:secret" = "Tm9uZTpzZWNyZXQ=".
Proof. split; reflexivity. Qed.

(** The same for every password and token. *)
Lemma init_both_without_username (url password token token_type : string)
    (user_agent : option string) (append_slash : bool) :
  exists c,
    __init__ url None (Some password) (Some token) token_type
      user_agent append_slash = Ok c
    /\ auth_header c
       = Some ("Basic " +:+ Base64.b64encode ("None:" +:+ password)).
Proof.
  eexists. split; [reflexivity|]. cbn [auth_header]. unfold hash_pass.
  now rewrite Base64Facts.strip_b64encode.
Qed.

End ClientInitFacts.

(** ** The path accumulator *)

Module RequestBuilderFacts.
Import RequestBuilder.

(** The test of [__getattr__] in the words of its comment: the key in
    upper case is one of the method constants, and the key has a
    lower-case character. *)
Lemma is_verb_key_spec (key : string) :
  is_verb_key key = true <->
  In (PyStr.upper key) Client.HTTP_METHODS /\
  exists c, In c (list_ascii_of_string key) /\ PyStr.islower c = true.
Proof.
  unfold is_verb_key. rewrite andb_true_iff, mem_In, truthy_lower_chars.
  reflexivity.
Qed.

Lemma getattr_verb (self : t) (v : Client.verb) :
  __getattr__ self (KStr (Client.verb_name v)) = Ok (Partial v (url self)).
Proof. destruct v; reflexivity. Qed.

Lemma getattr_segment (self : t) (key : PyKey) :
  is_verb_key (str key) = false ->
  __getattr__ self key =
  Ok (Self {| client := client self; url := url self +:+ "/" +:+ str key |}).
Proof. intros H. unfold __getattr__. now rewrite H. Qed.

Lemma getattr_not_segment (self : t) (key : PyKey) :
  is_verb_key (str key) = true ->
  forall b, __getattr__ self key <> Ok (Self b).
Proof.
  intros H b. unfold __getattr__. rewrite H.
  destruct (Client.getattr (str key)) as [[]|]; discriminate.
Qed.

(** A callable around a verb method comes back only for the method's own
    name. *)
Lemma getattr_partial_inv (self : t) (key : PyKey) (v : Client.verb) (u : string) :
  __getattr__ self key = Ok (Partial v u) ->
  str key = Client.verb_name v /\ u = url self.
Proof.
  unfold __getattr__. destruct (is_verb_key (str key)); [|discriminate].
  unfold Client.getattr.
  repeat (match goal with
          | |- context [String.eqb ?a ?b] =>
              destruct (String.eqb_spec a b) as [->|?]
          end; [intros [= <- <-]; split; reflexivity|]).
  repeat (match goal with
          | |- context [if ?b then _ else _] => destruct b
          end); discriminate.
Qed.

Lemma verb_name_is_verb_key (v : Client.verb) :
  is_verb_key (Client.verb_name v) = true.
Proof. destruct v; reflexivity. Qed.

Lemma get_segment (self : t) (a : access) :
  segment_access a = true ->
  get self a =
  Ok (Self {| client := client self; url := url self +:+ "/" +:+ name_of a |}).
Proof.
  unfold segment_access. rewrite !andb_true_iff, negb_true_iff.
  intros [[_ Hk] Ha]. destruct a as [name|key].
  - rewrite negb_true_iff, !orb_false_iff in Ha. destruct Ha as [[H1 H2] H3].
    unfold get. rewrite H1, H2, H3. exact (getattr_segment self (KStr name) Hk).
  - exact (getattr_segment self key Hk).
Qed.

Lemma get_verb (self : t) (a : access) (v : Client.verb) :
  name_of a = Client.verb_name v ->
  get self a = Ok (Partial v (url self)).
Proof.
  destruct a as [name|key]; unfold name_of; simpl.
  - intros ->. destruct v; reflexivity.
  - intros H. unfold __getitem__, __getattr__. rewrite H.
    destruct v; reflexivity.
Qed.

Lemma chain_segments (accs rest : list access) (self : t) :
  forallb segment_access accs = true ->
  chain self (accs ++ rest) =
  chain {| client := client self;
           url := url self +:+ path_of (map name_of accs) |} rest.
Proof.
  revert self. induction accs as [|a accs IH]; intros self Hall.
  - simpl. rewrite append_nil_r. now destruct self.
  - simpl in Hall. apply andb_true_iff in Hall as [Ha Hall].
    change ((a :: accs) ++ rest) with (a :: (accs ++ rest)).
    cbn [chain]. rewrite (get_segment self a Ha), (IH _ Hall).
    cbn [client url map path_of]. now rewrite !append_assoc.
Qed.

Lemma segment_access_as_items (accs : list access) :
  forallb segment_access accs = true ->
  forallb segment_access (as_items accs) = true.
Proof.
  induction accs as [|a accs IH]; [reflexivity|].
  cbn [forallb as_items map]. rewrite !andb_true_iff. intros [Ha Hall].
  split; [|now apply IH].
  unfold segment_access in *. rewrite !andb_true_iff in *.
  destruct Ha as [[H1 H2] _]. now destruct a.
Qed.

Lemma name_of_as_items (accs : list access) :
  map name_of (as_items accs) = map name_of accs.
Proof.
  unfold as_items. rewrite map_map. apply map_ext. now intros [].
Qed.

Lemma path_of_join (x : string) (xs : list string) :
  path_of (x :: xs) = "/" +:+ PyStr.join "/" (x :: xs).
Proof.
  revert x. induction xs as [|y xs IH]; intros x.
  - cbn [path_of PyStr.join]. now rewrite append_nil_r.
  - change (path_of (x :: y :: xs)) with ("/" +:+ x +:+ path_of (y :: xs)).
    rewrite IH. reflexivity.
Qed.

(** [C1], as the code has it. After [N] segment accesses, in either
    style, the name of a verb method yields a callable bound to the path
    made of a slash and a segment for each access: for [N >= 1] that is
    a slash followed by the segments joined with slashes, for [N = 0] the
    empty path. The same accesses written as indexed accesses bind the
    same path. *)
Theorem chain_binds_slash_prefixed_path
    (c : Client.t) (accs : list access) (last : access) (v : Client.verb) :
  forallb segment_access accs = true ->
  name_of last = Client.verb_name v ->
  chain (__init__ c) (accs ++ [last])
    = Ok (Partial v (path_of (map name_of accs)))
  /\ chain (__init__ c) (as_items accs ++ [Item (key_of last)])
    = Ok (Partial v (path_of (map name_of accs)))
  /\ match map name_of accs with
     | [] => path_of (map name_of accs) = ""
     | x :: xs => path_of (map name_of accs) = "/" +:+ PyStr.join "/" (x :: xs)
     end.
Proof.
  intros Hall Hlast. repeat split.
  - rewrite (chain_segments accs [last] _ Hall). cbn [chain].
    rewrite (get_verb _ last v Hlast). reflexivity.
  - rewrite (chain_segments _ [Item (key_of last)] _
               (segment_access_as_items accs Hall)).
    cbn [chain]. rewrite (get_verb _ (Item (key_of last)) v).
    + now rewrite name_of_as_items.
    + now destruct last.
  - destruct (map name_of accs) as [|x xs]; [reflexivity|apply path_of_join].
Qed.

Lemma chain_binds_slash_prefixed_path_witness :
  chain (__init__ sample_client)
    ([Attr "repos"; Item (KStr "org"); Item (KInt 7); Attr "issues"] ++ [Attr "get"])
  = Ok (Partial Client.mGet "/repos/org/7/issues").
Proof.
  exact (proj1 (chain_binds_slash_prefixed_path sample_client
           [Attr "repos"; Item (KStr "org"); Item (KInt 7); Attr "issues"]
           (Attr "get") Client.mGet eq_refl eq_refl)).
Defined.

(** [C1] as stated fails: after the segments [repos] and [org] the bound
    path is not the two segments joined with a slash; it has a slash in
    front. *)
Lemma chain_path_is_not_the_join :
  chain (__init__ sample_client) [Attr "repos"; Item (KStr "org"); Attr "get"]
    = Ok (Partial Client.mGet "/repos/org")
  /\ chain (__init__ sample_client) [Attr "repos"; Item (KStr "org"); Attr "get"]
    <> Ok (Partial Client.mGet (PyStr.join "/" ["repos"; "org"])).
Proof. split; [reflexivity|discriminate]. Qed.

(** Attribute style and indexed style differ on the names the object
    already has: [b.url] is the stored path, [b["url"]] is a segment. *)
Lemma stored_attribute_is_not_a_segment :
  get (__init__ sample_client) (Attr "url") = Ok (Stored "url")
  /\ get (__init__ sample_client) (Item (KStr "url"))
     = Ok (Self {| client := sample_client; url := "/url" |}).
Proof. split; reflexivity. Qed.

(** The part of [C2] the code keeps. Each of the six lower-case method
    names yields a callable bound to the accumulated path; an ASCII name
    is appended as a segment exactly when it fails the test "its upper-case
    form is one of the six methods and it has a lower-case character";
    the all-upper-case [GET] is appended. *)
Lemma getattr_dispatch_or_append (self : t) (key : PyKey) :
  PyStr.is_ascii (str key) = true ->
  (forall v : Client.verb,
      __getattr__ self (KStr (Client.verb_name v)) = Ok (Partial v (url self)))
  /\ (__getattr__ self key
        = Ok (Self {| client := client self; url := url self +:+ "/" +:+ str key |})
      <-> ~ (In (PyStr.upper (str key)) Client.HTTP_METHODS
             /\ exists c, In c (list_ascii_of_string (str key))
                          /\ PyStr.islower c = true))
  /\ __getattr__ self (KStr "GET")
       = Ok (Self {| client := client self; url := url self +:+ "/GET" |}).
Proof.
  intros _. split; [apply getattr_verb|]. split; [|reflexivity].
  rewrite <- is_verb_key_spec. split.
  - intros H Hk. exact (getattr_not_segment self key Hk _ H).
  - intros H. apply getattr_segment.
    destruct (is_verb_key (str key)); [now destruct H|reflexivity].
Qed.

Lemma getattr_dispatch_or_append_witness :
  __getattr__ (__init__ sample_client) (KStr "issues")
  = Ok (Self {| client := sample_client; url := "/issues" |}).
Proof.
  apply (proj1 (proj2 (getattr_dispatch_or_append
                         (__init__ sample_client) (KStr "issues") eq_refl))).
  intros [H _]. vm_compute in H. intuition discriminate.
Defined.

(** The client has an attribute under a name that passes the verb test
    only for the six lower-case method names. *)
Lemma client_getattr_mixed_case (key : string) :
  is_verb_key key = true ->
  (forall v : Client.verb, key <> Client.verb_name v) ->
  Client.getattr key = None.
Proof.
  intros Hk Hne. unfold Client.getattr.
  destruct (String.eqb_spec key "delete") as [E|_];
    [now destruct (Hne Client.mDelete)|].
  destruct (String.eqb_spec key "get") as [E|_];
    [now destruct (Hne Client.mGet)|].
  destruct (String.eqb_spec key "head") as [E|_];
    [now destruct (Hne Client.mHead)|].
  destruct (String.eqb_spec key "patch") as [E|_];
    [now destruct (Hne Client.mPatch)|].
  destruct (String.eqb_spec key "post") as [E|_];
    [now destruct (Hne Client.mPost)|].
  destruct (String.eqb_spec key "put") as [E|_];
    [now destruct (Hne Client.mPut)|].
  match goal with
  | |- context [PyStr.mem key ?l] => destruct (PyStr.mem key l) eqn:E1
  end.
  { apply mem_In in E1. cbn [In] in E1.
    repeat (destruct E1 as [<-|E1]; [discriminate Hk|]). destruct E1. }
  match goal with
  | |- context [PyStr.mem key ?l] => destruct (PyStr.mem key l) eqn:E2
  end; [|reflexivity].
  apply mem_In in E2. cbn [In] in E2.
  repeat (destruct E2 as [<-|E2]; [discriminate Hk|]). destruct E2.
Qed.

(** [C2]: where the code departs from it. A name that passes the test of
    the claim, its upper-case form one of the six methods and a lower-case
    character in it, triggers the dispatch; but unless it is one of the
    six lower-case method names, as for [Get] or [pOST], the dispatch
    fails: [getattr(self.client, key)] looks the name up as it is given and
    raises [AttributeError]. No callable is returned, and the name is not
    appended to the path either. *)
Theorem mixed_case_verb_raises_attribute_error (self : t) (key : PyKey) :
  In (PyStr.upper (str key)) Client.HTTP_METHODS ->
  (exists c, In c (list_ascii_of_string (str key)) /\ PyStr.islower c = true) ->
  (forall v : Client.verb, str key <> Client.verb_name v) ->
  __getattr__ self key = Raise (AttributeError (str key))
  /\ (forall v u, __getattr__ self key <> Ok (Partial v u))
  /\ (forall b, __getattr__ self key <> Ok (Self b)).
Proof.
  intros Hup Hlow Hne.
  assert (Hk : is_verb_key (str key) = true)
    by (apply is_verb_key_spec; split; assumption).
  assert (E : __getattr__ self key = Raise (AttributeError (str key))).
  { unfold __getattr__. rewrite Hk.
    now rewrite (client_getattr_mixed_case (str key) Hk Hne). }
  rewrite E. repeat split; discriminate.
Qed.

Lemma mixed_case_verb_raises_attribute_error_witness :
  __getattr__ (__init__ sample_client) (KStr "Get")
  = Raise (AttributeError "Get").
Proof.
  apply (mixed_case_verb_raises_attribute_error
           (__init__ sample_client) (KStr "Get")).
  - right. left. reflexivity.
  - exists "e"%char. split; [right; left; reflexivity|reflexivity].
  - intros v. destruct v; discriminate.
Defined.

End RequestBuilderFacts.


(** ** The transport *)

Lemma body_ok_None (hp : list PyVal) : body_ok hp None.
Proof. intros lb [=]. Qed.

Lemma headers_ok_None (hp : list PyVal) : headers_ok hp None.
Proof. exact I. Qed.

Lemma merged_headers_updated (self : Client.t) (content_type : option string)
    (d : Dict.t) :
  headers_updated self content_type d (merged_headers self content_type d).
Proof.
  unfold headers_updated, merged_headers. repeat split.
  - apply DictFacts.get_set_eq.
  - intros a ->. rewrite DictFacts.get_set_ne by discriminate.
    apply DictFacts.get_set_eq.
  - intros ct ->. rewrite DictFacts.get_set_ne by discriminate.
    destruct (Client.auth_header self).
    + rewrite DictFacts.get_set_ne by discriminate. apply DictFacts.get_set_eq.
    + apply DictFacts.get_set_eq.
  - intros k Hua Hauth Hct.
    rewrite DictFacts.get_set_ne by congruence.
    destruct (Client.auth_header self) as [a|] eqn:Ea.
    + rewrite DictFacts.get_set_ne
        by (intros <-; specialize (Hauth eq_refl); discriminate).
      destruct content_type as [ct|]; [|reflexivity].
      rewrite DictFacts.get_set_ne
        by (intros <-; specialize (Hct eq_refl); discriminate).
      reflexivity.
    + destruct content_type as [ct|]; [|reflexivity].
      rewrite DictFacts.get_set_ne
        by (intros <-; specialize (Hct eq_refl); discriminate).
      reflexivity.
Qed.

Section TransportFacts.

Variable json_dumps : PyVal -> string.
Variable json_loads : string -> option PyVal.
Variable decode_utf8 : string -> option string.
Variable opener_open : HttpRequest -> Outcome Conn.t.
Variable Request_accepts : string -> bool.

Let request :=
  Client.request json_dumps json_loads decode_utf8 opener_open Request_accepts.
Let call :=
  Client.call json_dumps json_loads decode_utf8 opener_open Request_accepts.

(** Every verb method is a call of [request]. *)
Lemma call_is_request (mfun : Client.verb) (self : Client.t) (url : string)
    (headers body : option loc) (params : list (string * string)) :
  (takes_body mfun = false -> body = None) ->
  call mfun self url headers body params
  = request self (Client.verb_method mfun)
      (Client._append_slash_to self url +:+ Client.urlencode params)
      body headers (content_type_of mfun).
Proof.
  intros Hb. destruct mfun; try reflexivity;
    rewrite (Hb eq_refl); reflexivity.
Qed.

(** [C5], as the code has it. For a joined URL the constructor of
    requests takes, one request goes to the opener, and in its URL the
    separator is a slash when the base URL has no trailing slash and the
    relative URL no leading one; in every other case, a base URL ending in
    a slash before a path beginning with one included, the two are put
    together as they are. *)
Theorem get_connection_joins_base_and_path
    (self : Client.t) (method url : string) (body : option string)
    (lh : loc) (hm : Dict.t)
    (h : list PyVal) (lg : list LogRecord) (wr : list HttpRequest) :
  h !! lh = Some (PDict hm) ->
  Request_accepts (joined_url self url) = true ->
  exists req,
    wire (snd (Client.get_connection opener_open Request_accepts
                 self method url body lh
                 {| heap := h; debug_log := lg; wire := wr |}))
    = wr ++ [req]
    /\ (PyStr.endswith (Client.url self) "/" = false ->
        PyStr.startswith url "/" = false ->
        full_url req = Client.url self +:+ "/" +:+ url)
    /\ (PyStr.endswith (Client.url self) "/" = true ->
        PyStr.startswith url "/" = true ->
        full_url req = Client.url self +:+ url)
    /\ (PyStr.endswith (Client.url self) "/" = true
        \/ PyStr.startswith url "/" = true ->
        full_url req = Client.url self +:+ url).
Proof.
  intros H Hacc. eexists.
  rewrite (get_connection_run opener_open Request_accepts
             self method url body lh hm h lg wr H Hacc).
  cbn [snd wire]. split; [reflexivity|].
  cbn [request_sent full_url]. unfold joined_url, Client.separator.
  repeat split.
  - now intros -> ->.
  - now intros -> ->.
  - intros [->| ->]; [reflexivity|]. now rewrite andb_false_r.
Qed.

(** [C7]. A request whose body is a dictionary and whose URL the
    constructor of requests takes. One request goes to the opener: its
    body is [json.dumps] of the whole dictionary as it is when it is
    serialised, and its headers are the merged headers with the configured
    authorization header in clear. The debug log gets the record of the
    request, the record of the opening and at most the record of the
    response length, so the body is logged once: as a copy with the keys
    of the original, the placeholder under [password] when that key is
    present and the original values elsewhere. The caller's dictionary is
    as it was. When one dictionary is passed as body and as headers, the
    body as it is serialised is that dictionary with the three header
    entries stored in it. *)
Theorem request_sends_whole_body_logs_censored
    (self : Client.t) (method url : string) (lb : loc) (headers : option loc)
    (content_type : option string)
    (hp : list PyVal) (lgw : list LogRecord) (wr : list HttpRequest)
    (d : Dict.t) :
  hp !! lb = Some (PDict d) ->
  headers_ok hp headers ->
  Request_accepts (joined_url self url) = true ->
  let w' := snd (request self method url (Some lb) headers content_type
                   {| heap := hp; debug_log := lgw; wire := wr |}) in
  let hm := merged_headers self content_type (headers_before hp headers) in
  let sent := if decide (headers = Some lb) then hm else d in
  exists logged tail,
    wire w' = wr ++ [{| full_url := joined_url self url;
                        data := Some (json_dumps (PDict sent));
                        req_headers := Dict.items hm;
                        get_method := method |}]
    /\ headers_updated self content_type (headers_before hp headers) hm
    /\ debug_log w'
       = lgw
         ++ [LogCliRequest method url (Some (PDict logged))
               (Some (PDict (censor_dict ["Authorization"; "X-Auth-Token"] hm)));
             LogOpening (Client.url self) (Client.separator self url) url]
         ++ tail
    /\ (tail = [] \/ exists n, tail = [LogResponseLen n])
    /\ Dict.keys logged = Dict.keys sent
    /\ (forall k, Dict.get k logged
                  = if String.eqb k "password" && PyStr.mem k (Dict.keys sent)
                    then Some (PStr CENSORED_MESSAGE)
                    else Dict.get k sent)
    /\ heap w' !! lb = Some (PDict sent).
Proof.
  intros Hd Hh Hacc w' hm sent.
  assert (Hlb : (lb < length hp)%nat) by (eapply lookup_lt_Some; exact Hd).
  assert (Hb : body_ok hp (Some lb)) by (intros ? [= <-]; exact Hlb).
  destruct (request_world_log json_dumps json_loads decode_utf8 opener_open
              Request_accepts
              self method url (Some lb) headers content_type hp lgw wr Hh Hb Hacc)
    as (copies & tail & E & Htail).
  fold hm in E.
  set (lh := headers_loc hp headers) in *.
  assert (Hv : <[lh := PDict hm]> (heap_with_headers hp headers) !! lb
               = Some (PDict sent)).
  { unfold lh, sent. destruct headers as [l|]; cbn [headers_loc heap_with_headers].
    - destruct (decide (Some l = Some lb)) as [[= ->]|Hne].
      + apply list_lookup_insert_eq. exact Hlb.
      + rewrite list_lookup_insert_ne by congruence. exact Hd.
    - rewrite decide_False by discriminate.
      rewrite list_lookup_insert_ne by lia. now rewrite lookup_app_l. }
  rewrite Hv in E. cbn [is_str body_logged body_sent censor_value app] in E.
  subst w'. unfold request. rewrite E. cbn [wire debug_log heap].
  exists (censor_dict ["password"] sent), tail.
  split; [reflexivity|]. split; [apply merged_headers_updated|].
  split; [reflexivity|]. split; [exact Htail|].
  split; [apply censor_dict_keys|]. split.
  - intros k. rewrite censor_dict_get. unfold PyStr.mem at 1. cbn [existsb].
    now rewrite orb_false_r.
  - rewrite lookup_app_l; [exact Hv|]. eapply lookup_lt_Some; exact Hv.
Qed.

(** The three ways [request] ends after an answer of the opener. *)
Lemma request_head_returns_headers (self : Client.t) (url : string)
    (body headers : option loc) (content_type : option string)
    (hp : list PyVal) (lgw : list LogRecord) (wr : list HttpRequest)
    (conn : Conn.t) :
  headers_ok hp headers -> body_ok hp body ->
  Request_accepts (joined_url self url) = true ->
  (forall req, opener_open req = Ok conn) ->
  fst (request self Client.HEAD url body headers content_type
         {| heap := hp; debug_log := lgw; wire := wr |})
  = Ok (Conn.code conn, Client.Headers (Conn.headers conn)).
Proof.
  intros Hh Hb Hacc Ho. unfold request.
  now rewrite (request_outcome _ _ _ _ _ _ _ _ _ _ _ _ _ _ conn Hh Hb Hacc Ho).
Qed.

Lemma request_json_outcome (self : Client.t) (method url : string)
    (body headers : option loc) (content_type : option string)
    (hp : list PyVal) (lgw : list LogRecord) (wr : list HttpRequest)
    (conn : Conn.t) (text : string) (j : PyVal) :
  headers_ok hp headers -> body_ok hp body ->
  Request_accepts (joined_url self url) = true ->
  (forall req, opener_open req = Ok conn) ->
  String.eqb method Client.HEAD = false ->
  decode_utf8 (Conn.read conn) = Some text ->
  json_loads text = Some j ->
  fst (request self method url body headers content_type
         {| heap := hp; debug_log := lgw; wire := wr |})
  = match py_len j with
    | Ok _ => Ok (Conn.code conn, Client.Decoded j)
    | Raise e => Raise e
    end.
Proof.
  intros Hh Hb Hacc Ho Hm Hd Hj. unfold request.
  rewrite (request_outcome _ _ _ _ _ _ _ _ _ _ _ _ _ _ conn Hh Hb Hacc Ho).
  unfold decode_response. now rewrite Hm, Hd, Hj.
Qed.

Lemma request_returns_parsed_json (self : Client.t) (method url : string)
    (body headers : option loc) (content_type : option string)
    (hp : list PyVal) (lgw : list LogRecord) (wr : list HttpRequest)
    (conn : Conn.t) (text : string) (j : PyVal) (n : Z) :
  headers_ok hp headers -> body_ok hp body ->
  Request_accepts (joined_url self url) = true ->
  (forall req, opener_open req = Ok conn) ->
  String.eqb method Client.HEAD = false ->
  decode_utf8 (Conn.read conn) = Some text ->
  json_loads text = Some j ->
  py_len j = Ok n ->
  fst (request self method url body headers content_type
         {| heap := hp; debug_log := lgw; wire := wr |})
  = Ok (Conn.code conn, Client.Decoded j).
Proof.
  intros Hh Hb Hacc Ho Hm Hd Hj Hn. unfold request.
  rewrite (request_outcome _ _ _ _ _ _ _ _ _ _ _ _ _ _ conn Hh Hb Hacc Ho).
  unfold decode_response. rewrite Hm, Hd, Hj. cbn [Client.len_pybody].
  now rewrite Hn.
Qed.

Lemma request_returns_text (self : Client.t) (method url : string)
    (body headers : option loc) (content_type : option string)
    (hp : list PyVal) (lgw : list LogRecord) (wr : list HttpRequest)
    (conn : Conn.t) (text : string) :
  headers_ok hp headers -> body_ok hp body ->
  Request_accepts (joined_url self url) = true ->
  (forall req, opener_open req = Ok conn) ->
  String.eqb method Client.HEAD = false ->
  decode_utf8 (Conn.read conn) = Some text ->
  json_loads text = None ->
  fst (request self method url body headers content_type
         {| heap := hp; debug_log := lgw; wire := wr |})
  = Ok (Conn.code conn, Client.Decoded (PStr text)).
Proof.
  intros Hh Hb Hacc Ho Hm Hd Hj. unfold request.
  rewrite (request_outcome _ _ _ _ _ _ _ _ _ _ _ _ _ _ conn Hh Hb Hacc Ho).
  unfold decode_response. now rewrite Hm, Hd, Hj.
Qed.

(** [C8]: where the code departs from it. When the request is built and
    the answer parses to a JSON value without a length (a number, [true],
    [false], [null]), [request] returns nothing: [len(pybody)], evaluated
    for the debug record, raises the [TypeError] of [len]. *)
Theorem request_raises_on_json_without_length
    (self : Client.t) (method url : string)
    (body headers : option loc) (content_type : option string)
    (hp : list PyVal) (lgw : list LogRecord) (wr : list HttpRequest)
    (conn : Conn.t) (text : string) (j : PyVal) (e : PyExc) :
  headers_ok hp headers -> body_ok hp body ->
  Request_accepts (joined_url self url) = true ->
  (forall req, opener_open req = Ok conn) ->
  String.eqb method Client.HEAD = false ->
  decode_utf8 (Conn.read conn) = Some text ->
  json_loads text = Some j ->
  py_len j = Raise e ->
  fst (request self method url body headers content_type
         {| heap := hp; debug_log := lgw; wire := wr |})
  = Raise e.
Proof.
  intros Hh Hb Hacc Ho Hm Hd Hj Hn. unfold request.
  rewrite (request_outcome _ _ _ _ _ _ _ _ _ _ _ _ _ _ conn Hh Hb Hacc Ho).
  unfold decode_response. rewrite Hm, Hd, Hj. cbn [Client.len_pybody].
  now rewrite Hn.
Qed.

(** [C9], as the code has it. For a URL the constructor of requests
    takes, [delete], [post], [put] and [patch] send
    [Content-Type: application/json] whether or not a body is supplied;
    [get] and [head] set no content type, and send the caller's own when
    the caller's headers have one. *)
Theorem content_type_follows_the_verb
    (mfun : Client.verb) (self : Client.t) (url : string)
    (headers body : option loc) (params : list (string * string))
    (hp : list PyVal) (lgw : list LogRecord) (wr : list HttpRequest) :
  headers_ok hp headers -> body_ok hp body ->
  (takes_body mfun = false -> body = None) ->
  Request_accepts
    (joined_url self (Client._append_slash_to self url +:+ Client.urlencode params))
  = true ->
  exists req,
    wire (snd (call mfun self url headers body params
                 {| heap := hp; debug_log := lgw; wire := wr |}))
    = wr ++ [req]
    /\ get_method req = Client.verb_method mfun
    /\ (takes_body mfun = true ->
        Dict.get "Content-Type" (req_headers req)
        = Some (PStr "application/json"))
    /\ (takes_body mfun = false ->
        Dict.get "Content-Type" (req_headers req)
        = Dict.get "Content-Type" (headers_before hp headers)).
Proof.
  intros Hh Hb Hm Hacc.
  rewrite (call_is_request mfun self url headers body params Hm).
  destruct (request_world json_dumps json_loads decode_utf8 opener_open
              Request_accepts self (Client.verb_method mfun)
              (Client._append_slash_to self url +:+ Client.urlencode params)
              body headers (content_type_of mfun) hp lgw wr Hh Hb Hacc)
    as (copies & tail & E).
  unfold request. rewrite E. cbn [wire]. eexists. split; [reflexivity|].
  cbn [request_sent get_method req_headers Dict.items].
  destruct (merged_headers_updated self (content_type_of mfun)
              (headers_before hp headers)) as (_ & _ & Hct & Hother).
  repeat split.
  - intros Ht. apply Hct. now destruct mfun.
  - intros Ht. apply Hother; try discriminate. intros _. now destruct mfun.
Qed.

(** [C10]. After [request], and so after each of the six verb methods, the
    dictionary the caller passed as [headers] is the same object with the
    user agent, the configured authorization header and the content type
    stored in it, over whatever the caller had under those names; the other
    entries are as they were. This holds however the call ends. *)
Theorem request_updates_the_callers_headers
    (self : Client.t) (method url : string) (body : option loc) (lh : loc)
    (content_type : option string)
    (hp : list PyVal) (lgw : list LogRecord) (wr : list HttpRequest)
    (hd : Dict.t) :
  hp !! lh = Some (PDict hd) ->
  body_ok hp body ->
  (exists hd',
      heap (snd (request self method url body (Some lh) content_type
                   {| heap := hp; debug_log := lgw; wire := wr |})) !! lh
      = Some (PDict hd')
      /\ headers_updated self content_type hd hd')
  /\ (forall mfun params,
        (takes_body mfun = false -> body = None) ->
        exists hd',
          heap (snd (call mfun self url (Some lh) body params
                       {| heap := hp; debug_log := lgw; wire := wr |})) !! lh
          = Some (PDict hd')
          /\ headers_updated self (content_type_of mfun) hd hd').
Proof.
  intros Hd Hb.
  assert (Hh : headers_ok hp (Some lh)) by (now exists hd).
  assert (Hlh : (lh < length hp)%nat) by (eapply lookup_lt_Some; exact Hd).
  assert (Hreq : forall m u ct,
             exists hd',
               heap (snd (request self m u body (Some lh) ct
                            {| heap := hp; debug_log := lgw; wire := wr |})) !! lh
               = Some (PDict hd')
               /\ headers_updated self ct hd hd').
  { intros m u ct.
    destruct (request_heap json_dumps json_loads decode_utf8 opener_open
                Request_accepts self m u body (Some lh) ct hp lgw wr Hh Hb)
      as (copies & E).
    unfold request. rewrite E. cbn [heap headers_loc heap_with_headers].
    exists (merged_headers self ct hd). split.
    - rewrite lookup_app_l by (now rewrite length_insert).
      unfold headers_before. rewrite Hd. now apply list_lookup_insert_eq.
    - apply merged_headers_updated. }
  split; [apply Hreq|].
  intros mfun params Hm.
  rewrite (call_is_request mfun self url (Some lh) body params Hm). apply Hreq.
Qed.

(** The scenario of the specification: a client for
    [https://api.example.com] with the token [abc], and the expression
    [g.repos["org"]["name"].issues.get(state="open")]. *)
Lemma scenario_client :
  RestClient.__init__ "https://api.example.com" None None (Some "abc")
    Client.default_token_type None false
  = Ok {| RestClient.client := sample_client |}.
Proof. reflexivity. Qed.

Lemma scenario_is_a_get_request :
  RestClient.call_chain json_dumps json_loads decode_utf8 opener_open
    Request_accepts {| RestClient.client := sample_client |} "repos"
    [RequestBuilder.Item (KStr "org"); RequestBuilder.Item (KStr "name");
     RequestBuilder.Attr "issues"; RequestBuilder.Attr "get"]
    None None [("state", "open")]
  = request sample_client "GET" "/repos/org/name/issues?state=open"
      None None None.
Proof. reflexivity. Qed.

(** The request of the scenario: the method, the URL and the headers. *)
Lemma scenario_request
    (hp : list PyVal) (lgw : list LogRecord) (wr : list HttpRequest) :
  Request_accepts "https://api.example.com/repos/org/name/issues?state=open"
  = true ->
  wire (snd (RestClient.call_chain json_dumps json_loads decode_utf8 opener_open
               Request_accepts
               {| RestClient.client := sample_client |} "repos"
               [RequestBuilder.Item (KStr "org"); RequestBuilder.Item (KStr "name");
                RequestBuilder.Attr "issues"; RequestBuilder.Attr "get"]
               None None [("state", "open")]
               {| heap := hp; debug_log := lgw; wire := wr |}))
  = wr ++ [{| full_url := "https://api.example.com/repos/org/name/issues?state=open";
              data := None;
              req_headers := [("Authorization", PStr "Token abc");
                              ("User-Agent", PStr "vsc-rest-client")];
              get_method := "GET" |}].
Proof.
  intros Hacc. rewrite scenario_is_a_get_request.
  destruct (request_world json_dumps json_loads decode_utf8 opener_open
              Request_accepts
              sample_client "GET" "/repos/org/name/issues?state=open"
              None None None hp lgw wr (headers_ok_None hp) (body_ok_None hp)
              Hacc)
    as (copies & tail & E).
  unfold request. rewrite E. reflexivity.
Qed.

(** Its result when the answer is a JSON document that has a length. *)
Lemma scenario_result
    (hp : list PyVal) (lgw : list LogRecord) (wr : list HttpRequest)
    (conn : Conn.t) (text : string) (j : PyVal) (n : Z) :
  Request_accepts "https://api.example.com/repos/org/name/issues?state=open"
  = true ->
  (forall req, opener_open req = Ok conn) ->
  Conn.code conn = 200%Z ->
  decode_utf8 (Conn.read conn) = Some text ->
  json_loads text = Some j ->
  py_len j = Ok n ->
  fst (RestClient.call_chain json_dumps json_loads decode_utf8 opener_open
         Request_accepts
         {| RestClient.client := sample_client |} "repos"
         [RequestBuilder.Item (KStr "org"); RequestBuilder.Item (KStr "name");
          RequestBuilder.Attr "issues"; RequestBuilder.Attr "get"]
         None None [("state", "open")]
         {| heap := hp; debug_log := lgw; wire := wr |})
  = Ok (200%Z, Client.Decoded j).
Proof.
  intros Hacc Ho Hc Hd Hj Hn. rewrite scenario_is_a_get_request.
  rewrite <- Hc.
  exact (request_returns_parsed_json sample_client "GET"
           "/repos/org/name/issues?state=open" None None None
           hp lgw wr conn text j n (headers_ok_None hp) (body_ok_None hp)
           Hacc Ho eq_refl Hd Hj Hn).
Qed.

(** [C4]: where the code departs from it. The request of the scenario is
    the one the claim names (its URL is one the constructor of requests
    takes), but when the server answers 200 with a JSON document that has
    no length (a number, [true], [false], [null]) the call raises instead
    of returning the status and the parsed value. *)
Theorem scenario_raises_on_json_without_length
    (hp : list PyVal) (lgw : list LogRecord) (wr : list HttpRequest)
    (conn : Conn.t) (text : string) (j : PyVal) (e : PyExc) :
  Request_accepts "https://api.example.com/repos/org/name/issues?state=open"
  = true ->
  (forall req, opener_open req = Ok conn) ->
  Conn.code conn = 200%Z ->
  decode_utf8 (Conn.read conn) = Some text ->
  json_loads text = Some j ->
  py_len j = Raise e ->
  let run :=
    RestClient.call_chain json_dumps json_loads decode_utf8 opener_open
      Request_accepts {| RestClient.client := sample_client |} "repos"
      [RequestBuilder.Item (KStr "org"); RequestBuilder.Item (KStr "name");
       RequestBuilder.Attr "issues"; RequestBuilder.Attr "get"]
      None None [("state", "open")]
      {| heap := hp; debug_log := lgw; wire := wr |} in
  fst run = Raise e
  /\ wire (snd run)
     = wr ++ [{| full_url := "https://api.example.com/repos/org/name/issues?state=open";
                 data := None;
                 req_headers := [("Authorization", PStr "Token abc");
                                 ("User-Agent", PStr "vsc-rest-client")];
                 get_method := "GET" |}].
Proof.
  intros Hacc Ho Hc Hd Hj Hn run. split; [|apply scenario_request, Hacc].
  unfold run. rewrite scenario_is_a_get_request.
  rewrite (request_json_outcome sample_client "GET"
             "/repos/org/name/issues?state=open" None None None
             hp lgw wr conn text j (headers_ok_None hp) (body_ok_None hp)
             Hacc Ho eq_refl Hd Hj).
  now rewrite Hn.
Qed.

End TransportFacts.

(** ** Censoring *)

(** [C6]. [censor_request] returns a new object and leaves the payload
    alone. For a dictionary the new object has the same keys, the
    placeholder under every key that is one of the secrets, and the
    original value under every other key; for [['password']] and
    [{'password': 'x', 'other': 'y'}] it is
    [{'password': CENSORED_MESSAGE, 'other': 'y'}]. For a payload that is
    not a dictionary the new object equals the payload, and nothing is
    raised. *)
Theorem censor_request_replaces_the_secrets
    (secrets : list string) (l : loc) (v : PyVal) (w : World) :
  heap w !! l = Some v ->
  exists v',
    Client.censor_request secrets (Some l) w
    = (Ok (Some (length (heap w))), with_heap w (heap w ++ [v']))
    /\ (is_dict v = false -> v' = v)
    /\ (forall d, v = PDict d ->
          exists d',
            v' = PDict d'
            /\ Dict.keys d' = Dict.keys d
            /\ forall k,
                 Dict.get k d'
                 = if PyStr.mem k secrets && PyStr.mem k (Dict.keys d)
                   then Some (PStr CENSORED_MESSAGE)
                   else Dict.get k d)
    /\ (secrets = ["password"] ->
        v = PDict [("password", PStr "x"); ("other", PStr "y")] ->
        v' = PDict [("password", PStr CENSORED_MESSAGE); ("other", PStr "y")]).
Proof.
  intros H. exists (censor_value secrets v).
  split; [now apply CensorFacts.censor_request_run|].
  split; [now destruct v|]. split.
  - intros d ->. exists (censor_dict secrets d).
    split; [reflexivity|]. split; [apply censor_dict_keys|].
    intros k. apply censor_dict_get.
  - intros -> ->. reflexivity.
Qed.

Lemma censor_request_replaces_the_secrets_witness :
  Client.censor_request ["password"] (Some 0%nat)
    {| heap := [PDict [("password", PStr "x"); ("other", PStr "y")]];
       debug_log := []; wire := [] |}
  = (Ok (Some 1%nat),
     {| heap := [PDict [("password", PStr "x"); ("other", PStr "y")];
                 PDict [("password", PStr CENSORED_MESSAGE); ("other", PStr "y")]];
        debug_log := []; wire := [] |}).
Proof.
  destruct (censor_request_replaces_the_secrets ["password"] 0%nat
              (PDict [("password", PStr "x"); ("other", PStr "y")])
              {| heap := [PDict [("password", PStr "x"); ("other", PStr "y")]];
                 debug_log := []; wire := [] |} eq_refl)
    as (v' & E & _ & _ & Hv).
  etransitivity; [exact E|]. rewrite (Hv eq_refl eq_refl). reflexivity.
Defined.

(** A payload that is a list, a text with the secret among its characters,
    or [None] comes back as it is. *)
Example censor_request_list :
  Client.censor_request ["password"] (Some 0%nat)
    {| heap := [PList [PStr "password"; PInt 1]]; debug_log := []; wire := [] |}
  = (Ok (Some 1%nat),
     {| heap := [PList [PStr "password"; PInt 1]; PList [PStr "password"; PInt 1]];
        debug_log := []; wire := [] |}).
Proof. reflexivity. Qed.

Example censor_request_text :
  Client.censor_request ["p"] (Some 0%nat)
    {| heap := [PStr "pq"]; debug_log := []; wire := [] |}
  = (Ok (Some 1%nat),
     {| heap := [PStr "pq"; PStr "pq"]; debug_log := []; wire := [] |}).
Proof. reflexivity. Qed.

(** ** The statements at sample inputs *)

(** [C5] as stated fails: a base URL that ends in a slash, joined with a
    path that begins with one, keeps both slashes. *)
Lemma double_slash_at_the_join :
  map full_url
    (wire (snd (Client.get_connection (Fixture.answering "[]")
                  Fixture.Request_accepts
                  {| Client.auth_header := None; Client.username := None;
                     Client.url := "https://api.example.com/";
                     Client.append_slash := false;
                     Client.user_agent := Client.USER_AGENT |}
                  "GET" "/repos" None 0%nat
                  {| heap := [PDict []]; debug_log := []; wire := [] |})))
  = ["https://api.example.com//repos"].
Proof. reflexivity. Qed.

Lemma get_connection_joins_base_and_path_witness :
  exists req,
    wire (snd (Client.get_connection (Fixture.answering "[]")
                 Fixture.Request_accepts sample_client
                 "GET" "repos" None 0%nat
                 {| heap := [PDict []]; debug_log := []; wire := [] |}))
    = [req]
    /\ full_url req = "https://api.example.com/repos".
Proof.
  destruct (get_connection_joins_base_and_path (Fixture.answering "[]")
              Fixture.Request_accepts
              sample_client "GET" "repos" None 0%nat [] [PDict []] [] []
              eq_refl eq_refl) as (req & Hw & Hsep & _).
  exists req. split; [exact Hw|]. exact (Hsep eq_refl eq_refl).
Defined.

Lemma request_sends_whole_body_logs_censored_witness :
  exists logged tail,
    let w' := snd (Client.request Fixture.json_dumps Fixture.json_loads
                     Fixture.decode_utf8 (Fixture.answering "{}")
                     Fixture.Request_accepts
                     sample_client "POST" "/issues" (Some 0%nat) None
                     (Some "application/json")
                     {| heap := [PDict [("title", PStr "t");
                                        ("password", PStr "secret")]];
                        debug_log := []; wire := [] |}) in
    wire w'
    = [{| full_url := "https://api.example.com/issues";
          data := Some (Fixture.json_dumps
                          (PDict [("title", PStr "t"); ("password", PStr "secret")]));
          req_headers := [("Content-Type", PStr "application/json");
                          ("Authorization", PStr "Token abc");
                          ("User-Agent", PStr "vsc-rest-client")];
          get_method := "POST" |}]
    /\ debug_log w'
       = [LogCliRequest "POST" "/issues" (Some (PDict logged))
            (Some (PDict [("Content-Type", PStr "application/json");
                          ("Authorization", PStr CENSORED_MESSAGE);
                          ("User-Agent", PStr "vsc-rest-client")]));
          LogOpening "https://api.example.com" "" "/issues"] ++ tail
    /\ Dict.get "password" logged = Some (PStr CENSORED_MESSAGE)
    /\ Dict.get "title" logged = Some (PStr "t").
Proof.
  destruct (request_sends_whole_body_logs_censored
              Fixture.json_dumps Fixture.json_loads Fixture.decode_utf8
              (Fixture.answering "{}") Fixture.Request_accepts
              sample_client "POST" "/issues" 0%nat None
              (Some "application/json")
              [PDict [("title", PStr "t"); ("password", PStr "secret")]] [] []
              [("title", PStr "t"); ("password", PStr "secret")]
              eq_refl I eq_refl)
    as (logged & tail & Hw & _ & Hlog & _ & _ & Hget & _).
  exists logged, tail. cbv zeta.
  split; [exact Hw|]. split; [exact Hlog|].
  split; [exact (Hget "password")|exact (Hget "title")].
Defined.

Lemma request_raises_on_json_without_length_witness :
  fst (Client.request Fixture.json_dumps Fixture.json_loads
         Fixture.decode_utf8 (Fixture.answering "0") Fixture.Request_accepts
         sample_client "GET" "/issues" None None None Fixture.empty_world)
  = Raise (TypeError "object of type 'int' has no len()").
Proof.
  apply (request_raises_on_json_without_length
           Fixture.json_dumps Fixture.json_loads Fixture.decode_utf8
           (Fixture.answering "0") Fixture.Request_accepts
           sample_client "GET" "/issues" None None None
           [] [] [] (Fixture.conn "0") "0" (PInt 0) _
           (headers_ok_None []) (body_ok_None []) eq_refl
           (fun _ => eq_refl) eq_refl eq_refl eq_refl eq_refl).
Defined.

(** [C9] as stated fails: [post] without a body still sends the content
    type. *)
Lemma post_without_body_sends_content_type :
  wire (snd (Client.post Fixture.json_dumps Fixture.json_loads
               Fixture.decode_utf8 (Fixture.answering "[]")
               Fixture.Request_accepts
               sample_client "/issues" None None [] Fixture.empty_world))
  = [{| full_url := "https://api.example.com/issues";
        data := None;
        req_headers := [("Content-Type", PStr "application/json");
                        ("Authorization", PStr "Token abc");
                        ("User-Agent", PStr "vsc-rest-client")];
        get_method := "POST" |}].
Proof. reflexivity. Qed.

Lemma content_type_follows_the_verb_witness :
  exists req,
    wire (snd (Client.call Fixture.json_dumps Fixture.json_loads
                 Fixture.decode_utf8 (Fixture.answering "[]")
                 Fixture.Request_accepts
                 Client.mDelete sample_client "/issues/1" None None []
                 Fixture.empty_world))
    = [req]
    /\ Dict.get "Content-Type" (req_headers req) = Some (PStr "application/json").
Proof.
  destruct (content_type_follows_the_verb
              Fixture.json_dumps Fixture.json_loads Fixture.decode_utf8
              (Fixture.answering "[]") Fixture.Request_accepts
              Client.mDelete sample_client "/issues/1"
              None None [] [] [] [] I (body_ok_None [])
              ltac:(discriminate) eq_refl)
    as (req & Hw & _ & Hct & _).
  exists req. split; [exact Hw|exact (Hct eq_refl)].
Defined.

Lemma request_updates_the_callers_headers_witness :
  exists hd',
    heap (snd (Client.request Fixture.json_dumps Fixture.json_loads
                 Fixture.decode_utf8 (Fixture.answering "[]")
                 Fixture.Request_accepts
                 sample_client "GET" "/issues" None (Some 0%nat) None
                 {| heap := [PDict [("Authorization", PStr "mine");
                                    ("Accept", PStr "text/plain")]];
                    debug_log := []; wire := [] |})) !! 0%nat
    = Some (PDict hd')
    /\ Dict.get "Authorization" hd' = Some (PStr "Token abc")
    /\ Dict.get "User-Agent" hd' = Some (PStr "vsc-rest-client")
    /\ Dict.get "Accept" hd' = Some (PStr "text/plain").
Proof.
  destruct (request_updates_the_callers_headers
              Fixture.json_dumps Fixture.json_loads Fixture.decode_utf8
              (Fixture.answering "[]") Fixture.Request_accepts
              sample_client "GET" "/issues" None 0%nat None
              [PDict [("Authorization", PStr "mine"); ("Accept", PStr "text/plain")]]
              [] []
              [("Authorization", PStr "mine"); ("Accept", PStr "text/plain")]
              eq_refl ltac:(intros lb [=]))
    as ((hd' & Hheap & Hua & Hauth & _ & Hother) & _).
  exists hd'. split; [exact Hheap|]. split; [exact (Hauth _ eq_refl)|].
  split; [exact Hua|].
  rewrite (Hother "Accept"); first [reflexivity | discriminate].
Defined.

Lemma scenario_raises_on_json_without_length_witness :
  fst (RestClient.call_chain Fixture.json_dumps Fixture.json_loads
         Fixture.decode_utf8 (Fixture.answering "0") Fixture.Request_accepts
         {| RestClient.client := sample_client |} "repos"
         [RequestBuilder.Item (KStr "org"); RequestBuilder.Item (KStr "name");
          RequestBuilder.Attr "issues"; RequestBuilder.Attr "get"]
         None None [("state", "open")] Fixture.empty_world)
  = Raise (TypeError "object of type 'int' has no len()").
Proof.
  exact (proj1 (scenario_raises_on_json_without_length
                  Fixture.json_dumps Fixture.json_loads Fixture.decode_utf8
                  (Fixture.answering "0") Fixture.Request_accepts
                  [] [] [] (Fixture.conn "0") "0"
                  (PInt 0) _ eq_refl
                  (fun _ => eq_refl) eq_refl eq_refl eq_refl eq_refl)).
Defined.

(** The same calls on a client whose base URL has no scheme: the
    constructor of requests refuses the URL, [ValueError] comes out, and
    nothing reaches the opener. The headers are updated and the request is
    recorded in the debug log by then. *)
Example request_without_a_scheme :
  Client.request Fixture.json_dumps Fixture.json_loads Fixture.decode_utf8
    (Fixture.answering "[]") Fixture.Request_accepts
    {| Client.auth_header := None; Client.username := None;
       Client.url := ""; Client.append_slash := false;
       Client.user_agent := Client.USER_AGENT |}
    "GET" "/x" None (Some 0%nat) None
    {| heap := [PDict []]; debug_log := []; wire := [] |}
  = (Raise ValueError,
     {| heap := [PDict [("User-Agent", PStr "vsc-rest-client")];
                 PDict [("User-Agent", PStr "vsc-rest-client")]];
        debug_log := [LogCliRequest "GET" "/x" None
                        (Some (PDict [("User-Agent", PStr "vsc-rest-client")]))];
        wire := [] |}).
Proof. reflexivity. Qed.


(** * Further properties of [rest.py] *)

(** ** Trailing slash and query string *)

Lemma endswith_append_slash (s : string) : PyStr.endswith (s +:+ "/") "/" = true.
Proof.
  induction s as [|c s IH]; [reflexivity|].
  rewrite append_cons. cbn [PyStr.endswith].
  destruct (s +:+ "/") eqn:E; [|exact IH].
  destruct s; discriminate.
Qed.

(** [X1]. [_append_slash_to] returns the URL itself or the URL with one
    slash added. With [append_slash] set the result ends in a slash, also
    for the empty URL; without it, or for a URL that already ends in a
    slash, the URL comes back unchanged; applying it twice is applying it
    once. *)
Theorem append_slash_to_adds_at_most_one_slash (self : Client.t) (url : string) :
  let r := Client._append_slash_to self url in
  (r = url \/ r = url +:+ "/")
  /\ (Client.append_slash self = true -> PyStr.endswith r "/" = true)
  /\ (Client.append_slash self = false -> r = url)
  /\ (PyStr.endswith url "/" = true -> r = url)
  /\ Client._append_slash_to self r = r.
Proof.
  unfold Client._append_slash_to.
  destruct (Client.append_slash self) eqn:Ea; cbn [andb].
  - destruct (PyStr.endswith url "/") eqn:Eu; cbn [negb]; cbv zeta.
    + rewrite Eu. cbn [negb]. repeat split; auto.
    + rewrite endswith_append_slash. cbn [negb].
      repeat split; auto; discriminate.
  - cbv zeta. repeat split; auto; discriminate.
Qed.

Lemma occurrences_app (c : ascii) (a b : string) :
  occurrences c (a +:+ b) = (occurrences c a + occurrences c b)%nat.
Proof.
  induction a as [|x a IH]; [reflexivity|].
  rewrite append_cons. cbn [occurrences]. rewrite IH. lia.
Qed.

Lemma all_chars_app (p : ascii -> bool) (a b : string) :
  all_chars p (a +:+ b) = all_chars p a && all_chars p b.
Proof.
  induction a as [|x a IH]; [reflexivity|].
  rewrite append_cons. cbn [all_chars]. rewrite IH. now rewrite andb_assoc.
Qed.

Lemma all_chars_occurrences (p : ascii -> bool) (c : ascii) (s : string) :
  all_chars p s = true -> p c = false -> occurrences c s = 0%nat.
Proof.
  intros Hs Hc. induction s as [|x s IH]; [reflexivity|].
  cbn [all_chars occurrences] in *. apply andb_true_iff in Hs as [Hx Hs].
  rewrite (IH Hs). destruct (Ascii.eqb_spec x c) as [->|_]; [congruence|reflexivity].
Qed.

Lemma all_chars_weaken (p q : ascii -> bool) (s : string) :
  (forall c, p c = true -> q c = true) ->
  all_chars p s = true -> all_chars q s = true.
Proof.
  intros Hpq. induction s as [|x s IH]; [reflexivity|].
  cbn [all_chars]. rewrite !andb_true_iff. intros [Hx Hs]. auto.
Qed.

Lemma hex_digit_safe (n : nat) : Urllib.always_safe (Urllib.hex_digit n) = true.
Proof.
  unfold Urllib.hex_digit.
  destruct (String.get n "0123456789ABCDEF") as [c|] eqn:E; [|reflexivity].
  apply Base64Facts.get_In in E.
  assert (H : forallb Urllib.always_safe (list_ascii_of_string "0123456789ABCDEF")
              = true) by reflexivity.
  rewrite forallb_forall in H. exact (H c E).
Qed.

Lemma quote_plus_chars (s : string) :
  all_chars quoted_char (Urllib.quote_plus s) = true.
Proof.
  induction s as [|c s IH]; [reflexivity|].
  cbn [Urllib.quote_plus]. rewrite all_chars_app, IH, andb_true_r.
  unfold Urllib.quote_char.
  destruct (Urllib.always_safe c) eqn:Ec.
  - cbn [all_chars]. unfold quoted_char. now rewrite Ec.
  - destruct (Ascii.eqb c " "); [reflexivity|].
    cbn [all_chars]. unfold quoted_char at 2 3.
    rewrite !hex_digit_safe. reflexivity.
Qed.

Lemma quote_plus_occurrences (c : ascii) (s : string) :
  quoted_char c = false -> occurrences c (Urllib.quote_plus s) = 0%nat.
Proof. intros Hc. exact (all_chars_occurrences _ c _ (quote_plus_chars s) Hc). Qed.

Lemma urllib_urlencode_shape (query : list (string * string)) :
  all_chars query_char (Urllib.urlencode query) = true
  /\ occurrences "=" (Urllib.urlencode query) = length query
  /\ occurrences "&" (Urllib.urlencode query) = (length query - 1)%nat.
Proof.
  unfold Urllib.urlencode.
  assert (Hq : forall c, quoted_char c = true -> query_char c = true).
  { intros c Hc. unfold query_char. now rewrite Hc. }
  assert (Hpair : forall kv : string * string,
             all_chars query_char
               (Urllib.quote_plus (fst kv) +:+ "=" +:+ Urllib.quote_plus (snd kv)) = true
             /\ occurrences "="
                  (Urllib.quote_plus (fst kv) +:+ "=" +:+ Urllib.quote_plus (snd kv)) = 1%nat
             /\ occurrences "&"
                  (Urllib.quote_plus (fst kv) +:+ "=" +:+ Urllib.quote_plus (snd kv)) = 0%nat).
  { intros kv. rewrite !all_chars_app, !occurrences_app.
    rewrite !(all_chars_weaken _ _ _ Hq (quote_plus_chars _)).
    rewrite !(quote_plus_occurrences "=") by reflexivity.
    rewrite !(quote_plus_occurrences "&") by reflexivity.
    repeat split. }
  induction query as [|kv query IH]; [repeat split|].
  destruct (Hpair kv) as (Ha & He & Hn).
  destruct query as [|kv' query].
  - change (PyStr.join "&" (map ?f [kv])) with (f kv).
    split; [exact Ha|split; [exact He|exact Hn]].
  - destruct IH as (IHa & IHe & IHn).
    change (PyStr.join "&" (map ?f (kv :: kv' :: query)))
      with (f kv +:+ "&" +:+ PyStr.join "&" (map f (kv' :: query))).
    cbv beta.
    set (a := Urllib.quote_plus (fst kv) +:+ "=" +:+ Urllib.quote_plus (snd kv)) in *.
    set (r := PyStr.join "&" (map _ (kv' :: query))) in *.
    rewrite !all_chars_app, !occurrences_app, Ha, He, Hn, IHa, IHe, IHn.
    cbn [length]. repeat split. cbn. lia.
Qed.

(** [X2]. [urlencode] of no parameters is the empty text. Otherwise it is
    a question mark followed by a query in which every character is a
    letter, a digit or one of [_.-~+%=&]; the query has one [=] for each
    parameter and one [&] between two parameters, so no key or value can
    add a delimiter of its own, nor a [?], [#], [/] or space. *)
Theorem urlencode_delimits_parameters (params : list (string * string)) :
  match params with
  | [] => Client.urlencode params = ""
  | _ :: _ =>
      exists q,
        Client.urlencode params = String "?" q
        /\ all_chars query_char q = true
        /\ occurrences "=" q = length params
        /\ occurrences "&" q = (length params - 1)%nat
  end.
Proof.
  destruct params as [|kv params]; [reflexivity|].
  exists (Urllib.urlencode (kv :: params)). split; [reflexivity|].
  apply urllib_urlencode_shape.
Qed.

(** ** Credentials *)

Lemma hash_pass_nonempty (self_username : option string)
    (password username : string) :
  username <> "" ->
  Client.hash_pass self_username password (Some username)
  = "Basic " +:+ Base64.b64encode (username +:+ ":" +:+ password).
Proof.
  intros H. unfold Client.hash_pass. rewrite Base64Facts.strip_b64encode.
  destruct username; [now destruct H|reflexivity].
Qed.

(** [X3]. [hash_pass] falls back on the client's own user name when it is
    called without one, and also when it is called with the empty text;
    the header is then made with whatever the client holds, the text
    [None] when it holds none. A non-empty user name is used as given. *)
Theorem hash_pass_falls_back_on_the_clients_username
    (self_username : option string) (password : string) :
  Client.hash_pass self_username password None
    = "Basic " +:+ Base64.b64encode
                     (PyStr.str_opt self_username +:+ ":" +:+ password)
  /\ Client.hash_pass self_username password (Some "")
     = Client.hash_pass self_username password None
  /\ Client.hash_pass None password None
     = "Basic " +:+ Base64.b64encode ("None:" +:+ password)
  /\ forall c name,
       Client.hash_pass self_username password (Some (String c name))
       = "Basic " +:+ Base64.b64encode (String c name +:+ ":" +:+ password).
Proof.
  unfold Client.hash_pass. rewrite !Base64Facts.strip_b64encode.
  repeat split. intros c name. now rewrite Base64Facts.strip_b64encode.
Qed.

(** [X4]. The credentials are joined with a colon and nothing is escaped:
    a colon in the user name moves the border between name and password,
    so two different pairs give one header. *)
Theorem hash_pass_confuses_colons
    (self_username : option string) (c : ascii) (name rest password : string) :
  Client.hash_pass self_username password
    (Some (String c name +:+ ":" +:+ rest))
  = Client.hash_pass self_username (rest +:+ ":" +:+ password)
      (Some (String c name)).
Proof.
  rewrite !hash_pass_nonempty.
  - now rewrite !append_assoc.
  - discriminate.
  - rewrite append_cons. discriminate.
Qed.

(** [X5]. The constructor raises exactly when a user name is given together
    with both or neither of password and token. When it succeeds, it keeps
    the URL, the user name and the slash policy, takes the default user
    agent for a missing or empty one, and has an authorization header
    exactly when a password or a token was given. *)
Theorem init_raises_exactly_on_bad_credentials
    (url : string) (username password token : option string)
    (token_type : string) (user_agent : option string) (append_slash : bool) :
  match Client.__init__ url username password token token_type
          user_agent append_slash with
  | Raise e =>
      username <> None
      /\ (password = None <-> token = None)
      /\ exists msg, e = TypeError msg
  | Ok c =>
      (username = None \/ ~ (password = None <-> token = None))
      /\ Client.url c = url
      /\ Client.username c = username
      /\ Client.append_slash c = append_slash
      /\ Client.user_agent c
         = match user_agent with
           | None | Some EmptyString => Client.USER_AGENT
           | Some ua => ua
           end
      /\ (Client.auth_header c = None <-> password = None /\ token = None)
  end.
Proof.
  destruct username as [name|], password as [pw|], token as [tok|];
    cbn [Client.__init__ Client.url Client.username Client.append_slash
         Client.user_agent Client.auth_header];
    repeat split; try discriminate; try tauto; try (now eexists);
    try (right; intros [H1 H2]; first [now specialize (H1 eq_refl)
                                      | now specialize (H2 eq_refl)]);
    try (intros [? ?]; discriminate); try (now left).
Qed.

(** ** More on the path accumulator *)

Lemma uint_has_no_lower_chars (d : Decimal.uint) :
  PyStr.lower_chars (NilEmpty.string_of_uint d) = [].
Proof. induction d; cbn [NilEmpty.string_of_uint PyStr.lower_chars]; auto. Qed.

Lemma index_has_no_lower_chars (z : Z) : PyStr.lower_chars (str (KInt z)) = [].
Proof.
  unfold str, NilZero.string_of_int, NilZero.string_of_uint.
  destruct (Z.to_int z) as [d|d]; destruct d;
    try reflexivity; try apply uint_has_no_lower_chars;
    cbn [PyStr.lower_chars]; try apply uint_has_no_lower_chars;
    change (PyStr.islower "-") with false; cbv iota;
    apply (uint_has_no_lower_chars (_ d)).
Qed.

(** [X6]. An integer index is always a segment: [b[n]] appends the decimal
    text of [n] to the path, whatever the number, and never dispatches. *)
Theorem integer_index_is_a_segment (self : RequestBuilder.t) (z : Z) :
  RequestBuilder.__getitem__ self (KInt z)
  = Ok (RequestBuilder.Self
          {| RequestBuilder.client := RequestBuilder.client self;
             RequestBuilder.url :=
               RequestBuilder.url self +:+ "/"
               +:+ NilZero.string_of_int (Z.to_int z) |}).
Proof.
  apply (RequestBuilderFacts.getattr_segment self (KInt z)).
  unfold RequestBuilder.is_verb_key. rewrite index_has_no_lower_chars.
  apply andb_false_r.
Qed.

(** [X7]. An access hands back a verb method exactly for the method's own
    lower-case name, and the method is then bound to the path accumulated
    so far: no other spelling of a key yields one. *)
Theorem getattr_binds_exactly_the_method_names
    (self : RequestBuilder.t) (key : PyKey) (v : Client.verb) (u : string) :
  RequestBuilder.__getattr__ self key = Ok (RequestBuilder.Partial v u)
  <-> str key = Client.verb_name v /\ u = RequestBuilder.url self.
Proof.
  split.
  - apply RequestBuilderFacts.getattr_partial_inv.
  - intros [Hk ->]. unfold RequestBuilder.__getattr__. rewrite Hk.
    now destruct v.
Qed.

(** [X8]. A chain can be cut after any number of segment accesses: going
    on from the builder the first part returned gives what the whole chain
    gives, and that builder holds the path of the first part after the
    path it started with. *)
Theorem chain_can_be_cut_anywhere
    (self : RequestBuilder.t) (first rest : list RequestBuilder.access) :
  forallb RequestBuilder.segment_access first = true ->
  exists b,
    RequestBuilder.chain self first = Ok (RequestBuilder.Self b)
    /\ RequestBuilder.url b
       = RequestBuilder.url self
         +:+ RequestBuilder.path_of (map RequestBuilder.name_of first)
    /\ RequestBuilder.client b = RequestBuilder.client self
    /\ RequestBuilder.chain self (first ++ rest) = RequestBuilder.chain b rest.
Proof.
  intros H. eexists. split; [|split; [|split]].
  - rewrite <- (app_nil_r first) at 1.
    rewrite (RequestBuilderFacts.chain_segments first [] self H). reflexivity.
  - reflexivity.
  - reflexivity.
  - apply RequestBuilderFacts.chain_segments, H.
Qed.

Lemma chain_can_be_cut_anywhere_witness :
  RequestBuilder.chain (RequestBuilder.__init__ sample_client)
    ([RequestBuilder.Attr "repos"; RequestBuilder.Item (KInt 3)]
     ++ [RequestBuilder.Attr "issues"; RequestBuilder.Attr "post"])
  = Ok (RequestBuilder.Partial Client.mPost "/repos/3/issues").
Proof.
  destruct (chain_can_be_cut_anywhere (RequestBuilder.__init__ sample_client)
              [RequestBuilder.Attr "repos"; RequestBuilder.Item (KInt 3)]
              [RequestBuilder.Attr "issues"; RequestBuilder.Attr "post"] eq_refl)
    as (b & Hb & _ & _ & ->).
  injection Hb as <-. reflexivity.
Defined.

(** ** More on the transport *)

Section MoreTransportFacts.

Variable json_dumps : PyVal -> string.
Variable json_loads : string -> option PyVal.
Variable decode_utf8 : string -> option string.
Variable opener_open : HttpRequest -> Outcome Conn.t.
Variable Request_accepts : string -> bool.

Let request :=
  Client.request json_dumps json_loads decode_utf8 opener_open Request_accepts.
Let call :=
  Client.call json_dumps json_loads decode_utf8 opener_open Request_accepts.

(** [X9]. The separator never lets the base URL and the relative URL run
    into each other: in the URL of a request that is built and handed to
    the opener, the base URL ends in a slash or what follows it begins with
    one, also for an empty relative URL. *)
Theorem get_connection_never_glues
    (self : Client.t) (method url : string) (body : option string)
    (lh : loc) (hm : Dict.t)
    (h : list PyVal) (lg : list LogRecord) (wr : list HttpRequest) :
  h !! lh = Some (PDict hm) ->
  Request_accepts (joined_url self url) = true ->
  exists req tail,
    wire (snd (Client.get_connection opener_open Request_accepts
                 self method url body lh
                 {| heap := h; debug_log := lg; wire := wr |}))
    = wr ++ [req]
    /\ full_url req = Client.url self +:+ tail
    /\ (PyStr.endswith (Client.url self) "/" = true
        \/ PyStr.startswith tail "/" = true).
Proof.
  intros H Hacc.
  exists (request_sent self method url body hm),
         (Client.separator self url +:+ url).
  rewrite (get_connection_run opener_open Request_accepts
             self method url body lh hm h lg wr H Hacc).
  split; [reflexivity|]. split; [reflexivity|].
  unfold Client.separator.
  destruct (PyStr.endswith (Client.url self) "/"); [now left|right].
  destruct (PyStr.startswith url "/") eqn:E; [exact E|reflexivity].
Qed.

(** [X10]. A [headers] argument that is not a dictionary makes [request]
    raise [TypeError] at its first assignment: nothing is logged, nothing
    is handed to the opener and no object is changed. *)
Theorem request_refuses_headers_that_are_no_dictionary
    (self : Client.t) (method url : string) (body : option loc) (lh : loc)
    (content_type : option string) (w : World) (v : PyVal) :
  heap w !! lh = Some v ->
  is_dict v = false ->
  exists msg,
    request self method url body (Some lh) content_type w
    = (Raise (TypeError msg), w).
Proof.
  intros Hv Hd. unfold request, Client.request.
  rewrite (bind_ok (ret lh) _ w w lh eq_refl).
  destruct content_type as [ct|].
  - destruct (setitem_not_dict lh "Content-Type" (PStr ct) v w Hv Hd) as [msg E].
    exists msg. now rewrite (bind_raise _ _ w w _ E).
  - rewrite (bind_ok (ret tt) _ w w tt eq_refl).
    destruct (Client.auth_header self) as [a|].
    + destruct (setitem_not_dict lh "Authorization" (PStr a) v w Hv Hd) as [msg E].
      exists msg. now rewrite (bind_raise _ _ w w _ E).
    + rewrite (bind_ok (ret tt) _ w w tt eq_refl).
      destruct (setitem_not_dict lh "User-Agent"
                  (PStr (Client.user_agent self)) v w Hv Hd) as [msg E].
      exists msg. now rewrite (bind_raise _ _ w w _ E).
Qed.

Lemma body_cell_after_headers (hp : list PyVal) (headers : option loc)
    (lb : loc) (hm : Dict.t) :
  (lb < length hp)%nat -> headers <> Some lb ->
  <[headers_loc hp headers := PDict hm]> (heap_with_headers hp headers) !! lb
  = hp !! lb.
Proof.
  intros Hlb Hne.
  destruct headers as [l|]; cbn [headers_loc heap_with_headers].
  - apply list_lookup_insert_ne. congruence.
  - rewrite list_lookup_insert_ne by lia. now apply lookup_app_l.
Qed.

(** [X11]. A body that is a text goes out as it is and goes into the debug
    record as it is: it is neither serialised again nor censored, whatever
    it contains, and the record announcing this precedes the record of the
    request. This is for a URL the constructor of requests takes. *)
Theorem request_passes_a_text_body_through
    (self : Client.t) (method url : string) (lb : loc) (headers : option loc)
    (content_type : option string)
    (hp : list PyVal) (lgw : list LogRecord) (wr : list HttpRequest)
    (s : string) :
  hp !! lb = Some (PStr s) ->
  headers_ok hp headers ->
  Request_accepts (joined_url self url) = true ->
  let w' := snd (request self method url (Some lb) headers content_type
                   {| heap := hp; debug_log := lgw; wire := wr |}) in
  exists req hc tail,
    wire w' = wr ++ [req]
    /\ data req = Some s
    /\ debug_log w'
       = lgw ++ LogPreSerialized
              :: LogCliRequest method url (Some (PStr s)) hc :: tail.
Proof.
  intros Hs Hh Hacc w'.
  assert (Hlb : (lb < length hp)%nat) by (eapply lookup_lt_Some; exact Hs).
  assert (Hb : body_ok hp (Some lb)) by (intros ? [= <-]; exact Hlb).
  assert (Hne : headers <> Some lb).
  { intros ->. destruct Hh as [d Hd]. congruence. }
  destruct (request_world json_dumps json_loads decode_utf8 opener_open
              Request_accepts
              self method url (Some lb) headers content_type hp lgw wr Hh Hb Hacc)
    as (copies & tail & E).
  rewrite (body_cell_after_headers hp headers lb _ Hlb Hne), Hs in E.
  cbn [is_str body_logged body_sent app] in E.
  subst w'. unfold request. rewrite E. cbn [wire debug_log].
  eexists. eexists. exists tail. repeat split.
Qed.

(** [X12]. The two errors of the library on the way out come out of
    [request] as they are. An exception of the opener: by then the request
    has been handed to the opener once, and the debug log holds the record
    of the request and the record of the opening, and no record of a
    response. A URL the constructor of requests refuses: [ValueError],
    with the request recorded in the debug log, no record of an opening,
    and nothing handed to the opener. *)
Theorem request_propagates_transport_errors
    (self : Client.t) (method url : string) (body headers : option loc)
    (content_type : option string)
    (hp : list PyVal) (lgw : list LogRecord) (wr : list HttpRequest)
    (e : PyExc) :
  headers_ok hp headers -> body_ok hp body ->
  let run := request self method url body headers content_type
               {| heap := hp; debug_log := lgw; wire := wr |} in
  (Request_accepts (joined_url self url) = true ->
   (forall req, opener_open req = Raise e) ->
   fst run = Raise e
   /\ exists req pre bl hc,
        wire (snd run) = wr ++ [req]
        /\ (pre = [] \/ pre = [LogPreSerialized])
        /\ debug_log (snd run)
           = lgw ++ pre
             ++ [LogCliRequest method url bl hc;
                 LogOpening (Client.url self) (Client.separator self url) url])
  /\ (Request_accepts (joined_url self url) = false ->
      fst run = Raise ValueError
      /\ wire (snd run) = wr
      /\ exists pre bl hc,
           (pre = [] \/ pre = [LogPreSerialized])
           /\ debug_log (snd run) = lgw ++ pre ++ [LogCliRequest method url bl hc]).
Proof.
  intros Hh Hb run. subst run. unfold request. split.
  - intros Hacc Ho.
    rewrite (request_run json_dumps json_loads decode_utf8 opener_open
               Request_accepts
               self method url body headers content_type hp lgw wr _
               (heap_with_headers_ok hp headers Hh) Hb Hacc).
    unfold answer. rewrite Ho. cbn [fst snd wire debug_log].
    split; [reflexivity|].
    eexists. eexists. eexists. eexists.
    split; [reflexivity|]. split; [|reflexivity].
    match goal with
    | |- context [match ?bv with Some _ => _ | None => _ end] =>
        destruct bv as [v|]; [destruct (is_str v)|]; auto
    end.
  - intros Hacc.
    rewrite (request_refused json_dumps json_loads decode_utf8 opener_open
               Request_accepts
               self method url body headers content_type hp lgw wr _
               (heap_with_headers_ok hp headers Hh) Hb Hacc).
    cbn [fst snd wire debug_log].
    split; [reflexivity|]. split; [reflexivity|].
    eexists. eexists. eexists. split; [|reflexivity].
    match goal with
    | |- context [match ?bv with Some _ => _ | None => _ end] =>
        destruct bv as [v|]; [destruct (is_str v)|]; auto
    end.
Qed.


(** [X14]. For [HEAD] the body of the answer is never decoded: the result
    is the status and the headers whatever bytes the answer holds. For any
    other method, bytes that are not UTF-8 make [request] raise
    [UnicodeDecodeError]: the fallback to the raw text covers only a failed
    JSON parse. This is for a request that is built and answered. *)
Theorem request_decodes_only_outside_head
    (self : Client.t) (method url : string) (body headers : option loc)
    (content_type : option string)
    (hp : list PyVal) (lgw : list LogRecord) (wr : list HttpRequest)
    (conn : Conn.t) :
  headers_ok hp headers -> body_ok hp body ->
  Request_accepts (joined_url self url) = true ->
  (forall req, opener_open req = Ok conn) ->
  fst (request self Client.HEAD url body headers content_type
         {| heap := hp; debug_log := lgw; wire := wr |})
  = Ok (Conn.code conn, Client.Headers (Conn.headers conn))
  /\ (String.eqb method Client.HEAD = false ->
      decode_utf8 (Conn.read conn) = None ->
      fst (request self method url body headers content_type
             {| heap := hp; debug_log := lgw; wire := wr |})
      = Raise UnicodeDecodeError).
Proof.
  intros Hh Hb Hacc Ho. unfold request.
  rewrite !(request_outcome json_dumps json_loads decode_utf8 opener_open
              Request_accepts _ _ _ _ _ _ _ _ _ conn Hh Hb Hacc Ho).
  split; [reflexivity|].
  intros Hm Hd. unfold decode_response. now rewrite Hm, Hd.
Qed.


(** [X16]. [request] changes no object but the headers dictionary: every
    object the caller holds, the body included, is after the call what it
    was before, except the dictionary passed as [headers]; with
    [headers=None] nothing the caller holds changes. This holds however
    the call ends. *)
Theorem request_changes_only_the_headers
    (self : Client.t) (method url : string) (body headers : option loc)
    (content_type : option string)
    (hp : list PyVal) (lgw : list LogRecord) (wr : list HttpRequest) :
  headers_ok hp headers -> body_ok hp body ->
  forall l, (l < length hp)%nat -> headers <> Some l ->
    heap (snd (request self method url body headers content_type
                 {| heap := hp; debug_log := lgw; wire := wr |})) !! l
    = hp !! l.
Proof.
  intros Hh Hb l Hl Hne.
  destruct (request_heap json_dumps json_loads decode_utf8 opener_open
              Request_accepts
              self method url body headers content_type hp lgw wr Hh Hb)
    as (copies & E).
  unfold request. rewrite E.
  rewrite lookup_app_l.
  - now apply body_cell_after_headers.
  - rewrite length_insert. destruct headers; cbn [heap_with_headers];
      [exact Hl|rewrite length_app; lia].
Qed.

(** [X17]. A verb called on the facade itself, as in [g.get()], is bound
    to the empty path: the request goes to the base URL followed by one
    slash, the base URL's own if it ends in one; with [append_slash] set a
    slash is appended in any case. This is for a base URL that makes a URL
    the constructor of requests takes. *)
Theorem verb_on_the_facade_requests_the_base_url
    (c : Client.t) (v : Client.verb) (headers : option loc)
    (hp : list PyVal) (lgw : list LogRecord) (wr : list HttpRequest) :
  headers_ok hp headers ->
  let target :=
    if Client.append_slash c || negb (PyStr.endswith (Client.url c) "/")
    then Client.url c +:+ "/"
    else Client.url c in
  Request_accepts target = true ->
  exists req,
    wire (snd (RestClient.call_chain json_dumps json_loads decode_utf8
                 opener_open Request_accepts {| RestClient.client := c |}
                 (Client.verb_name v) [] headers None []
                 {| heap := hp; debug_log := lgw; wire := wr |}))
    = wr ++ [req]
    /\ get_method req = Client.verb_method v
    /\ full_url req = target.
Proof.
  intros Hh target Hacc.
  assert (E : RestClient.call_chain json_dumps json_loads decode_utf8
                opener_open Request_accepts {| RestClient.client := c |}
                (Client.verb_name v) [] headers None []
              = request c (Client.verb_method v)
                  (Client._append_slash_to c "" +:+ "") None headers
                  (content_type_of v)) by (now destruct v).
  rewrite E.
  assert (Ht : joined_url c (Client._append_slash_to c "" +:+ "") = target).
  { unfold target, joined_url, Client._append_slash_to, Client.separator.
    change (PyStr.endswith "" "/") with false. cbn [negb].
    destruct (Client.append_slash c); cbn [andb orb].
    - change (PyStr.startswith (("" +:+ "/") +:+ "") "/") with true.
      now rewrite andb_false_r.
    - change (PyStr.startswith ("" +:+ "") "/") with false.
      rewrite andb_true_r.
      destruct (PyStr.endswith (Client.url c) "/"); cbn [negb];
        [now rewrite append_nil_r|reflexivity]. }
  rewrite <- Ht in Hacc.
  destruct (request_world json_dumps json_loads decode_utf8 opener_open
              Request_accepts
              c (Client.verb_method v) (Client._append_slash_to c "" +:+ "")
              None headers (content_type_of v) hp lgw wr Hh (body_ok_None hp)
              Hacc)
    as (copies & tail & Ew).
  unfold request. rewrite Ew. cbn [wire]. eexists. split; [reflexivity|].
  split; [reflexivity|]. exact Ht.
Qed.

End MoreTransportFacts.

Lemma get_connection_never_glues_witness :
  exists req tail,
    wire (snd (Client.get_connection (Fixture.answering "[]")
                 Fixture.Request_accepts sample_client
                 "GET" "" None 0%nat
                 {| heap := [PDict []]; debug_log := []; wire := [] |}))
    = [req]
    /\ full_url req = "https://api.example.com" +:+ tail
    /\ PyStr.startswith tail "/" = true.
Proof.
  destruct (get_connection_never_glues (Fixture.answering "[]")
              Fixture.Request_accepts sample_client
              "GET" "" None 0%nat [] [PDict []] [] [] eq_refl eq_refl)
    as (req & tail & Hw & Hu & [H|H]); [discriminate H|].
  exists req, tail. repeat split; assumption.
Defined.

Lemma request_refuses_headers_that_are_no_dictionary_witness :
  exists msg,
    Client.request Fixture.json_dumps Fixture.json_loads Fixture.decode_utf8
      (Fixture.answering "[]") Fixture.Request_accepts
      sample_client "GET" "/issues" None (Some 0%nat)
      None {| heap := [PList [PStr "Accept"]]; debug_log := []; wire := [] |}
    = (Raise (TypeError msg),
       {| heap := [PList [PStr "Accept"]]; debug_log := []; wire := [] |}).
Proof.
  exact (request_refuses_headers_that_are_no_dictionary
           Fixture.json_dumps Fixture.json_loads Fixture.decode_utf8
           (Fixture.answering "[]") Fixture.Request_accepts
           sample_client "GET" "/issues" None 0%nat
           None {| heap := [PList [PStr "Accept"]]; debug_log := []; wire := [] |}
           (PList [PStr "Accept"]) eq_refl eq_refl).
Defined.

Lemma request_passes_a_text_body_through_witness :
  exists req hc tail,
    let w' := snd (Client.request Fixture.json_dumps Fixture.json_loads
                     Fixture.decode_utf8 (Fixture.answering "{}")
                     Fixture.Request_accepts
                     sample_client "POST" "/issues" (Some 0%nat) None
                     (Some "application/json")
                     {| heap := [PStr "{'password': 'secret'}"];
                        debug_log := []; wire := [] |}) in
    wire w' = [req]
    /\ data req = Some "{'password': 'secret'}"
    /\ debug_log w'
       = LogPreSerialized
         :: LogCliRequest "POST" "/issues"
              (Some (PStr "{'password': 'secret'}")) hc :: tail.
Proof.
  exact (request_passes_a_text_body_through
           Fixture.json_dumps Fixture.json_loads Fixture.decode_utf8
           (Fixture.answering "{}") Fixture.Request_accepts
           sample_client "POST" "/issues" 0%nat None
           (Some "application/json") [PStr "{'password': 'secret'}"] [] []
           "{'password': 'secret'}" eq_refl I eq_refl).
Defined.

Lemma request_propagates_transport_errors_witness :
  fst (Client.request Fixture.json_dumps Fixture.json_loads Fixture.decode_utf8
         (fun _ => Raise (TransportError (Some 404%Z))) Fixture.Request_accepts
         sample_client "GET" "/missing" None None None Fixture.empty_world)
  = Raise (TransportError (Some 404%Z)).
Proof.
  exact (proj1 (proj1 (request_propagates_transport_errors
                         Fixture.json_dumps Fixture.json_loads Fixture.decode_utf8
                         (fun _ => Raise (TransportError (Some 404%Z)))
                         Fixture.Request_accepts
                         sample_client "GET" "/missing" None None None [] [] []
                         (TransportError (Some 404%Z))
                         (headers_ok_None []) (body_ok_None []))
                  eq_refl (fun _ => eq_refl))).
Defined.


Lemma request_decodes_only_outside_head_witness :
  fst (Client.request Fixture.json_dumps Fixture.json_loads Fixture.decode_utf8
         (Fixture.answering (String (ascii_of_nat 255) ""))
         Fixture.Request_accepts
         sample_client "HEAD" "/issues" None None None Fixture.empty_world)
  = Ok (200%Z, Client.Headers [("Content-Type", "application/json")])
  /\ fst (Client.request Fixture.json_dumps Fixture.json_loads
            Fixture.decode_utf8
            (Fixture.answering (String (ascii_of_nat 255) ""))
            Fixture.Request_accepts
            sample_client "GET" "/issues" None None None Fixture.empty_world)
     = Raise UnicodeDecodeError.
Proof.
  destruct (request_decodes_only_outside_head
              Fixture.json_dumps Fixture.json_loads Fixture.decode_utf8
              (Fixture.answering (String (ascii_of_nat 255) ""))
              Fixture.Request_accepts
              sample_client "GET" "/issues" None None None [] [] []
              (Fixture.conn (String (ascii_of_nat 255) ""))
              (headers_ok_None []) (body_ok_None []) eq_refl (fun _ => eq_refl))
    as [Hhead Hget].
  split; [exact Hhead|exact (Hget eq_refl eq_refl)].
Defined.


Lemma request_changes_only_the_headers_witness :
  heap (snd (Client.request Fixture.json_dumps Fixture.json_loads
               Fixture.decode_utf8 (Fixture.answering "[]")
               Fixture.Request_accepts
               sample_client "POST" "/issues" (Some 1%nat) (Some 0%nat)
               (Some "application/json")
               {| heap := [PDict []; PDict [("password", PStr "secret")]];
                  debug_log := []; wire := [] |})) !! 1%nat
  = Some (PDict [("password", PStr "secret")]).
Proof.
  apply (request_changes_only_the_headers
           Fixture.json_dumps Fixture.json_loads Fixture.decode_utf8
           (Fixture.answering "[]") Fixture.Request_accepts
           sample_client "POST" "/issues"
           (Some 1%nat) (Some 0%nat) (Some "application/json")
           [PDict []; PDict [("password", PStr "secret")]] [] []).
  - now exists [].
  - intros lb [= <-]. cbn. lia.
  - cbn. lia.
  - discriminate.
Defined.

Lemma verb_on_the_facade_requests_the_base_url_witness :
  exists req,
    wire (snd (RestClient.call_chain Fixture.json_dumps Fixture.json_loads
                 Fixture.decode_utf8 (Fixture.answering "[]")
                 Fixture.Request_accepts
                 {| RestClient.client := sample_client |} "get" [] None None []
                 Fixture.empty_world))
    = [req]
    /\ get_method req = "GET"
    /\ full_url req = "https://api.example.com/".
Proof.
  exact (verb_on_the_facade_requests_the_base_url
           Fixture.json_dumps Fixture.json_loads Fixture.decode_utf8
           (Fixture.answering "[]") Fixture.Request_accepts
           sample_client Client.mGet None [] [] []
           (headers_ok_None []) eq_refl).
Defined.

(** * Properties of [missing.py] *)

#[local] Set Warnings "-clear-no-such-hyp".

Module MissingFacts.

Import Missing.

(** ** [any] and [all] *)

Lemma fold_add_shift (l : list Z) (a : Z) :
  fold_left Z.add l a = (a + fold_left Z.add l 0)%Z.
Proof.
  revert a. induction l as [|x l IH]; intros a; cbn [fold_left].
  - lia.
  - rewrite (IH (a + x)%Z), (IH (0 + x)%Z). lia.
Qed.

Lemma sum_cons (x : Z) (l : list Z) : sum (x :: l) = (x + sum l)%Z.
Proof. unfold sum. cbn [fold_left]. rewrite fold_add_shift. lia. Qed.

Lemma sum_of_bools_bounds {A} (bool_ : A -> bool) (ls : list A) :
  (0 <= sum (map (fun x => int_of_bool (bool_ x)) ls) <= Z.of_nat (length ls))%Z.
Proof.
  induction ls as [|x ls IH]; [unfold sum; cbn; lia|].
  cbn [map length]. rewrite sum_cons.
  destruct (bool_ x); cbn [int_of_bool]; lia.
Qed.

Lemma any_existsb {A} (bool_ : A -> bool) (ls : list A) :
  any bool_ ls = existsb bool_ ls.
Proof.
  unfold any. induction ls as [|x ls IH]; [reflexivity|].
  cbn [map existsb]. rewrite sum_cons, <- IH.
  pose proof (sum_of_bools_bounds bool_ ls) as Hb.
  destruct (bool_ x); cbn [orb int_of_bool]; [|reflexivity].
  apply negb_true_iff, Z.eqb_neq. lia.
Qed.

Lemma all_forallb {A} (bool_ : A -> bool) (ls : list A) :
  all bool_ ls = forallb bool_ ls.
Proof.
  unfold all. induction ls as [|x ls IH]; [reflexivity|].
  cbn [map length forallb]. rewrite sum_cons, <- IH.
  pose proof (sum_of_bools_bounds bool_ ls) as Hb.
  destruct (bool_ x); cbn [andb int_of_bool].
  - destruct (Z.eqb_spec (sum (map (fun x => int_of_bool (bool_ x)) ls))
                (Z.of_nat (length ls))) as [E|E].
    + apply Z.eqb_eq. lia.
    + apply Z.eqb_neq. lia.
  - apply Z.eqb_neq. lia.
Qed.

(** [X18]. The counting versions of [any] and [all] agree with the builtins
    on every list: [any(ls)] holds exactly when some element is true,
    [all(ls)] exactly when every element is; so on the empty list [any] is
    false and [all] is true. *)
Theorem any_and_all_are_the_builtins {A} (bool_ : A -> bool) (ls : list A) :
  any bool_ ls = existsb bool_ ls
  /\ all bool_ ls = forallb bool_ ls
  /\ (any bool_ ls = true <-> exists x, x ∈ ls /\ bool_ x = true)
  /\ (all bool_ ls = true <-> forall x, x ∈ ls -> bool_ x = true).
Proof.
  rewrite any_existsb, all_forallb. split; [reflexivity|]. split; [reflexivity|].
  split.
  - rewrite existsb_exists. split; intros (x & Hx & Hb); exists x; split; auto;
      now apply list_elem_of_In.
  - rewrite forallb_forall. split; intros H x Hx; apply H;
      now apply list_elem_of_In.
Qed.

(** ** [nub] *)

Section Lists.

Context {A : Type} {eq_dec : EqDecision A} {countable : Countable A}.

Lemma nub_from_filter (s t : gset A) (l : list A) :
  nub_from (s ∪ t) l = filter (fun y => y ∉ t) (nub_from s l).
Proof.
  revert s. induction l as [|x l IH]; intros s; [reflexivity|].
  cbn [nub_from]. destruct (decide (x ∈ s)) as [Hs|Hs].
  - rewrite decide_True by set_solver. apply IH.
  - destruct (decide (x ∈ t)) as [Ht|Ht].
    + rewrite decide_True by set_solver.
      rewrite filter_cons_False by (intros Hn; now apply Hn).
      rewrite <- IH. f_equal. set_solver.
    + rewrite decide_False by set_solver.
      rewrite filter_cons_True by exact Ht.
      f_equal. rewrite <- IH. f_equal. set_solver.
Qed.

Lemma nub_cons (x : A) (l : list A) :
  nub (x :: l) = x :: filter (fun y => y ≠ x) (nub l).
Proof.
  unfold nub. cbn [nub_from]. rewrite decide_False by set_solver.
  f_equal. replace ({[x]} ∪ ∅ : gset A) with (∅ ∪ {[x]} : gset A) by set_solver.
  rewrite nub_from_filter. apply list_filter_iff. intros y. set_solver.
Qed.

Lemma nub_NoDup (l : list A) : NoDup (nub l).
Proof.
  induction l as [|x l IH]; [constructor|].
  rewrite nub_cons. constructor.
  - rewrite list_elem_of_filter. tauto.
  - now apply NoDup_filter.
Qed.

Lemma nub_elem_of (l : list A) (x : A) : x ∈ nub l <-> x ∈ l.
Proof.
  revert x. induction l as [|x l IH]; intros y; [reflexivity|].
  rewrite nub_cons, !elem_of_cons, list_elem_of_filter, IH.
  destruct (decide (y = x)); tauto.
Qed.

Lemma nub_sublist (l : list A) : nub l `sublist_of` l.
Proof.
  induction l as [|x l IH]; [constructor|].
  rewrite nub_cons. apply sublist_skip.
  etransitivity; [apply sublist_filter|exact IH].
Qed.

Lemma filter_all (P : A -> Prop) `{forall x, Decision (P x)} (l : list A) :
  (forall x, x ∈ l -> P x) -> filter P l = l.
Proof.
  induction l as [|x l IH]; intros Hall; [reflexivity|].
  rewrite filter_cons_True by (apply Hall; left).
  f_equal. apply IH. intros y Hy. apply Hall. now right.
Qed.

Lemma nub_of_NoDup (l : list A) : NoDup l -> nub l = l.
Proof.
  induction l as [|x l IH]; intros Hnd; [reflexivity|].
  apply NoDup_cons in Hnd as [Hx Hnd].
  rewrite nub_cons, (IH Hnd). f_equal. apply filter_all.
  intros y Hy ->. contradiction.
Qed.

(** [X19]. [nub] keeps the first occurrence of every element and drops the
    later ones: the result has no element twice, has exactly the elements
    of the list, and is the list with some elements left out, in the
    order of the list; the head of the list is always kept, and the rest
    of the result is the [nub] of the tail without the head. *)
Theorem nub_keeps_each_element_once (l : list A) :
  NoDup (nub l)
  /\ (forall x, x ∈ nub l <-> x ∈ l)
  /\ nub l `sublist_of` l
  /\ match l with
     | [] => nub l = []
     | x :: rest => nub l = x :: filter (fun y => y <> x) (nub rest)
     end.
Proof.
  split; [apply nub_NoDup|]. split; [apply nub_elem_of|].
  split; [apply nub_sublist|]. destruct l; [reflexivity|apply nub_cons].
Qed.

(** [X20]. [nub] gives a list back unchanged exactly when the list has no
    element twice, and applying it a second time changes nothing. *)
Theorem nub_fixes_exactly_the_duplicate_free_lists (l : list A) :
  (nub l = l <-> NoDup l) /\ nub (nub l) = nub l.
Proof.
  split.
  - split; [|apply nub_of_NoDup]. intros <-. apply nub_NoDup.
  - apply nub_of_NoDup, nub_NoDup.
Qed.

(** ** [nub_by] *)






(** ** [find_sublist_index] *)

Lemma find_seq_first (f : nat -> bool) (n a : nat) :
  match List.find f (seq a n) with
  | Some i => (a <= i < a + n)%nat /\ f i = true
              /\ forall j, (a <= j < i)%nat -> f j = false
  | None => forall j, (a <= j < a + n)%nat -> f j = false
  end.
Proof.
  revert a. induction n as [|n IH]; intros a; cbn [seq List.find].
  - intros j Hj. lia.
  - destruct (f a) eqn:Ea.
    + split; [lia|]. split; [exact Ea|]. intros j Hj. lia.
    + specialize (IH (S a)). destruct (List.find f (seq (S a) n)) as [i|].
      * destruct IH as (Hi & Hf & Hmin). split; [lia|]. split; [exact Hf|].
        intros j Hj. destruct (decide (j = a)) as [->|Hne]; [exact Ea|].
        apply Hmin. lia.
      * intros j Hj. destruct (decide (j = a)) as [->|Hne]; [exact Ea|].
        apply IH. lia.
Qed.

Lemma slice_matches (ls sub_ls : list A) (i : nat) :
  slice ls i (i + length sub_ls) = sub_ls
  <-> exists post, drop i ls = sub_ls ++ post.
Proof.
  unfold slice. replace (i + length sub_ls - i)%nat with (length sub_ls) by lia.
  split.
  - intros E. exists (drop (length sub_ls) (drop i ls)).
    rewrite <- E at 1. now rewrite take_drop.
  - intros [post ->]. now rewrite take_app_length.
Qed.

(** [X23]. [find_sublist_index] returns the first index below [len(ls)] at
    which [sub_ls] starts in [ls], and [None] when there is none. On the
    edges: in the empty list nothing is found, not even the empty
    sublist, and the empty sublist is found at index 0 of every other
    list. *)
Theorem find_sublist_index_finds_the_first_match (ls sub_ls : list A) :
  match find_sublist_index ls sub_ls with
  | Some i =>
      (i < length ls)%nat
      /\ (exists post, drop i ls = sub_ls ++ post)
      /\ forall j, (j < i)%nat -> ~ exists post, drop j ls = sub_ls ++ post
  | None =>
      forall j, (j < length ls)%nat -> ~ exists post, drop j ls = sub_ls ++ post
  end
  /\ find_sublist_index [] sub_ls = None
  /\ (ls <> [] -> find_sublist_index ls [] = Some 0%nat).
Proof.
  split; [|split; [reflexivity|]].
  - unfold find_sublist_index.
    pose proof (find_seq_first
                  (fun i => bool_decide (slice ls i (i + length sub_ls) = sub_ls))
                  (length ls) 0) as Hf.
    cbv zeta. destruct (List.find _ _) as [i|].
    + destruct Hf as (Hi & Hm & Hmin). split; [lia|]. split.
      * apply slice_matches. now apply bool_decide_eq_true in Hm.
      * intros j Hj Hex. apply slice_matches in Hex.
        specialize (Hmin j ltac:(lia)). apply bool_decide_eq_false in Hmin.
        contradiction.
    + intros j Hj Hex. apply slice_matches in Hex.
      specialize (Hf j ltac:(lia)). apply bool_decide_eq_false in Hf.
      contradiction.
  - intros Hne. destruct ls as [|x ls]; [congruence|]. reflexivity.
Qed.

End Lists.

End MissingFacts.

(** ** [Monoid] and [MonoidDict] *)

Module MonoidFacts.

Lemma fold_left_from {A} (f : A -> A -> A) (e : A) (ys : list A) (a : A) :
  (forall x, f e x = x) -> (forall x, f x e = x) ->
  (forall x y z, f (f x y) z = f x (f y z)) ->
  fold_left f ys a = f a (fold_left f ys e).
Proof.
  intros Hl Hr Ha. revert a. induction ys as [|y ys IH]; intros a; cbn [fold_left].
  - now rewrite Hr.
  - rewrite (IH (f a y)), (IH (f e y)), Hl. apply Ha.
Qed.

(** [X24]. For a [Monoid] whose [null] is a left and right identity of an
    associative [mappend], folding a concatenation is combining the folds
    of the parts; the monoid [star()] returns folds the same way; and
    calling the monoid on two values combines them. *)
Theorem fold_of_a_concatenation {A} (m : Monoid.t A) (xs ys : list A) :
  (forall x, Monoid.mappend m (Monoid.null m) x = x) ->
  (forall x, Monoid.mappend m x (Monoid.null m) = x) ->
  (forall x y z, Monoid.mappend m (Monoid.mappend m x y) z
                 = Monoid.mappend m x (Monoid.mappend m y z)) ->
  Monoid.fold m (xs ++ ys)
    = Monoid.mappend m (Monoid.fold m xs) (Monoid.fold m ys)
  /\ Monoid.fold (Monoid.star m) (xs ++ ys) = Monoid.fold m (xs ++ ys)
  /\ forall a b, Monoid.__call__ m [a; b] = Monoid.mappend m a b.
Proof.
  intros Hl Hr Ha. split; [|split].
  - unfold Monoid.fold. rewrite fold_left_app.
    now apply fold_left_from.
  - reflexivity.
  - intros a b. unfold Monoid.__call__, Monoid.fold. cbn [fold_left].
    now rewrite Hl.
Qed.

Section Dict.

Context {K : Type} {eq_dec : EqDecision K} {countable : Countable K} {A : Type}.

Import MonoidDict.

Lemma getitem_setitem (d : MonoidDict.t K A) (k k' : K) (v : A) :
  (forall x, Monoid.mappend (monoid d) (Monoid.null (monoid d)) x = x) ->
  __getitem__ (__setitem__ d k v) k'
  = if decide (k = k')
    then Monoid.mappend (monoid d) (__getitem__ d k) v
    else __getitem__ d k'.
Proof.
  intros Hl. unfold __getitem__, __setitem__.
  destruct (items d !! k) as [cur|] eqn:E; cbn [items monoid];
    destruct (decide (k = k')) as [<-|Hne];
    rewrite ?lookup_insert_eq, ?lookup_insert_ne by exact Hne;
    try reflexivity.
  - unfold Monoid.__call__, Monoid.fold. cbn [fold_left]. now rewrite Hl.
  - now rewrite Hl.
Qed.

Lemma monoid_setitem (d : MonoidDict.t K A) (k : K) (v : A) :
  monoid (__setitem__ d k v) = monoid d.
Proof. unfold __setitem__. now destruct (items d !! k). Qed.

(** [X25]. Reading a key of a [MonoidDict] after a run of assignments gives
    what the key held before (the monoid's [null] for a key that was
    absent) combined from the left with the values assigned to that key,
    in the order of the assignments; assignments to other keys do not
    count. This needs [null] to be a left identity of [mappend]. *)
Theorem monoid_dict_accumulates (d : MonoidDict.t K A) (pairs : list (K * A)) (k : K) :
  (forall x, Monoid.mappend (monoid d) (Monoid.null (monoid d)) x = x) ->
  __getitem__ (set_each d pairs) k
  = fold_left (Monoid.mappend (monoid d))
      (map snd (filter (fun kv => fst kv = k) pairs))
      (__getitem__ d k).
Proof.
  intros Hl. unfold set_each. revert d Hl.
  induction pairs as [|[k0 v0] pairs IH]; intros d Hl; [reflexivity|].
  cbn [fold_left fst snd]. rewrite IH by (now rewrite monoid_setitem).
  rewrite monoid_setitem, getitem_setitem by exact Hl.
  destruct (decide (k0 = k)) as [->|Hne].
  - now rewrite filter_cons_True by reflexivity.
  - now rewrite filter_cons_False by exact Hne.
Qed.

End Dict.

Lemma fold_of_a_concatenation_witness :
  Monoid.fold Fixture.list_monoid ([[1%Z]; [2%Z; 3%Z]] ++ [[4%Z]])
  = Monoid.mappend Fixture.list_monoid
      (Monoid.fold Fixture.list_monoid [[1%Z]; [2%Z; 3%Z]])
      (Monoid.fold Fixture.list_monoid [[4%Z]]).
Proof.
  apply (fold_of_a_concatenation Fixture.list_monoid [[1%Z]; [2%Z; 3%Z]] [[4%Z]]).
  - intros x. reflexivity.
  - intros x. apply app_nil_r.
  - intros x y z. symmetry. apply app_assoc.
Defined.

Lemma monoid_dict_accumulates_witness :
  MonoidDict.__getitem__
    (MonoidDict.set_each Fixture.tally [("a", 1%Z); ("b", 2%Z); ("a", 3%Z)]) "a"
  = 4%Z.
Proof.
  etransitivity.
  - apply (monoid_dict_accumulates Fixture.tally
             [("a", 1%Z); ("b", 2%Z); ("a", 3%Z)] "a").
    intros x. reflexivity.
  - vm_compute. reflexivity.
Defined.

End MonoidFacts.

(** ** [TryOrFail] *)

Module TryOrFailFacts.

Import TryOrFail.

Section Retry.

Context {R E : Type}.

Variable is_caught : E -> bool.
Variable function : nat -> R + E.

Local Abbreviation attempts := (TryOrFail.attempts is_caught function).
Local Abbreviation new_function := (TryOrFail.new_function is_caught function).
Local Abbreviation caught_at := (TryOrFail.caught_at is_caught function).
Local Abbreviation ends_at := (TryOrFail.ends_at function).

Lemma calls_cons_retry (self : t) (i : nat) (err : E) (evs : list (event E)) :
  calls (Called i :: LogException i err
           :: (if (0 <? sleep self)%Z
               then [LogWarning (sleep self); Sleep (sleep self)] else [])
           ++ evs) = S (calls evs)
  /\ sleeps (Called i :: LogException i err
               :: (if (0 <? sleep self)%Z
                   then [LogWarning (sleep self); Sleep (sleep self)] else [])
               ++ evs)
     = ((if (0 <? sleep self)%Z then 1 else 0) + sleeps evs)%nat.
Proof.
  unfold calls, sleeps. destruct (0 <? sleep self)%Z; split; reflexivity.
Qed.

Lemma attempts_stop (self : t) (todo i j : nat) :
  Z.of_nat (i + todo) = n self ->
  (i <= j < i + todo)%nat ->
  (forall k, (i <= k < j)%nat -> caught_at k = true) ->
  caught_at j = false ->
  snd (attempts self todo i) = ends_at j
  /\ calls (fst (attempts self todo i)) = S (j - i)
  /\ sleeps (fst (attempts self todo i))
     = ((if (0 <? sleep self)%Z then 1 else 0) * (j - i))%nat.
Proof.
  revert i. induction todo as [|todo IH]; intros i Hn Hj Hc Hend; [lia|].
  cbn [TryOrFail.attempts].
  destruct (decide (i = j)) as [->|Hne].
  - unfold TryOrFail.ends_at. unfold TryOrFail.caught_at in Hend.
    replace (j - j)%nat with 0%nat by lia. rewrite Nat.mul_0_r.
    destruct (function j) as [r|err] eqn:Ef; [repeat split|].
    rewrite Hend. repeat split.
  - pose proof (Hc i ltac:(lia)) as Hi. unfold TryOrFail.caught_at in Hi.
    destruct (function i) as [r|err] eqn:Ef; [discriminate|]. rewrite Hi.
    replace (Z.of_nat i =? n self - 1)%Z with false
      by (symmetry; apply Z.eqb_neq; lia).
    cbn [fst snd].
    destruct (IH (S i) ltac:(lia) ltac:(lia)
                (fun k Hk => Hc k ltac:(lia)) Hend) as (Ho & Hcalls & Hsl).
    destruct (calls_cons_retry self i err (fst (attempts self todo (S i))))
      as [-> ->].
    rewrite Ho, Hcalls, Hsl. split; [reflexivity|]. split; [lia|].
    destruct (0 <? sleep self)%Z; lia.
Qed.

Lemma attempts_exhaust (self : t) (todo i : nat) :
  Z.of_nat (i + S todo) = n self ->
  (forall k, (i <= k < i + S todo)%nat -> caught_at k = true) ->
  snd (attempts self (S todo) i) = ends_at (i + todo)
  /\ calls (fst (attempts self (S todo) i)) = S todo
  /\ sleeps (fst (attempts self (S todo) i))
     = ((if (0 <? sleep self)%Z then 1 else 0) * todo)%nat.
Proof.
  revert i. induction todo as [|todo IH]; intros i Hn Hc.
  - cbn [TryOrFail.attempts].
    pose proof (Hc i ltac:(lia)) as Hi. unfold TryOrFail.caught_at in Hi.
    unfold TryOrFail.ends_at. rewrite Nat.add_0_r, Nat.mul_0_r.
    destruct (function i) as [r|err] eqn:Ef; [discriminate|]. rewrite Hi.
    replace (Z.of_nat i =? n self - 1)%Z with true
      by (symmetry; apply Z.eqb_eq; lia).
    repeat split.
  - destruct (IH (S i) ltac:(lia) (fun k Hk => Hc k ltac:(lia)))
      as (Ho & Hcalls & Hsl).
    remember (S todo) as m eqn:Em.
    cbn [TryOrFail.attempts].
    pose proof (Hc i ltac:(lia)) as Hi. unfold TryOrFail.caught_at in Hi.
    destruct (function i) as [r|err] eqn:Ef; [discriminate|]. rewrite Hi.
    replace (Z.of_nat i =? n self - 1)%Z with false
      by (symmetry; apply Z.eqb_neq; lia).
    cbn [fst snd].
    destruct (calls_cons_retry self i err (fst (attempts self m (S i))))
      as [-> ->].
    rewrite Ho, Hcalls, Hsl. replace (S i + todo)%nat with (i + m)%nat by lia.
    split; [reflexivity|]. split; [lia|].
    destruct (0 <? sleep self)%Z; lia.
Qed.

(** [X26]. When attempt [j], counted from 0 and below [n], is the first
    whose call returns or raises an exception outside [exceptions], the
    decorated function ends as that call ends: it returns its value or
    raises its exception. The function has then been called [j + 1]
    times, and [time.sleep] has been called once for each caught
    exception when [sleep] is positive, and never otherwise. *)
Theorem new_function_stops_at_the_first_end (self : t) (j : nat) :
  (Z.of_nat j < n self)%Z ->
  (forall k, (k < j)%nat -> caught_at k = true) ->
  caught_at j = false ->
  snd (new_function self) = ends_at j
  /\ calls (fst (new_function self)) = S j
  /\ sleeps (fst (new_function self))
     = if (0 <? sleep self)%Z then j else 0%nat.
Proof.
  intros Hj Hc Hend.
  destruct (attempts_stop self (Z.to_nat (n self)) 0 j ltac:(lia) ltac:(lia)
              (fun k Hk => Hc k ltac:(lia)) Hend) as (Ho & Hcalls & Hsl).
  unfold TryOrFail.new_function.
  rewrite Ho, Hcalls, Hsl. replace (j - 0)%nat with j by lia.
  repeat split. destruct (0 <? sleep self)%Z; lia.
Qed.

(** [X27]. When every one of the [n] attempts raises a caught exception,
    for [n] positive, the exception of the last attempt comes out: the
    function has been called [n] times and, with a positive [sleep], has
    slept [n - 1] times, not after the last attempt. For [n] zero or
    negative the function is never called and [None] is returned. *)
Theorem new_function_gives_up_after_n_attempts (self : t) :
  ((n self <= 0)%Z -> new_function self = ([], Returned None))
  /\ ((0 < n self)%Z ->
      (forall k, (Z.of_nat k < n self)%Z -> caught_at k = true) ->
      snd (new_function self) = ends_at (Z.to_nat (n self) - 1)
      /\ (exists err, ends_at (Z.to_nat (n self) - 1) = Raised err)
      /\ calls (fst (new_function self)) = Z.to_nat (n self)
      /\ sleeps (fst (new_function self))
         = if (0 <? sleep self)%Z then (Z.to_nat (n self) - 1)%nat else 0%nat).
Proof.
  split.
  - intros Hn. unfold TryOrFail.new_function.
    replace (Z.to_nat (n self)) with 0%nat by lia. reflexivity.
  - intros Hn Hc.
    destruct (Z.to_nat (n self)) as [|todo] eqn:En; [lia|].
    destruct (attempts_exhaust self todo 0 ltac:(lia)
                (fun k Hk => Hc k ltac:(lia))) as (Ho & Hcalls & Hsl).
    unfold TryOrFail.new_function. rewrite En.
    rewrite Ho, Hcalls, Hsl.
    replace (S todo - 1)%nat with todo by lia. cbn [Nat.add].
    split; [reflexivity|]. split.
    + pose proof (Hc todo ltac:(lia)) as Hi. unfold TryOrFail.caught_at in Hi.
      unfold TryOrFail.ends_at.
      destruct (function todo) as [r|err]; [discriminate|]. now exists err.
    + split; [reflexivity|]. destruct (0 <? sleep self)%Z; lia.
Qed.

End Retry.

Lemma new_function_stops_at_the_first_end_witness :
  snd (new_function Fixture.catch_all Fixture.flaky Fixture.five_tries)
  = Returned (Some 7%Z)
  /\ calls (fst (new_function Fixture.catch_all Fixture.flaky Fixture.five_tries))
     = 3%nat
  /\ sleeps (fst (new_function Fixture.catch_all Fixture.flaky Fixture.five_tries))
     = 2%nat.
Proof.
  apply (new_function_stops_at_the_first_end Fixture.catch_all Fixture.flaky
           Fixture.five_tries 2).
  - reflexivity.
  - intros k Hk. destruct k as [|[|k]]; [reflexivity|reflexivity|exfalso; lia].
  - reflexivity.
Defined.

Lemma new_function_gives_up_after_n_attempts_witness :
  snd (new_function Fixture.catch_all Fixture.failing Fixture.three_tries)
  = Raised "timeout"
  /\ calls (fst (new_function Fixture.catch_all Fixture.failing Fixture.three_tries))
     = 3%nat
  /\ sleeps (fst (new_function Fixture.catch_all Fixture.failing Fixture.three_tries))
     = 0%nat.
Proof.
  destruct (proj2 (new_function_gives_up_after_n_attempts
                     Fixture.catch_all Fixture.failing Fixture.three_tries)
              eq_refl (fun k _ => eq_refl))
    as (Ho & _ & Hc & Hs).
  split; [exact Ho|]. split; [exact Hc|exact Hs].
Defined.

End TryOrFailFacts.

(** ** [ConstantDict] *)

Module ConstantDictFacts.

Import ConstantDict.

Section Dict.

Context {V Exc : Type}.

Variable KNOWN_KEYS : list string.
Variable raiseException : string -> option Exc.
Variable str_value : V -> string.
Variable str_known_keys : string.

Local Abbreviation __setitem__ :=
  (ConstantDict.__setitem__ KNOWN_KEYS raiseException str_value str_known_keys).
Local Abbreviation set_each :=
  (ConstantDict.set_each KNOWN_KEYS raiseException str_value str_known_keys).
Local Abbreviation update :=
  (ConstantDict.update KNOWN_KEYS raiseException str_value str_known_keys).
Local Abbreviation update_skip_unknown :=
  (ConstantDict.update_skip_unknown KNOWN_KEYS raiseException str_value
     str_known_keys).
Local Abbreviation known_pairs := (ConstantDict.known_pairs KNOWN_KEYS).

Lemma set_each_defined (self : t (V:=V)) (pairs : list (string * V)) :
  is_defined self = true ->
  items (fst (set_each self pairs)) = items self
  /\ is_defined (fst (set_each self pairs)) = true
  /\ skip_unknown (fst (set_each self pairs)) = skip_unknown self.
Proof.
  intros Hd. revert self Hd. induction pairs as [|[k v] pairs IH]; intros self Hd;
    [repeat split; assumption|].
  cbn [ConstantDict.set_each].
  unfold ConstantDict.__setitem__. rewrite Hd.
  destruct (raiseException _); cbn [raised fst]; [repeat split; assumption|].
  apply IH, Hd.
Qed.

Lemma update_defined (self : t (V:=V)) (args : list (list (string * V)))
    (kwargs : list (string * V)) :
  is_defined self = true ->
  items (fst (update self args kwargs)) = items self
  /\ is_defined (fst (update self args kwargs)) = true.
Proof.
  intros Hs. unfold ConstantDict.update.
  assert (Hthen : forall s' : t (V:=V),
            items s' = items self -> is_defined s' = true ->
            items (fst (set_each s' kwargs)) = items self
            /\ is_defined (fst (set_each s' kwargs)) = true).
  { intros s' Hi Hdd.
    destruct (set_each_defined s' kwargs Hdd) as (H1 & H2 & _).
    split; [congruence|exact H2]. }
  pose proof (set_each_defined self) as Hset.
  destruct args as [|arg [|b more]]; cbv beta iota zeta.
  - now apply Hthen.
  - destruct (Hset arg Hs) as (H1 & H2 & _).
    destruct (set_each self arg) as [s' [|e]]; cbn [fst] in *;
      [now apply Hthen|split; assumption].
  - destruct (raiseException "Only one argument supported"); cbn [raised];
      cbv beta iota; [split; [reflexivity|exact Hs]|].
    destruct (Hset arg Hs) as (H1 & H2 & _).
    destruct (set_each self arg) as [s' [|e']]; cbn [fst] in *;
      [now apply Hthen|split; assumption].
Qed.

(** [X28]. After [set_defined()] the dictionary is frozen: an assignment,
    an [update] and an [update_skip_unknown] leave its items as they are,
    whatever the keys and whether or not the logger's [raiseException]
    raises, and it stays defined. *)
Theorem defined_dictionary_is_frozen (self : t (V:=V)) (key : string) (value : V)
    (args : list (list (string * V))) (kwargs : list (string * V)) :
  is_defined self = true ->
  items (fst (__setitem__ self key value)) = items self
  /\ items (fst (update self args kwargs)) = items self
  /\ items (fst (update_skip_unknown self args kwargs)) = items self
  /\ is_defined (fst (update self args kwargs)) = true
  /\ is_defined (fst (update_skip_unknown self args kwargs)) = true.
Proof.
  intros Hd.
  split; [|split; [|split; [|split]]].
  - unfold ConstantDict.__setitem__. now rewrite Hd.
  - apply update_defined, Hd.
  - unfold ConstantDict.update_skip_unknown.
    destruct (update_defined
                {| items := items self; is_defined := is_defined self;
                   skip_unknown := true |} args kwargs Hd) as [H1 H2].
    destruct (update _ args kwargs) as [s2 [|e]]; exact H1.
  - apply update_defined, Hd.
  - unfold ConstantDict.update_skip_unknown.
    destruct (update_defined
                {| items := items self; is_defined := is_defined self;
                   skip_unknown := true |} args kwargs Hd) as [H1 H2].
    destruct (update _ args kwargs) as [s2 [|e]]; exact H2.
Qed.

Lemma set_each_skipping (m : gmap string V) (pairs : list (string * V)) :
  set_each {| items := m; is_defined := false; skip_unknown := true |} pairs
  = ({| items := store_each m (known_pairs pairs);
        is_defined := false; skip_unknown := true |}, Done).
Proof.
  revert m. induction pairs as [|[k v] pairs IH]; intros m; [reflexivity|].
  cbn [ConstantDict.set_each].
  unfold ConstantDict.__setitem__, unknown_key. cbn [is_defined skip_unknown items].
  unfold ConstantDict.known_pairs. cbn [List.filter fst].
  destruct (PyStr.mem k KNOWN_KEYS); [|apply IH].
  cbn [store_each fold_left fst snd]. apply IH.
Qed.

(** [X29]. On a dictionary that is not yet defined, [update_skip_unknown]
    with at most one positional argument never raises: it stores the
    pairs with a known key, those of the argument before the keyword
    ones, a later pair overwriting an earlier one with the same key, it
    drops the pairs with an unknown key, and it leaves [skip_unknown]
    off. *)
Theorem update_skip_unknown_stores_the_known_pairs
    (self : t (V:=V)) (args : list (list (string * V))) (kwargs : list (string * V)) :
  is_defined self = false ->
  (length args <= 1)%nat ->
  update_skip_unknown self args kwargs
  = ({| items := store_each (items self) (known_pairs (concat args ++ kwargs));
        is_defined := false; skip_unknown := false |}, Done).
Proof.
  intros Hd Hlen.
  unfold ConstantDict.update_skip_unknown, ConstantDict.update.
  rewrite Hd.
  destruct args as [|arg [|b more]]; [| |cbn in Hlen; lia].
  - rewrite set_each_skipping. reflexivity.
  - rewrite set_each_skipping.
    rewrite set_each_skipping. cbn [items is_defined].
    cbn [concat]. rewrite app_nil_r.
    unfold ConstantDict.known_pairs, store_each.
    now rewrite List.filter_app, fold_left_app.
Qed.

(** [X30]. An exception inside [update_skip_unknown] leaves the skip mode
    on. With a logger whose [raiseException] raises, a call with two
    positional arguments raises before anything is stored and before
    [skip_unknown] is set back; from then on a plain [update] with an
    unknown key is silent, where on the dictionary as it was (with
    [skip_unknown] off) it raises the message about the invalid key. *)
Theorem update_skip_unknown_can_leave_the_skip_mode_on
    (self : t (V:=V)) (a b : list (string * V)) (more : list (list (string * V)))
    (kwargs : list (string * V)) (e : Exc) (key : string) (value : V) :
  raiseException "Only one argument supported" = Some e ->
  is_defined self = false ->
  PyStr.mem key KNOWN_KEYS = false ->
  let after := fst (update_skip_unknown self (a :: b :: more) kwargs) in
  update_skip_unknown self (a :: b :: more) kwargs
  = ({| items := items self; is_defined := false; skip_unknown := true |}, Raised e)
  /\ update after [] [(key, value)] = (after, Done)
  /\ (skip_unknown self = false ->
      update self [] [(key, value)]
      = (self,
         raised (raiseException
                   ("Key '" +:+ key +:+ "' (value: '" +:+ str_value value
                    +:+ "') is not valid (valid keys: " +:+ str_known_keys
                    +:+ ")")))).
Proof.
  intros He Hd Hk after.
  assert (E : update_skip_unknown self (a :: b :: more) kwargs
              = ({| items := items self; is_defined := false;
                    skip_unknown := true |}, Raised e)).
  { unfold ConstantDict.update_skip_unknown, ConstantDict.update.
    now rewrite He, Hd. }
  split; [exact E|]. subst after. rewrite E. cbn [fst]. split.
  - unfold ConstantDict.update. cbn [ConstantDict.set_each].
    unfold ConstantDict.__setitem__, unknown_key.
    cbn [is_defined skip_unknown]. now rewrite Hk.
  - intros Hs. unfold ConstantDict.update. cbn [ConstantDict.set_each].
    unfold ConstantDict.__setitem__, unknown_key. rewrite Hd, Hk, Hs.
    destruct (raised _); reflexivity.
Qed.

End Dict.

Lemma defined_dictionary_is_frozen_witness :
  items (fst (update Fixture.known_keys Fixture.raise_always Fixture.str_text
                Fixture.str_known_keys (set_defined Fixture.open_dict)
                [[("name", "other")]] [("version", "2")]))
  = items Fixture.open_dict.
Proof.
  exact (proj1 (proj2 (defined_dictionary_is_frozen
                         Fixture.known_keys Fixture.raise_always Fixture.str_text
                         Fixture.str_known_keys (set_defined Fixture.open_dict)
                         "name" "other" [[("name", "other")]] [("version", "2")]
                         eq_refl))).
Defined.

Lemma update_skip_unknown_stores_the_known_pairs_witness :
  update_skip_unknown Fixture.known_keys Fixture.raise_always Fixture.str_text
    Fixture.str_known_keys Fixture.open_dict
    [[("version", "1.0"); ("colour", "red")]] [("name", "vsc")]
  = ({| items := <["name" := "vsc"]>
                   (<["version" := "1.0"]> (items Fixture.open_dict));
        is_defined := false; skip_unknown := false |}, Done).
Proof.
  exact (update_skip_unknown_stores_the_known_pairs
           Fixture.known_keys Fixture.raise_always Fixture.str_text
           Fixture.str_known_keys Fixture.open_dict
           [[("version", "1.0"); ("colour", "red")]] [("name", "vsc")]
           eq_refl (le_n 1)).
Defined.

Lemma update_skip_unknown_can_leave_the_skip_mode_on_witness :
  update_skip_unknown Fixture.known_keys Fixture.raise_always Fixture.str_text
    Fixture.str_known_keys Fixture.open_dict
    [[("name", "a")]; [("name", "b")]] []
  = ({| items := items Fixture.open_dict; is_defined := false;
        skip_unknown := true |}, Raised "Only one argument supported")
  /\ update Fixture.known_keys Fixture.raise_always Fixture.str_text
       Fixture.str_known_keys
       {| items := items Fixture.open_dict; is_defined := false;
          skip_unknown := true |} [] [("colour", "red")]
     = ({| items := items Fixture.open_dict; is_defined := false;
           skip_unknown := true |}, Done).
Proof.
  destruct (update_skip_unknown_can_leave_the_skip_mode_on
              Fixture.known_keys Fixture.raise_always Fixture.str_text
              Fixture.str_known_keys Fixture.open_dict
              [("name", "a")] [("name", "b")] [] []
              "Only one argument supported" "colour" "red"
              eq_refl eq_refl eq_refl)
    as (H1 & H2 & _).
  split; [exact H1|]. rewrite H1 in H2. exact H2.
Defined.

End ConstantDictFacts.
